(** * BrickLink order price calculator: cost allocation

    A shallow embedding of [Price_Calculator.py] and the properties of its
    proportional cost-allocation code.

    Modelling conventions.
    - Amounts.  Python [float] values are modelled as exact rationals [Q];
      equality of amounts is [Qeq] (written [==]).  Binary64 rounding error
      is abstracted away: a statement that the specification makes "within
      floating tolerance" is stated here as an exact equality of rationals.
    - Quantities are Python [int]s, modelled as [Z].
    - Exceptions.  A Python expression that can raise is a computation in
      the [result] monad; [x / y] raises [ZeroDivisionError] when [y] is
      zero (Python never yields an infinity or a NaN from a division).
    - Dictionaries with a fixed set of keys ([order_data], the item
      dictionaries, [amounts]) are records.
    - Console output and files.  What a function prints or writes is part
      of the value it returns here (a list of typed lines or rows); the
      lines printed before an exception are kept.  The rendering of a
      number with [:.2f], [:.4f] or [round(x, n)] is the rational
      [py_round x n].  Prompts, file names and the creation of directories
      and files are left out. *)

From Stdlib Require Import QArith Qabs Qround ZArith NArith List String Ascii Bool Lia Lqa.
From Stdlib Require Import Setoid Morphisms.
From Stdlib Require Import Permutation.
Import ListNotations.

Open Scope Q_scope.

(** ** Exceptions *)

Inductive exn : Type :=
| ZeroDivisionError
| EOFError
| ValueError
| OtherException (msg : string).

Inductive result (A : Type) : Type :=
| Ok (a : A)
| Raise (e : exn).

Arguments Ok {A} a.
Arguments Raise {A} e.

Definition bind {A B : Type} (m : result A) (k : A -> result B) : result B :=
  match m with
  | Ok a => k a
  | Raise e => Raise e
  end.

Notation "x <- m ;; k" := (bind m (fun x => k))
  (at level 61, m at next level, right associativity).

Definition is_ok {A : Type} (m : result A) : bool :=
  match m with Ok _ => true | Raise _ => false end.

(** ** Numbers *)

Definition Qlt_bool (x y : Q) : bool := negb (Qle_bool y x).

(** [x / y] on Python numbers. *)
Definition py_div (x y : Q) : result Q :=
  if Qeq_bool y 0 then Raise ZeroDivisionError else Ok (x / y).

(** An [int] that meets a [float] in a product or in a quotient is made
    a [float] first, and that raises [OverflowError] when the integer
    rounds to more than the largest [float]: from 2^1024 - 2^970 on, in
    absolute value. *)
Definition OverflowError : exn :=
  OtherException "int too large to convert to float".

Definition fits_float (n : Z) : bool := (Z.abs n <? 2 ^ 1024 - 2 ^ 970)%Z.

Definition float_of_int (n : Z) : result Q :=
  if fits_float n then Ok (inject_Z n) else Raise OverflowError.

(** Rounding to the nearest integer, ties to the even neighbour. *)
Definition round_half_even (x : Q) : Z :=
  let f := Qfloor x in
  let d := x - inject_Z f in
  match Qcompare d (1 # 2) with
  | Lt => f
  | Gt => (f + 1)%Z
  | Eq => if Z.even f then f else (f + 1)%Z
  end.

Definition pow10 (n : nat) : Q := inject_Z (10 ^ Z.of_nat n).

(** [round(x, n)], and the value shown by the format [:.nf]. *)
Definition py_round (x : Q) (n : nat) : Q :=
  inject_Z (round_half_even (x * pow10 n)) / pow10 n.

(** ** Data model *)

(** One entry of [order_data["items_data"]]. *)
Record Item : Type := mkItem {
  name : string;
  qty : Z;
  unit_price : Q;
  total : Q
}.

(** The [order_data] dictionary. *)
Record OrderData : Type := mkOrderData {
  order_number : string;
  items_data : list Item;
  subtotal : Q;
  shipping : Q;
  insurance : Q;
  additional_charges_1 : Q;
  additional_charges_2 : Q;
  credit : Q;
  grand_total : Q;
  original_currency : string;
  exchange_rate : Q
}.

(** Well-formed orders: a positive exchange rate (the rate is 1.0 or comes
    from a prompt loop that accepts positive numbers only) and positive
    quantities. *)
Definition valid_item (it : Item) : bool := (0 <? qty it)%Z.

Definition valid_order (o : OrderData) : bool :=
  Qlt_bool 0 (exchange_rate o) && forallb valid_item (items_data o).

(** ** The allocation loop of [calculate_costs_from_data] *)

(** The local variables of one iteration of the loop over [items_data]. *)
Record Allocation : Type := mkAllocation {
  alloc_item : Item;
  item_additional_cost : Q;
  additional_cost_per_unit : Q;
  true_unit_cost : Q
}.

Definition total_additional_costs (o : OrderData) : Q :=
  shipping o + insurance o + additional_charges_1 o + additional_charges_2 o
  - credit o.

(** [total_additional_costs / subtotal if subtotal > 0 else 0] *)
Definition additional_cost_rate (o : OrderData) : result Q :=
  if Qlt_bool 0 (subtotal o)
  then py_div (total_additional_costs o) (subtotal o)
  else Ok 0.

Definition allocate_item (rate : Q) (it : Item) : result Allocation :=
  let cost := total it * rate in
  per_unit <- py_div cost (inject_Z (qty it)) ;;
  Ok (mkAllocation it cost per_unit (unit_price it + per_unit)).

(** The loop, with its accumulator [total_additional_distributed].  It
    yields the iterations completed (a line is printed for each of them)
    and either the final value of the accumulator or the exception that
    stopped it. *)
Fixpoint allocation_loop (rate : Q) (items : list Item)
    (distributed : Q) (rows : list Allocation) : list Allocation * result Q :=
  match items with
  | [] => (rows, Ok distributed)
  | it :: rest =>
      match allocate_item rate it with
      | Raise e => (rows, Raise e)
      | Ok a =>
          allocation_loop rate rest (distributed + item_additional_cost a)
                          (rows ++ [a])
      end
  end.

(** [sum(item["qty"] for item in items_data)] *)
Definition total_items (items : list Item) : Z :=
  fold_left (fun acc it => (acc + qty it)%Z) items 0%Z.

(** ** [create_csv_output] *)

(** A cell of the CSV file, by the Python value that is written. *)
Inductive cell : Type :=
| Blank
| Str (s : string)
| Int (z : Z)
| Num (q : Q)
| Percent (q : Q)                 (* f"{q:.2f}%" *)
| Minus (q : Q)                   (* f"-{q}" *)
| RateText (cur : string) (rate : Q).   (* f"1 {cur} = {rate} AUD" *)

Definition csv_row : Type := list (string * cell).

Record CsvFile : Type := mkCsvFile {
  fieldnames : list string;
  csv_rows : list csv_row
}.

Definition is_AUD (cur : string) : bool := String.eqb cur "AUD".

Definition original_column (cur : string) : string :=
  ("Original " ++ cur ++ " $")%string.

(** A row of the single-currency schema. *)
Definition row5 (n r q o t : cell) : csv_row :=
  [("Name", n); ("Additional R", r); ("QTY", q);
   ("Original AUD $", o); ("New AUD $", t)]%string.

(** A row of the dual-currency schema. *)
Definition row6 (cur : string) (n r q f o t : cell) : csv_row :=
  [("Name", n); ("Additional R", r); ("QTY", q); (original_column cur, f);
   ("Original AUD $", o); ("New AUD $", t)]%string.

Fixpoint mapM {A B : Type} (f : A -> result B) (l : list A) : result (list B) :=
  match l with
  | [] => Ok []
  | x :: rest =>
      y <- f x ;;
      ys <- mapM f rest ;;
      Ok (y :: ys)
  end.

(** The body of the loop that fills [csv_data]. *)
Definition csv_item_row (o : OrderData) (rate : Q) (it : Item) : result csv_row :=
  let cost := total it * rate in
  per_unit <- py_div cost (inject_Z (qty it)) ;;
  let true_cost := unit_price it + per_unit in
  orig <- (if negb (Qeq_bool (exchange_rate o) 1)
           then py_div (unit_price it) (exchange_rate o)
           else Ok (unit_price it)) ;;
  if is_AUD (original_currency o)
  then Ok (row5 (Str (name it)) (Percent (py_round (rate * 100) 2)) (Int (qty it))
                (Num (py_round (unit_price it) 4)) (Num (py_round true_cost 4)))
  else Ok (row6 (original_currency o)
                (Str (name it)) (Percent (py_round (rate * 100) 2)) (Int (qty it))
                (Num (py_round orig 4))
                (Num (py_round (unit_price it) 4)) (Num (py_round true_cost 4))).

Definition when (b : bool) (r : csv_row) : list csv_row :=
  if b then [r] else [].

Definition summary_aud (o : OrderData) (rate : Q) (n_items : Z) (costs : Q)
  : list csv_row :=
  [ [] ;
    row5 (Str "SUMMARY") Blank Blank Blank Blank ;
    row5 (Str "Subtotal") Blank (Int n_items) (Num (subtotal o)) Blank ;
    row5 (Str "Shipping") Blank Blank (Num (shipping o)) Blank ]
  ++ when (Qlt_bool 0 (insurance o))
       (row5 (Str "Insurance") Blank Blank (Num (insurance o)) Blank)
  ++ when (Qlt_bool 0 (additional_charges_1 o))
       (row5 (Str "Additional Charges 1") Blank Blank
             (Num (additional_charges_1 o)) Blank)
  ++ when (Qlt_bool 0 (additional_charges_2 o))
       (row5 (Str "Additional Charges 2") Blank Blank
             (Num (additional_charges_2 o)) Blank)
  ++ when (Qlt_bool 0 (credit o))
       (row5 (Str "Credit") Blank Blank (Minus (credit o)) Blank)
  ++ [ row5 (Str "Total Additional Costs") (Percent (py_round (rate * 100) 2))
            Blank (Num costs) Blank ;
       row5 (Str "Grand Total") Blank Blank Blank (Num (grand_total o)) ].

Definition summary_foreign (o : OrderData) (rate : Q) (n_items : Z) (costs : Q)
  : result (list csv_row) :=
  let cur := original_currency o in
  let x := exchange_rate o in
  orig_subtotal <- py_div (subtotal o) x ;;
  orig_shipping <- py_div (shipping o) x ;;
  orig_insurance <- py_div (insurance o) x ;;
  orig_add1 <- py_div (additional_charges_1 o) x ;;
  orig_add2 <- py_div (additional_charges_2 o) x ;;
  orig_credit <- py_div (credit o) x ;;
  orig_total_additional <- py_div costs x ;;
  orig_grand_total <- py_div (grand_total o) x ;;
  Ok ([ [] ;
        row6 cur (Str "SUMMARY") Blank Blank Blank Blank Blank ;
        row6 cur (Str "Exchange Rate") (RateText cur x) Blank Blank Blank Blank ;
        row6 cur (Str "Subtotal") Blank (Int n_items)
             (Num orig_subtotal) (Num (subtotal o)) Blank ;
        row6 cur (Str "Shipping") Blank Blank
             (Num orig_shipping) (Num (shipping o)) Blank ]
      ++ when (Qlt_bool 0 (insurance o))
           (row6 cur (Str "Insurance") Blank Blank
                 (Num orig_insurance) (Num (insurance o)) Blank)
      ++ when (Qlt_bool 0 (additional_charges_1 o))
           (row6 cur (Str "Additional Charges 1") Blank Blank
                 (Num orig_add1) (Num (additional_charges_1 o)) Blank)
      ++ when (Qlt_bool 0 (additional_charges_2 o))
           (row6 cur (Str "Additional Charges 2") Blank Blank
                 (Num orig_add2) (Num (additional_charges_2 o)) Blank)
      ++ when (Qlt_bool 0 (credit o))
           (row6 cur (Str "Credit") Blank Blank
                 (Minus orig_credit) (Minus (credit o)) Blank)
      ++ [ row6 cur (Str "Total Additional Costs")
                (Percent (py_round (rate * 100) 2)) Blank
                (Num orig_total_additional) (Num costs) Blank ;
           row6 cur (Str "Grand Total") Blank Blank
                (Num orig_grand_total) Blank (Num (grand_total o)) ]).

(** The file that [create_csv_output] computes: its header and its rows.
    What the file system does with them is in [OnDisk.create_csv_output]
    below. *)
Definition create_csv_output (o : OrderData) (rate : Q) (n_items : Z) (costs : Q)
  : result CsvFile :=
  csv_data <- mapM (csv_item_row o rate) (items_data o) ;;
  if is_AUD (original_currency o)
  then Ok (mkCsvFile ["Name"; "Additional R"; "QTY"; "Original AUD $"; "New AUD $"]%string
                     (csv_data ++ summary_aud o rate n_items costs))
  else
    summary <- summary_foreign o rate n_items costs ;;
    Ok (mkCsvFile ["Name"; "Additional R"; "QTY"; original_column (original_currency o);
                   "Original AUD $"; "New AUD $"]%string
                  (csv_data ++ summary)).

(** ** [calculate_costs_from_data] *)

(** The lines printed on the console. *)
Inductive line : Type :=
| Heading (order : string)
| CurrencyInfo (cur : string) (rate : Q)
| Rule (n : nat)
| Amount (label : string) (v : Q)          (* f"{label}: AU ${v:.2f}" *)
| CreditLine (v : Q)                       (* f"Credit: -AU ${v:.2f}" *)
| RateLine (rate4 percent2 : Q)
| EmptyLine
| TableHead
| ItemLine (item_name : string) (quantity : Z) (orig add true_cost : Q)
| DifferenceLine (v : Q)                   (* f"Difference: AU ${v:.4f}" *)
| CsvSaved.

Definition line_when (b : bool) (l : line) : list line :=
  if b then [l] else [].

Definition header_lines (o : OrderData) (costs rate : Q) : list line :=
  [Heading (order_number o)]
  ++ line_when (negb (is_AUD (original_currency o)))
       (CurrencyInfo (original_currency o) (exchange_rate o))
  ++ [Rule 70;
      Amount "Subtotal" (py_round (subtotal o) 2);
      Amount "Shipping" (py_round (shipping o) 2)]
  ++ line_when (Qlt_bool 0 (insurance o))
       (Amount "Insurance" (py_round (insurance o) 2))
  ++ line_when (Qlt_bool 0 (additional_charges_1 o))
       (Amount "Additional Charges 1" (py_round (additional_charges_1 o) 2))
  ++ line_when (Qlt_bool 0 (additional_charges_2 o))
       (Amount "Additional Charges 2" (py_round (additional_charges_2 o) 2))
  ++ line_when (Qlt_bool 0 (credit o)) (CreditLine (py_round (credit o) 2))
  ++ [Amount "Total Additional Costs" (py_round costs 2);
      RateLine (py_round rate 4) (py_round (rate * 100) 2);
      Amount "Grand Total" (py_round (grand_total o) 2);
      EmptyLine; TableHead; Rule 85].

(** The line printed for one item: the name cut to 44 characters, the unit
    price with three decimals, the other two figures with four. *)
Definition item_line (a : Allocation) : line :=
  ItemLine (substring 0 44 (name (alloc_item a))) (qty (alloc_item a))
           (py_round (unit_price (alloc_item a)) 3)
           (py_round (additional_cost_per_unit a) 4)
           (py_round (true_unit_cost a) 4).

Definition footer_lines (costs distributed : Q) : list line :=
  [Rule 85;
   Amount "Total additional costs distributed" (py_round distributed 2);
   Amount "Original total additional costs" (py_round costs 2);
   DifferenceLine (py_round (Qabs (costs - distributed)) 4)].

(** What a run of [calculate_costs_from_data] computes and writes. *)
Record Report : Type := mkReport {
  report_costs : Q;                  (* total_additional_costs *)
  report_rate : Q;                   (* additional_cost_rate *)
  report_rows : list Allocation;     (* one entry per loop iteration *)
  report_distributed : Q;            (* total_additional_distributed *)
  csv_file : CsvFile
}.

(** A run: the lines printed, up to the exception if one is raised, and
    the outcome. *)
Record Run (A : Type) : Type := mkRun {
  printed : list line;
  outcome : result A
}.

Arguments mkRun {A} printed outcome.
Arguments printed {A} r.
Arguments outcome {A} r.

Definition calculate_costs_from_data (o : OrderData) : Run Report :=
  let costs := total_additional_costs o in
  match additional_cost_rate o with
  | Raise e => mkRun [] (Raise e)
  | Ok rate =>
      let head := header_lines o costs rate in
      let n_items := total_items (items_data o) in
      match allocation_loop rate (items_data o) 0 [] with
      | (rows, Raise e) => mkRun (head ++ map item_line rows) (Raise e)
      | (rows, Ok distributed) =>
          let body := head ++ map item_line rows
                      ++ footer_lines costs distributed in
          match create_csv_output o rate n_items costs with
          | Raise e => mkRun body (Raise e)
          | Ok csv =>
              mkRun (body ++ [CsvSaved])
                    (Ok (mkReport costs rate rows distributed csv))
          end
      end
  end.

(** ** Currency conversion *)

(** The block of [apply_currency_conversion] that rewrites the order once
    the rate is known. *)
Definition convert_item (rate : Q) (it : Item) : Item :=
  mkItem (name it) (qty it) (unit_price it * rate) (total it * rate).

Definition convert_order (rate : Q) (o : OrderData) : OrderData :=
  mkOrderData (order_number o)
    (map (convert_item rate) (items_data o))
    (subtotal o * rate) (shipping o * rate) (insurance o * rate)
    (additional_charges_1 o * rate) (additional_charges_2 o * rate)
    (credit o * rate) (grand_total o * rate)
    (original_currency o) rate.

(** What the user types at the exchange-rate prompt: text that [float]
    rejects, or a number. *)
Inductive entry : Type :=
| NotANumber
| Number (q : Q).

(** The prompt loop: entries are read until one is a number greater than
    zero; [input] raises [EOFError] when the entries run out. *)
Fixpoint read_exchange_rate (entries : list entry) : result (Q * list entry) :=
  match entries with
  | [] => Raise EOFError
  | NotANumber :: rest => read_exchange_rate rest
  | Number q :: rest =>
      if Qlt_bool 0 q then Ok (q, rest) else read_exchange_rate rest
  end.

Definition apply_currency_conversion (entries : list entry) (o : OrderData)
  : result (OrderData * list entry) :=
  if negb (is_AUD (original_currency o))
  then
    r <- read_exchange_rate entries ;;
    Ok (convert_order (fst r) o, snd r)
  else Ok (o, entries).

(** ** Reading an invoice *)

(** The dictionary built by the [create_mock_*_pdf_content] functions; the
    key [coupon_credit] is read with [.get(..., 0.00)] and may be absent. *)
Record PdfContent : Type := mkPdfContent {
  pdf_currency : string;
  pdf_subtotal : Q;
  pdf_shipping : Q;
  pdf_insurance : Q;
  pdf_additional_charges_1 : Q;
  pdf_additional_charges_2 : Q;
  pdf_credit : Q;
  pdf_coupon_credit : option Q;
  pdf_grand_total : Q;
  pdf_items : list Item
}.

(** A text is held as the bytes of its UTF-8 encoding, and a character
    is the one, two, three or four bytes that encode it. *)
Definition byte_value (c : ascii) : N := N_of_ascii c.

Definition continuation (c : ascii) : bool :=
  ((128 <=? byte_value c) && (byte_value c <? 192))%N.

(** The decimal digits of Unicode (category Nd, version 14.0, which is
    the one of Python 3.11), which are what [\d] matches in a [str]: 66
    runs of the ten digits from 0 to 9, given by the code points of their
    zeros.  The first run is the digits of ASCII. *)
Definition decimal_zeros : list N :=
  [ 48; 1632; 1776; 1984; 2406; 2534; 2662; 2790; 2918; 3046; 3174; 3302;
    3430; 3558; 3664; 3792; 3872; 4160; 4240; 6112; 6160; 6470; 6608; 6784;
    6800; 6992; 7088; 7232; 7248; 42528; 43216; 43264; 43472; 43504; 43600;
    44016; 65296; 66720; 68912; 69734; 69872; 69942; 70096; 70384; 70736;
    70864; 71248; 71360; 71472; 71904; 72016; 72784; 73040; 73120; 92768;
    92864; 93008; 120782; 120792; 120802; 120812; 120822; 123200; 123632;
    125264; 130032 ]%N.

Definition is_digit (code_point : N) : bool :=
  existsb (fun zero => ((zero <=? code_point) && (code_point <? zero + 10))%N)
          decimal_zeros.

(** [\d] at the start of [s]: the bytes of the decimal digit that [s]
    starts with, and what follows them.  Only the shortest encoding of a
    code point counts as the character. *)
Definition digit_at (s : string) : option (string * string) :=
  match s with
  | EmptyString => None
  | String c0 r0 =>
      let b0 := byte_value c0 in
      if (b0 <? 128)%N then
        if is_digit b0 then Some (String c0 EmptyString, r0) else None
      else if (b0 <? 192)%N then None
      else if (b0 <? 224)%N then
        match r0 with
        | String c1 r1 =>
            let cp := ((b0 - 192) * 64 + (byte_value c1 - 128))%N in
            if continuation c1 && (128 <=? cp)%N && is_digit cp
            then Some (String c0 (String c1 EmptyString), r1)
            else None
        | _ => None
        end
      else if (b0 <? 240)%N then
        match r0 with
        | String c1 (String c2 r2) =>
            let cp := ((b0 - 224) * 4096 + (byte_value c1 - 128) * 64
                       + (byte_value c2 - 128))%N in
            if continuation c1 && continuation c2 && (2048 <=? cp)%N
               && is_digit cp
            then Some (String c0 (String c1 (String c2 EmptyString)), r2)
            else None
        | _ => None
        end
      else if (b0 <? 248)%N then
        match r0 with
        | String c1 (String c2 (String c3 r3)) =>
            let cp := ((b0 - 240) * 262144 + (byte_value c1 - 128) * 4096
                       + (byte_value c2 - 128) * 64 + (byte_value c3 - 128))%N in
            if continuation c1 && continuation c2 && continuation c3
               && (65536 <=? cp)%N && is_digit cp
            then Some (String c0 (String c1 (String c2 (String c3 EmptyString))),
                       r3)
            else None
        | _ => None
        end
      else None
  end.

(** [\d{k}] at the start of [s]: the [k] decimal digits that [s] starts
    with. *)
Fixpoint digits_prefix (k : nat) (s : string) : option string :=
  match k with
  | O => Some EmptyString
  | S k' =>
      match digit_at s with
      | Some (d, rest) => option_map (append d) (digits_prefix k' rest)
      | None => None
      end
  end.

(** [re.search(r'(\d{8})', s)]: the leftmost run of eight digits. *)
Fixpoint search_order_number (s : string) : option string :=
  match digits_prefix 8 s with
  | Some d => Some d
  | None =>
      match s with
      | EmptyString => None
      | String _ rest => search_order_number rest
      end
  end.

Definition order_number_of (pdf_path : string) : string :=
  match search_order_number pdf_path with
  | Some d => d
  | None => "unknown"%string
  end.

Definition coupon_or_zero (c : PdfContent) : Q :=
  match pdf_coupon_credit c with
  | Some q => q
  | None => 0
  end.

(** [parse_actual_pdf_content]; [None] is the value returned from the
    [except] branch, which a well-formed dictionary never reaches. *)
Definition parse_actual_pdf_content (c : PdfContent) (pdf_path : string)
  : option OrderData :=
  let items := map (fun it => mkItem (name it) (qty it) (unit_price it) (total it))
                   (pdf_items c) in
  let actual_grand_total :=
    pdf_subtotal c + pdf_shipping c + pdf_insurance c
    + pdf_additional_charges_1 c + pdf_additional_charges_2 c
    - pdf_credit c - coupon_or_zero c in
  Some (mkOrderData (order_number_of pdf_path) items
          (pdf_subtotal c) (pdf_shipping c) (pdf_insurance c)
          (pdf_additional_charges_1 c) (pdf_additional_charges_2 c)
          (pdf_credit c + coupon_or_zero c)
          actual_grand_total
          (pdf_currency c) 1).

Definition create_mock_usd_pdf_content : PdfContent :=
  mkPdfContent "USD" 41.78 7.92 0.00 2.99 0.00 0.00 (Some 1.10) 51.59
    [ mkItem "Bright Light Yellow Butterfly with Stud Holder" 8 0.541 4.328;
      mkItem "Light Bluish Gray Container Box 2x2x1" 5 0.60 3.00;
      mkItem "Black Dish 8x8 Inverted Batman Logo" 5 2.448 12.24;
      mkItem "Lime Tile Modified 2x3 Pentagonal" 10 0.288 2.88;
      mkItem "Light Bluish Gray Tile Round 1x1 Gauge" 10 0.039 0.39;
      mkItem "Black Tile Round 2x4 Oval Dashboard" 5 0.767 3.835;
      mkItem "Trans-Clear Windscreen 6x6x3" 6 2.517 15.102 ].

Definition create_mock_eur_pdf_content : PdfContent :=
  mkPdfContent "EUR" 145.56 14.80 0.00 0.00 0.00 0.00 (Some 0.00) 160.36
    [ mkItem "Belle - Minifigure, Dress with White Creases" 1 15.22756 15.2276;
      mkItem "Bruno Madrigal" 1 7.09084 7.0908;
      mkItem "Lilo - Long Dress" 1 7.82067 7.8206 ].

Definition create_mock_eur_pdf_content_29079613 : PdfContent :=
  mkPdfContent "EUR" 35.07 4.60 0.00 0.00 0.00 0.00 (Some 0.00) 39.67
    [ mkItem "C-3PO - Molded Light Bluish Gray Lower Leg, Printed Arms" 3 11.69 35.07 ].

Definition create_mock_aud_pdf_content : PdfContent :=
  mkPdfContent "AUD" 115.17 12.50 0.00 0.00 0.00 0.00 (Some 0.00) 127.67
    [ mkItem "Red Barb/Claw/Horn/Tooth with Clip" 30 0.071 2.13;
      mkItem "Reddish Brown Bar 7x3 with 2 Open O Clips" 8 0.288 2.304;
      mkItem "Dark Tan Brick Round 4x4x2/3 Dome Top" 16 0.419 6.704;
      mkItem "Black Cylinder Half 2x4x5 with Cutout" 12 0.618 7.416;
      mkItem "Red Cylinder Half 2x4x5 with Cutout" 12 0.616 7.392;
      mkItem "White Dish 4x4 Inverted with Clock Pattern" 2 1.799 3.598;
      mkItem "Black Dish 8x8 Inverted with Batman Logo" 11 2.784 30.624;
      mkItem "Dark Blue Flag 4x1 Wave Right" 10 0.211 2.11;
      mkItem "Reddish Brown Minifigure Weapon Holder Ring" 20 0.593 11.86;
      mkItem "Dark Orange Plate 2x3" 40 0.132 5.28;
      mkItem "Medium Nougat Plate 6x12" 4 0.39 1.56;
      mkItem "Trans-Orange Plate Modified 2x2 with Groove" 50 0.107 5.35;
      mkItem "Dark Tan Plate Round 1x1 with Open Stud" 100 0.041 4.10;
      mkItem "Dark Azure Plate Round Corner 5x5 Macaroni" 16 0.076 1.216;
      mkItem "Dark Blue Plate Round Corner 5x5 Macaroni" 16 0.172 2.752;
      mkItem "White Slope 45 2x1 Double with Bottom Stud" 20 0.146 2.92;
      mkItem "Tan Tile 1x2 with Door Pattern" 20 0.23 4.60;
      mkItem "Dark Blue Tile Modified 1x3 Inverted" 30 0.131 3.93;
      mkItem "Pearl Gold Tile Round 1x1 with Dragon Pattern" 20 0.466 9.32 ].

(** [read_actual_pdf_content]: the canned content of the four known
    invoices, by the order number in the file name. *)
Definition read_actual_pdf_content (pdf_path : string) : option PdfContent :=
  let n := order_number_of pdf_path in
  if String.eqb n "29055780" then Some create_mock_eur_pdf_content
  else if String.eqb n "29062495" then Some create_mock_usd_pdf_content
  else if String.eqb n "29079613" then Some create_mock_eur_pdf_content_29079613
  else if String.eqb n "29154233" then Some create_mock_aud_pdf_content
  else None.

Definition extract_bricklink_data_from_pdf (pdf_path : string) : option OrderData :=
  match read_actual_pdf_content pdf_path with
  | Some c => parse_actual_pdf_content c pdf_path
  | None => None
  end.

(** The legacy single-invoice run of [main] for a file that
    [extract_bricklink_data_from_pdf] can read: conversion, then the
    allocation.  The prompts of the conversion are not part of the lines
    printed, and a file that cannot be read leads to manual entry, which
    is not modelled: [None]. *)
Definition process_known_pdf (pdf_path : string) (entries : list entry)
  : option (Run Report) :=
  match extract_bricklink_data_from_pdf pdf_path with
  | Some o =>
      match apply_currency_conversion entries o with
      | Ok c => Some (calculate_costs_from_data (fst c))
      | Raise e => Some (mkRun [] (Raise e))
      end
  | None => None
  end.

(** ** Batch conversion: [convert_all_pdfs_to_csv] *)

Module Batch.

(** The [amounts] dictionary; [extract_currency_and_amounts_advanced] sets
    every key. *)
Record Amounts : Type := mkAmounts {
  order_total : Q;
  shipping : Q;
  insurance : Q;
  additional_1 : Q;
  additional_2 : Q;
  credit : Q;
  grand_total : Q
}.

(** An item dictionary of [extract_items_from_text_advanced].  Only items
    with the keys [qty], [unit_price], [total] and [weight] are returned,
    and [condition], [color] and [description] are set when an item is
    started; [part_no] may be absent. *)
Record Item : Type := mkItem {
  condition : string;
  color : string;
  description : string;
  part_no : option string;
  qty : Z;
  unit_price : Q;
  total : Q;
  weight : string
}.

(** A row of the master CSV file. *)
Record ProcessedItem : Type := mkProcessedItem {
  Order_Number : string;
  Order_Date : string;
  Currency : string;
  Condition : string;
  Color : string;
  Description : string;
  Part_Number : string;
  Quantity : Z;
  Original_Unit_Price : Q;
  Overhead_Percentage : Q;
  Overhead_Amount : Q;
  Adjusted_Unit_Price : Q;
  Original_Total : Q;
  Adjusted_Total : Q;
  Weight : string;
  Order_Subtotal : Q;
  Shipping : Q;
  Insurance : Q;
  Additional_Charges : Q;
  Credit : Q;
  Grand_Total : Q
}.

Definition overhead (a : Amounts) : Q :=
  shipping a + insurance a + additional_1 a + additional_2 a - credit a.

(** The percentage before it is rounded. *)
Definition overhead_percentage_exact (a : Amounts) : Q :=
  overhead a / order_total a * 100.

Definition calculate_overhead_percentage_advanced (a : Amounts) : Q :=
  if Qeq_bool (order_total a) 0 then 0
  else py_round (overhead_percentage_exact a) 2.

(** The body of the loop over the extracted items, for a given overhead
    percentage. *)
Definition process_item (order_number order_date currency : string)
    (a : Amounts) (overhead_percentage : Q) (it : Item) : ProcessedItem :=
  let original_price := unit_price it in
  let overhead_amount := original_price * (overhead_percentage / 100) in
  let adjusted_price := original_price + overhead_amount in
  mkProcessedItem order_number order_date currency
    (condition it) (color it) (description it)
    (match part_no it with Some p => p | None => "Unknown"%string end)
    (qty it)
    (py_round original_price 4)
    overhead_percentage
    (py_round overhead_amount 4)
    (py_round adjusted_price 4)
    (py_round (total it) 2)
    (py_round (adjusted_price * inject_Z (qty it)) 2)
    (weight it)
    (order_total a) (shipping a) (insurance a)
    (additional_1 a + additional_2 a) (credit a) (grand_total a).

(** The loop over the extracted items.  The adjusted total is the
    product of a [float] and the quantity, which does not go through
    for a quantity that no [float] holds. *)
Definition process_items (order_number order_date currency : string)
    (a : Amounts) (overhead_percentage : Q) (items : list Item)
  : result (list ProcessedItem) :=
  mapM (fun it =>
          _ <- float_of_int (qty it) ;;
          Ok (process_item order_number order_date currency a
                overhead_percentage it))
       items.

(** What is printed while the batch runs. *)
Inductive event : Type :=
| Banner
| MissingPdfplumber
| NoPdfFiles
| Found (n : nat)
| Processing (pdf_file : string)
| ProcessingError (pdf_file : string) (e : exn)
| CurrencyWarning
| Success (n : nat) (currency : string) (overhead_percentage : Q)
| NoItemsExtracted
| MasterCsv (rows : list ProcessedItem)
| Summary (currency : string) (orders : nat) (items : Z) (total : Q)
| ConversionComplete (n : nat)
| NoDataExtracted.

(** The entry of one currency in the [currencies] dictionary of
    [create_master_csv_output]; the set of order numbers is a list without
    repetition. *)
Record CurrencyStats : Type := mkCurrencyStats {
  stat_orders : list string;
  stat_items : Z;
  stat_total : Q
}.

Definition add_order (n : string) (orders : list string) : list string :=
  if existsb (String.eqb n) orders then orders else orders ++ [n].

Definition update_stats (row : ProcessedItem) (st : CurrencyStats) : CurrencyStats :=
  mkCurrencyStats (add_order (Order_Number row) (stat_orders st))
                  (stat_items st + Quantity row)%Z
                  (stat_total st + Adjusted_Total row).

(** One pass of the loop over [all_items]; the dictionary keeps the order
    in which the currencies were first met. *)
Fixpoint count_row (row : ProcessedItem) (currencies : list (string * CurrencyStats))
  : list (string * CurrencyStats) :=
  match currencies with
  | [] => [(Currency row, update_stats row (mkCurrencyStats [] 0 0))]
  | (curr, st) :: rest =>
      if String.eqb curr (Currency row)
      then (curr, update_stats row st) :: rest
      else (curr, st) :: count_row row rest
  end.

(** [create_master_csv_output]: the file, then one summary line for each
    currency.  Writing the file is taken to succeed. *)
Definition create_master_csv_output (all_items : list ProcessedItem) : list event :=
  match all_items with
  | [] => []
  | _ :: _ =>
      MasterCsv all_items
      :: map (fun cs => Summary (fst cs) (List.length (stat_orders (snd cs)))
                                (stat_items (snd cs))
                                (py_round (stat_total (snd cs)) 2))
             (fold_left (fun currencies row => count_row row currencies) all_items [])
  end.

Section Extraction.

(** The text of a PDF file and the regular-expression passes over it
    are taken as given; each of them may raise. *)
Variable pdf_text : string -> result string.
Variable order_number_in : string -> string -> string.
Variable order_date_in : string -> string.
Variable extract_currency_and_amounts_advanced :
  string -> result (option string * Amounts).
Variable extract_items_from_text_advanced : string -> result (list Item).

(** The [try] block of [process_single_pdf_advanced]: what it prints (the
    warning about a missing currency) and the rows, or the exception. *)
Definition process_body (pdf_path : string)
  : list event * result (list ProcessedItem) :=
  match pdf_text pdf_path with
  | Raise e => ([], Raise e)
  | Ok full_text =>
      let order_number := order_number_in full_text pdf_path in
      let order_date := order_date_in full_text in
      match extract_currency_and_amounts_advanced full_text with
      | Raise e => ([], Raise e)
      | Ok (found, amounts) =>
          let warned := match found with Some _ => [] | None => [CurrencyWarning] end in
          let currency := match found with Some c => c | None => "AUD"%string end in
          let overhead_percentage := calculate_overhead_percentage_advanced amounts in
          match extract_items_from_text_advanced full_text with
          | Raise e => (warned, Raise e)
          | Ok items =>
              (warned,
               process_items order_number order_date currency amounts
                 overhead_percentage items)
          end
      end
  end.

(** [except Exception]: the error is printed and [[]] returned.  The
    result is the rows and the lines printed for the file. *)
Definition process_single_pdf_advanced (pdf_path : string)
  : list ProcessedItem * list event :=
  match process_body pdf_path with
  | (shown, Ok rows) => (rows, shown)
  | (shown, Raise e) => ([], shown ++ [ProcessingError pdf_path e])
  end.

(** What one pass of the loop of [convert_all_pdfs_to_csv] prints. *)
Definition file_outcome (items : list ProcessedItem) : event :=
  match items with
  | first :: _ => Success (List.length items) (Currency first) (Overhead_Percentage first)
  | [] => NoItemsExtracted
  end.

Fixpoint batch_loop (pdf_files : list string)
    (all_items : list ProcessedItem) (log : list event)
  : list ProcessedItem * list event :=
  match pdf_files with
  | [] => (all_items, log)
  | pdf_file :: rest =>
      let r := process_single_pdf_advanced pdf_file in
      batch_loop rest (all_items ++ fst r)
        (log ++ [Processing pdf_file] ++ snd r ++ [file_outcome (fst r)])
  end.

(** What the loop prints for one file. *)
Definition file_log (pdf_file : string) : list event :=
  [Processing pdf_file]
  ++ snd (process_single_pdf_advanced pdf_file)
  ++ [file_outcome (fst (process_single_pdf_advanced pdf_file))].

(** The end of the run: the master file with its summary and the
    closing line. *)
Definition closing (all_items : list ProcessedItem) : list event :=
  match all_items with
  | [] => [NoDataExtracted]
  | _ :: _ =>
      create_master_csv_output all_items
      ++ [ConversionComplete (List.length all_items)]
  end.

(** [PDFPLUMBER_AVAILABLE] and the result of [glob.glob("*.pdf")] are
    arguments. *)
Definition convert_all_pdfs_to_csv (pdfplumber_available : bool)
    (pdf_files : list string) : list event :=
  if negb pdfplumber_available then [Banner; MissingPdfplumber]
  else
    match pdf_files with
    | [] => [Banner; NoPdfFiles]
    | _ :: _ =>
        let r := batch_loop pdf_files [] [] in
        [Banner; Found (List.length pdf_files)] ++ snd r ++ closing (fst r)
    end.

End Extraction.

End Batch.

(** ** Values used in the statements *)

(** The value of [additional_cost_rate]: the guard keeps the division from
    raising. *)
Definition rate_of (o : OrderData) : Q :=
  if Qlt_bool 0 (subtotal o)
  then total_additional_costs o / subtotal o
  else 0.

(** The values of one iteration of the loop when it does not raise. *)
Definition allocation (rate : Q) (it : Item) : Allocation :=
  mkAllocation it (total it * rate)
    (total it * rate / inject_Z (qty it))
    (unit_price it + total it * rate / inject_Z (qty it)).

Definition nonzero_qty (it : Item) : Prop := qty it <> 0%Z.

(** The row that [create_csv_output] writes for an item when no division
    raises. *)
Definition csv_row_of (o : OrderData) (rate : Q) (it : Item) : csv_row :=
  let true_cost := true_unit_cost (allocation rate it) in
  let orig := if negb (Qeq_bool (exchange_rate o) 1)
              then unit_price it / exchange_rate o
              else unit_price it in
  if is_AUD (original_currency o)
  then row5 (Str (name it)) (Percent (py_round (rate * 100) 2)) (Int (qty it))
            (Num (py_round (unit_price it) 4)) (Num (py_round true_cost 4))
  else row6 (original_currency o)
            (Str (name it)) (Percent (py_round (rate * 100) 2)) (Int (qty it))
            (Num (py_round orig 4))
            (Num (py_round (unit_price it) 4)) (Num (py_round true_cost 4)).

(** The summary row of the subtotal, in either schema. *)
Definition subtotal_row (o : OrderData) (n_items : Z) : csv_row :=
  if is_AUD (original_currency o)
  then row5 (Str "Subtotal") Blank (Int n_items) (Num (subtotal o)) Blank
  else row6 (original_currency o) (Str "Subtotal") Blank (Int n_items)
            (Num (subtotal o / exchange_rate o)) (Num (subtotal o)) Blank.

(** The items that come before the first one of quantity 0. *)
Fixpoint before_zero_quantity (items : list Item) : list Item :=
  match items with
  | [] => []
  | it :: rest =>
      if (qty it =? 0)%Z then [] else it :: before_zero_quantity rest
  end.

(** Sums, written as the loops that compute them. *)
Definition sum_line_totals (items : list Item) : Q :=
  fold_left (fun acc it => acc + total it) items 0.

Definition sum_allocated (rows : list Allocation) : Q :=
  fold_left (fun acc a => acc + item_additional_cost a) rows 0.

(** ** Orders used as examples *)

(** The EUR invoice that the program carries for order 29055780, as
    [parse_actual_pdf_content] returns it. *)
Definition order_29055780 : OrderData :=
  mkOrderData "29055780"
    [ mkItem "Belle - Minifigure, Dress with White Creases" 1 15.22756 15.2276;
      mkItem "Bruno Madrigal" 1 7.09084 7.0908;
      mkItem "Lilo - Long Dress" 1 7.82067 7.8206 ]
    145.56 14.80 0.00 0.00 0.00 (0.00 + 0.00)
    (145.56 + 14.80 + 0.00 + 0.00 + 0.00 - 0.00 - 0.00)
    "EUR" 1.

(** The EUR invoice of order 29079613: one line that is the whole
    subtotal. *)
Definition order_29079613 : OrderData :=
  mkOrderData "29079613"
    [ mkItem "C-3PO - Molded Light Bluish Gray Lower Leg, Printed Arms" 3 11.69 35.07 ]
    35.07 4.60 0.00 0.00 0.00 (0.00 + 0.00)
    (35.07 + 4.60 + 0.00 + 0.00 + 0.00 - 0.00 - 0.00)
    "EUR" 1.

(** A record without items: goods for 10.00, shipping 5.00. *)
Definition no_items_order : OrderData :=
  mkOrderData "30000007" [] 10.00 5.00 0 0 0 0 15.00 "AUD" 1.

(** An order of free items only: nothing to pay for the goods, 5.00 of
    shipping. *)
Definition free_items_order : OrderData :=
  mkOrderData "30000001"
    [ mkItem "Promotional Tile 1x1" 2 0 0; mkItem "Sticker Sheet" 1 0 0 ]
    0 5.00 0 0 0 0 5.00 "AUD" 1.

(** The amounts of an invoice without goods, as the batch path reads
    them. *)
Definition free_items_amounts : Batch.Amounts :=
  Batch.mkAmounts 0 5.00 0 0 0 0 5.00.

(** An invoice read by the batch path: goods for 10.00, shipping 5.00,
    and a line of three parts at 0.333 whose printed line total is 1.00. *)
Definition batch_amounts_50 : Batch.Amounts :=
  Batch.mkAmounts 10.00 5.00 0 0 0 0 15.00.

Definition batch_item_3x : Batch.Item :=
  Batch.mkItem "New" "Red" "Plate 1x2" None 3 0.333 1.00 "0.5g".

(** Goods for 100.00, shipping 10.00 and a credit of 20.00; the second
    line is a free gift. *)
Definition credit_order : OrderData :=
  mkOrderData "30000003"
    [ mkItem "Technic Beam 1x15" 2 50 100; mkItem "Free Gift Minifigure" 1 0 0 ]
    100 10 0 0 0 20 90 "AUD" 1.

(** The same charges on a record whose subtotal is 0. *)
Definition credit_order_zero_subtotal : OrderData :=
  mkOrderData "30000004"
    [ mkItem "Technic Beam 1x15" 2 50 100 ]
    0 10 0 0 0 20 (-10) "AUD" 1.

(** The sample order of [create_sample_bricklink_data], in AUD, with the
    quantity of its second line set to 0. *)
Definition zero_quantity_order : OrderData :=
  mkOrderData "30000005"
    [ mkItem "Sample LEGO Brick 2x4" 10 0.15 1.50;
      mkItem "Sample Minifigure Head" 0 0.25 0.50;
      mkItem "Sample Plate 1x1" 50 0.05 2.50 ]
    25.00 5.00 0.00 0.00 0.00 0.00 30.00 "AUD" 1.

(** An invoice of one part: goods for 45.00, shipping 15.00. *)
Definition one_part_amounts : Batch.Amounts :=
  Batch.mkAmounts 45.00 15.00 0 0 0 0 60.00.

Definition one_part_item : Batch.Item :=
  Batch.mkItem "New" "Black" "Minifigure, Series 1 Collectible"
               (Some "col001"%string) 1 45.00 45.00 "4g".

(** The same invoice as an order of the legacy path. *)
Definition one_part_order : OrderData :=
  mkOrderData "30000006"
    [ mkItem "Minifigure, Series 1 Collectible" 1 45.00 45.00 ]
    45.00 15.00 0 0 0 0 60.00 "AUD" 1.

(** Readers that return the invoice above for every file but
    [damaged.pdf], which cannot be opened. *)
Definition sample_pdf_text (pdf_path : string) : result string :=
  if String.eqb pdf_path "damaged.pdf"
  then Raise (OtherException "No /Root object")
  else Ok "Order #30000006"%string.

Definition sample_order_number (full_text pdf_path : string) : string :=
  "30000006"%string.

Definition sample_order_date (full_text : string) : string :=
  "Jan 5, 2025"%string.

Definition sample_currency_and_amounts (full_text : string)
  : result (option string * Batch.Amounts) :=
  Ok (Some "AU"%string, one_part_amounts).

Definition sample_items (full_text : string) : result (list Batch.Item) :=
  Ok [one_part_item].

(** ** Totals of an order *)

(** The goods at their unit prices, and at their true unit costs. *)
Definition goods_total (items : list Item) : Q :=
  fold_left (fun acc it => acc + inject_Z (qty it) * unit_price it) items 0.

Definition true_cost_total (rows : list Allocation) : Q :=
  fold_left (fun acc a => acc + inject_Z (qty (alloc_item a)) * true_unit_cost a)
            rows 0.

(** An entry that the exchange-rate prompt does not accept. *)
Definition rejected (e : entry) : Prop :=
  match e with
  | NotANumber => True
  | Number q => q <= 0
  end.

(** The number of optional summary rows of the CSV file: one for each of
    insurance, the two additional charges and the credit that is
    positive. *)
Definition optional_rows (o : OrderData) : nat :=
  ((if Qlt_bool 0 (insurance o) then 1 else 0)
   + (if Qlt_bool 0 (additional_charges_1 o) then 1 else 0)
   + (if Qlt_bool 0 (additional_charges_2 o) then 1 else 0)
   + (if Qlt_bool 0 (credit o) then 1 else 0))%nat.

(** The EUR invoice of order 29079613 once converted at 1.6. *)
Definition order_29079613_aud : OrderData := convert_order 1.6 order_29079613.

(** The AUD invoice that the program carries for order 29154233, as
    [parse_actual_pdf_content] returns it: nineteen lines, which come to
    115.166 where the subtotal is 115.17. *)
Definition order_29154233 : OrderData :=
  mkOrderData "29154233" (pdf_items create_mock_aud_pdf_content)
    115.17 12.50 0.00 0.00 0.00 (0.00 + 0.00)
    (115.17 + 12.50 + 0.00 + 0.00 + 0.00 - 0.00 - 0.00)
    "AUD" 1.

(** An order of two lines that are quantity times unit price and come to
    the subtotal: goods for 12.75, shipping 4.60. *)
Definition two_line_order : OrderData :=
  mkOrderData "30000012"
    [ mkItem "Plate 1x2" 3 2.25 6.75; mkItem "Tile 1x1" 12 0.5 6.00 ]
    12.75 4.60 0 0 0 0 17.35 "AUD" 1.

(** ** Digits *)

(** [d] is the text of [k] decimal digits and nothing more. *)
Fixpoint digit_text (k : nat) (d : string) : bool :=
  match k with
  | O => String.eqb d ""
  | S k' =>
      match digit_at d with
      | Some (_, rest) => digit_text k' rest
      | None => false
      end
  end.

(** The digit one of the Arabic-Indic digits, U+0661. *)
Definition arabic_indic_one : string :=
  String (ascii_of_nat 217) (String (ascii_of_nat 161) EmptyString).

(** ** The summary of the master file *)

(** The [currencies] dictionary when the loop of
    [create_master_csv_output] ends. *)
Definition summary_table (all_items : list Batch.ProcessedItem)
  : list (string * Batch.CurrencyStats) :=
  fold_left (fun currencies row => Batch.count_row row currencies) all_items [].

(** The rows of a currency, and what they add up to. *)
Definition rows_in (c : string) (rows : list Batch.ProcessedItem)
  : list Batch.ProcessedItem :=
  filter (fun row => String.eqb c (Batch.Currency row)) rows.

Definition quantity_sum (rows : list Batch.ProcessedItem) : Z :=
  fold_right (fun row acc => (Batch.Quantity row + acc)%Z) 0%Z rows.

Definition adjusted_sum (rows : list Batch.ProcessedItem) : Q :=
  fold_right (fun row acc => Batch.Adjusted_Total row + acc) 0 rows.

Definition distinct_orders (rows : list Batch.ProcessedItem) : nat :=
  List.length (nodup string_dec (map Batch.Order_Number rows)).

(** The dictionary after the rows [done]: one entry for each currency
    met, which holds the orders, the pieces and the amount of its rows. *)
Definition table_ok (done : list Batch.ProcessedItem)
    (t : list (string * Batch.CurrencyStats)) : Prop :=
  NoDup (map fst t)
  /\ (forall c, In c (map fst t) <-> In c (map Batch.Currency done))
  /\ (forall c st, In (c, st) t ->
        NoDup (Batch.stat_orders st)
        /\ (forall n, In n (Batch.stat_orders st)
                      <-> In n (map Batch.Order_Number (rows_in c done)))
        /\ Batch.stat_items st = quantity_sum (rows_in c done)
        /\ Batch.stat_total st == adjusted_sum (rows_in c done)).

(** Rows of two orders in Australian dollars and one in euros. *)
Definition sample_rows : list Batch.ProcessedItem :=
  [ Batch.process_item "30000006" "Jan 5, 2025" "AU" one_part_amounts
      (Batch.calculate_overhead_percentage_advanced one_part_amounts) one_part_item;
    Batch.process_item "30000008" "Jan 9, 2025" "EUR" batch_amounts_50
      (Batch.calculate_overhead_percentage_advanced batch_amounts_50) batch_item_3x;
    Batch.process_item "30000009" "Feb 2, 2025" "AU" batch_amounts_50
      (Batch.calculate_overhead_percentage_advanced batch_amounts_50) batch_item_3x;
    Batch.process_item "30000006" "Jan 5, 2025" "AU" one_part_amounts
      (Batch.calculate_overhead_percentage_advanced one_part_amounts) one_part_item ].

(** ** The columns of a row of the master file *)

(** The overhead percentage as the order columns of a row give it. *)
Definition row_percentage (r : Batch.ProcessedItem) : Q :=
  if Qeq_bool (Batch.Order_Subtotal r) 0 then 0
  else py_round ((Batch.Shipping r + Batch.Insurance r
                  + Batch.Additional_Charges r - Batch.Credit r)
                 / Batch.Order_Subtotal r * 100) 2.

(** What the price columns of a row have to do with each other. *)
Definition row_consistent (r : Batch.ProcessedItem) : Prop :=
  Batch.Overhead_Percentage r == row_percentage r
  /\ (Batch.Adjusted_Unit_Price r
      == Batch.Original_Unit_Price r + Batch.Overhead_Amount r
      \/ Batch.Adjusted_Unit_Price r
         == Batch.Original_Unit_Price r + Batch.Overhead_Amount r + 0.0001
      \/ Batch.Adjusted_Unit_Price r
         == Batch.Original_Unit_Price r + Batch.Overhead_Amount r - 0.0001)
  /\ Qabs (Batch.Adjusted_Total r
           - inject_Z (Batch.Quantity r) * Batch.Adjusted_Unit_Price r)
     <= 0.005 + Qabs (inject_Z (Batch.Quantity r)) * 0.00005.

(** ** The invoices that the legacy path knows *)

Definition known_invoices : list string :=
  [ "29055780"; "29062495"; "29079613"; "29154233" ]%string.

(** ** Typed input: manual entry and the interactive calculator *)

(** The amounts typed at the six prompts of
    [manual_data_entry_with_currency]. *)
Record TypedAmounts : Type := mkTypedAmounts {
  typed_subtotal : Q;
  typed_shipping : Q;
  typed_insurance : Q;
  typed_additional_charges_1 : Q;
  typed_additional_charges_2 : Q;
  typed_credit : Q
}.

(** [convert_items_to_aud] *)
Definition convert_items_to_aud (items_data : list Item) (exchange_rate : Q)
    (currency : string) : list Item :=
  if is_AUD currency || Qeq_bool exchange_rate 1
  then items_data
  else map (convert_item exchange_rate) items_data.

(** [s or "0"] *)
Definition or_zero (s : string) : string :=
  if String.eqb s "" then "0"%string else s.

(** [len(s)]: the characters of a text held in UTF-8 are its bytes other
    than the continuation bytes. *)
Fixpoint py_len (s : string) : nat :=
  match s with
  | EmptyString => O
  | String c rest => if continuation c then py_len rest else S (py_len rest)
  end.

(** What the interactive calculator prints; the rule and the prompts are
    left out. *)
Inductive calc_line : Type :=
| InvalidShippingRate
| Results (unit_price shipping_per_unit true_unit_cost total_item_cost : Q)
| InvalidNumbers.

(** A line whose total is the quantity times the unit price. *)
Definition consistent_line (it : Item) : Prop :=
  total it == inject_Z (qty it) * unit_price it.

(** A result of the calculator at the rate [rate]: the figures of some
    quantity other than zero, which [float] holds, and some unit price. *)
Definition calc_line_ok (rate : Q) (l : calc_line) : Prop :=
  match l with
  | Results u s t c =>
      exists (qty : Z) (up : Q),
        qty <> 0%Z
        /\ fits_float qty = true
        /\ u = py_round up 4
        /\ s == py_round (up * rate) 4
        /\ t == py_round (up * (1 + rate)) 4
        /\ c == py_round (inject_Z qty * (up * (1 + rate))) 2
        /\ t == py_round
                  (true_unit_cost
                     (allocation rate
                        (mkItem "" qty up (inject_Z qty * up)))) 4
  | _ => True
  end.

(** A line as it is typed: the total is the quantity, which [float]
    holds, times the unit price. *)
Definition typed_line (it : Item) : Prop :=
  total it = inject_Z (qty it) * unit_price it /\ fits_float (qty it) = true.

(** The amounts of an order that was typed, from the six amounts of the
    prompts: they are multiplied by the rate unless the currency is
    [AUD]. *)
Definition amounts_of (a : TypedAmounts) (o : OrderData) : Prop :=
  let to_aud (x : Q) :=
    if is_AUD (original_currency o) then x else x * exchange_rate o in
  subtotal o = to_aud (typed_subtotal a)
  /\ shipping o = to_aud (typed_shipping a)
  /\ insurance o = to_aud (typed_insurance a)
  /\ additional_charges_1 o = to_aud (typed_additional_charges_1 a)
  /\ additional_charges_2 o = to_aud (typed_additional_charges_2 a)
  /\ credit o = to_aud (typed_credit a).

Section Console.

(** What is typed is a list of lines: [input] takes the first one and
    raises [EOFError] when none is left.  [float] and [int] and the string
    methods [strip], [upper] and [lower] are taken as given; [float] and
    [int] raise [ValueError] on a text that they do not accept, which is
    [None] here. *)
Variable py_float : string -> option Q.
Variable py_int : string -> option Z.
Variable strip : string -> string.
Variable upper : string -> string.
Variable lower : string -> string.

(** [detect_currency_from_user] *)
Fixpoint detect_currency_from_user (inputs : list string)
  : result (string * list string) :=
  match inputs with
  | [] => Raise EOFError
  | s :: rest =>
      let currency := strip (upper s) in
      if negb (String.eqb currency "") && Nat.eqb (py_len currency) 3
      then Ok (currency, rest)
      else detect_currency_from_user rest
  end.

(** [get_exchange_rate] *)
Fixpoint get_exchange_rate (inputs : list string) : result (Q * list string) :=
  match inputs with
  | [] => Raise EOFError
  | s :: rest =>
      match py_float s with
      | Some rate =>
          if Qlt_bool 0 rate then Ok (rate, rest) else get_exchange_rate rest
      | None => get_exchange_rate rest
      end
  end.

(** A line typed at the prompt of the exchange rate, as [float] reads
    it. *)
Definition typed_entry (s : string) : entry :=
  match py_float s with
  | Some q => Number q
  | None => NotANumber
  end.

(** The first loop of [manual_data_entry_with_currency]: the six amounts
    are asked for in turn, and a text that [float] rejects sends the loop
    back to the first prompt. *)
Fixpoint read_amounts (inputs : list string)
  : result (TypedAmounts * list string) :=
  match inputs with
  | [] => Raise EOFError
  | s1 :: r1 =>
  match py_float s1 with
  | None => read_amounts r1
  | Some subtotal =>
  match r1 with
  | [] => Raise EOFError
  | s2 :: r2 =>
  match py_float s2 with
  | None => read_amounts r2
  | Some shipping =>
  match r2 with
  | [] => Raise EOFError
  | s3 :: r3 =>
  match py_float (or_zero s3) with
  | None => read_amounts r3
  | Some insurance =>
  match r3 with
  | [] => Raise EOFError
  | s4 :: r4 =>
  match py_float (or_zero s4) with
  | None => read_amounts r4
  | Some additional_charges_1 =>
  match r4 with
  | [] => Raise EOFError
  | s5 :: r5 =>
  match py_float (or_zero s5) with
  | None => read_amounts r5
  | Some additional_charges_2 =>
  match r5 with
  | [] => Raise EOFError
  | s6 :: r6 =>
  match py_float (or_zero s6) with
  | None => read_amounts r6
  | Some credit =>
      Ok (mkTypedAmounts subtotal shipping insurance additional_charges_1
            additional_charges_2 credit, r6)
  end end end end end end end end end end end
  end.

(** The second loop: name, quantity and unit price of an item, until the
    name is empty.  A quantity or a price that is not a number ends the
    turn, and the next line typed is read as a name.  The product of the
    quantity and the price raises [OverflowError] for a quantity that no
    [float] holds, which [except ValueError] does not catch.  The result
    comes with the lines that have not been read. *)
Fixpoint read_items (inputs : list string) (items_data : list Item)
  : result (list Item) * list string :=
  match inputs with
  | [] => (Raise EOFError, [])
  | s :: r1 =>
      let name := strip s in
      if String.eqb name "" then (Ok items_data, r1)
      else
        match r1 with
        | [] => (Raise EOFError, [])
        | sq :: r2 =>
            match py_int sq with
            | None => read_items r2 items_data
            | Some qty =>
                match r2 with
                | [] => (Raise EOFError, [])
                | sp :: r3 =>
                    match py_float sp with
                    | None => read_items r3 items_data
                    | Some unit_price =>
                        match float_of_int qty with
                        | Raise e => (Raise e, r3)
                        | Ok quantity =>
                            let total_price := quantity * unit_price in
                            read_items r3
                              (items_data
                               ++ [mkItem name qty unit_price total_price])
                        end
                    end
                end
            end
        end
  end.

(** [manual_data_entry_with_currency]: the order or the exception, and
    the lines that have not been read.  The prompts that come before the
    items raise at the end of the lines only, when no line is left.
    What is printed is left out. *)
Definition manual_data_entry_with_currency (order_number : string)
    (inputs : list string) : result OrderData * list string :=
  match detect_currency_from_user inputs with
  | Raise e => (Raise e, [])
  | Ok (currency, after_currency) =>
      match (if negb (is_AUD currency)
             then get_exchange_rate after_currency
             else Ok (1, after_currency)) with
      | Raise e => (Raise e, [])
      | Ok (exchange_rate, after_rate) =>
          match read_amounts after_rate with
          | Raise e => (Raise e, [])
          | Ok (a, after_amounts) =>
              let to_aud (x : Q) :=
                if negb (is_AUD currency) then x * exchange_rate else x in
              let subtotal := to_aud (typed_subtotal a) in
              let shipping := to_aud (typed_shipping a) in
              let insurance := to_aud (typed_insurance a) in
              let additional_charges_1 := to_aud (typed_additional_charges_1 a) in
              let additional_charges_2 := to_aud (typed_additional_charges_2 a) in
              let credit := to_aud (typed_credit a) in
              let grand_total :=
                subtotal + shipping + insurance + additional_charges_1
                + additional_charges_2 - credit in
              match read_items after_amounts [] with
              | (Raise e, rest) => (Raise e, rest)
              | (Ok items_data, rest) =>
                  (Ok (mkOrderData order_number
                         (convert_items_to_aud items_data exchange_rate currency)
                         subtotal shipping insurance additional_charges_1
                         additional_charges_2 credit grand_total currency
                         exchange_rate),
                   rest)
              end
          end
      end
  end.

(** The loop of [interactive_calculator]: what has been printed, and how
    the loop ends.  [OverflowError] and [ZeroDivisionError] are not
    caught by [except ValueError]. *)
Fixpoint calculator_loop (shipping_rate : Q) (inputs : list string)
    (shown : list calc_line) : list calc_line * result unit :=
  match inputs with
  | [] => (shown, Raise EOFError)
  | s :: r1 =>
      let item_name := strip s in
      if String.eqb (lower item_name) "quit" then (shown, Ok tt)
      else
        match r1 with
        | [] => (shown, Raise EOFError)
        | sq :: r2 =>
            match py_int sq with
            | None => calculator_loop shipping_rate r2 (shown ++ [InvalidNumbers])
            | Some qty =>
                match r2 with
                | [] => (shown, Raise EOFError)
                | sp :: r3 =>
                    match py_float sp with
                    | None =>
                        calculator_loop shipping_rate r3 (shown ++ [InvalidNumbers])
                    | Some unit_price =>
                        match float_of_int qty with
                        | Raise e => (shown, Raise e)
                        | Ok quantity =>
                            let item_total := quantity * unit_price in
                            let item_shipping := item_total * shipping_rate in
                            match py_div item_shipping quantity with
                            | Raise e => (shown, Raise e)
                            | Ok shipping_per_unit =>
                                let true_unit_cost :=
                                  unit_price + shipping_per_unit in
                                calculator_loop shipping_rate r3
                                  (shown
                                   ++ [Results (py_round unit_price 4)
                                         (py_round shipping_per_unit 4)
                                         (py_round true_unit_cost 4)
                                         (py_round (quantity * true_unit_cost) 2)])
                            end
                        end
                    end
                end
            end
        end
  end.

(** [interactive_calculator] *)
Definition interactive_calculator (inputs : list string)
  : list calc_line * result unit :=
  match inputs with
  | [] => ([], Raise EOFError)
  | s :: rest =>
      match py_float s with
      | Some shipping_rate => calculator_loop shipping_rate rest []
      | None => calculator_loop 0.1085 rest [InvalidShippingRate]
      end
  end.

(** How a loop over the lines typed can end before its time: at the end
    of the lines, or at a quantity that [float] does not hold, typed
    with a price that is a number; the lines after that price are left. *)
Definition broken_off (inputs : list string) (e : exn) (rest : list string)
  : Prop :=
  (e = EOFError /\ rest = [])
  \/ (e = OverflowError
      /\ exists before quantity price q p,
           inputs = before ++ quantity :: price :: rest
           /\ py_int quantity = Some q /\ fits_float q = false
           /\ py_float price = Some p).

(** How a session of the calculator can fail, other than by the end of
    the lines: at a quantity 0 or at one that [float] does not hold,
    typed with a price that is a number. *)
Definition failed_at (inputs : list string) (e : exn) : Prop :=
  exists name quantity price before after q p,
    inputs = before ++ name :: quantity :: price :: after
    /\ py_int quantity = Some q /\ py_float price = Some p
    /\ ((q = 0%Z /\ e = ZeroDivisionError)
        \/ (fits_float q = false /\ e = OverflowError)).

(** How the loop of the calculator ends: at a line that reads [quit], at
    the end of the lines or at such a quantity. *)
Definition calculator_ending (inputs : list string) (r : result unit) : Prop :=
  match r with
  | Ok _ => exists line, In line inputs /\ lower (strip line) = "quit"%string
  | Raise e => e = EOFError \/ failed_at inputs e
  end.

End Console.

(** A quantity of 310 digits, which is an [int] but not a [float]. *)
Definition huge_quantity : string :=
  String "1" (string_of_list_ascii (repeat "0"%char 309)).

(** [float], [int] and the string methods on the lines typed in the
    examples: numbers in plain decimal notation, without blanks around
    them, and currency codes in capitals. *)
Definition sample_float (s : string) : option Q :=
  if String.eqb s "0" then Some 0
  else if String.eqb s "3" then Some 3
  else if String.eqb s "0.5" then Some 0.5
  else if String.eqb s "1.6" then Some 1.6
  else if String.eqb s "2.25" then Some 2.25
  else if String.eqb s "4.6" then Some 4.6
  else if String.eqb s "12" then Some 12
  else if String.eqb s "0.12" then Some 0.12
  else None.

Definition sample_int (s : string) : option Z :=
  if String.eqb s "0" then Some 0%Z
  else if String.eqb s "3" then Some 3%Z
  else if String.eqb s "12" then Some 12%Z
  else if String.eqb s huge_quantity then Some (10 ^ 309)%Z
  else None.

Definition sample_strip (s : string) : string := s.

Definition sample_upper (s : string) : string := s.

Definition sample_lower (s : string) : string := s.

(** A manual entry in euros at 1.6: goods for 12, shipping 4.6, and two
    items; the quantity of the first one is mistyped once. *)
Definition sample_manual_input : list string :=
  [ "euro"; "EUR"; "rate"; "0"; "1.6";
    "12"; "4.6"; ""; ""; ""; "";
    "Plate 1x2"; "three"; "Plate 1x2"; "3"; "2.25";
    "Tile 1x1"; "12"; "0.5";
    "" ]%string.

(** A manual entry in Australian dollars that is broken off by a
    quantity of 310 digits, followed by the lines of a second one. *)
Definition sample_restarted_input : list string :=
  [ "AUD"; "12"; "4.6"; ""; ""; ""; ""; "Plate 1x2"; huge_quantity; "2.25" ]%string
  ++ [ "AUD"; "3"; "0.5"; ""; ""; ""; ""; "Tile 1x1"; "12"; "0.5"; "" ]%string.

(** A session of the calculator at 12 %; a price is mistyped once. *)
Definition sample_calculator_input : list string :=
  [ "0.12"; "Plate 1x2"; "3"; "2,25"; "Plate 1x2"; "3"; "2.25";
    "Tile 1x1"; "12"; "0.5"; "quit" ]%string.

(** ** The files of [create_csv_output] *)

(** The rows that open the summary of an order in another currency;
    they are written before the amounts in that currency are computed. *)
Definition summary_head (o : OrderData) : list csv_row :=
  let cur := original_currency o in
  [ [] ;
    row6 cur (Str "SUMMARY") Blank Blank Blank Blank Blank ;
    row6 cur (Str "Exchange Rate") (RateText cur (exchange_rate o))
         Blank Blank Blank Blank ].

Module OnDisk.

Section Files.

(** What the file system answers, each of which can be an exception: to
    the creation of the directory [invoices] when it is not there (lines
    762-763), to the opening of the file for writing (line 804), to the
    writing of the header and of a row, and to the closing of the file
    when the [with] block is left.  The time stamp in the name of the
    file is given. *)
Variable make_directory : result unit.
Variable open_file : string -> result unit.
Variable write_header : list string -> result unit.
Variable write_row : csv_row -> result unit.
Variable close_file : result unit.
Variable timestamp : string.

Definition filename (o : OrderData) : string :=
  ("invoices/order_" ++ order_number o ++ "_" ++ original_currency o
   ++ "_to_AUD_analysis_" ++ timestamp ++ ".csv")%string.

(** [with open(filename, 'w', ...) as csvfile: body].  The file is
    closed however the body ends, and an exception of the closing takes
    the place of the outcome of the body. *)
Definition with_open {A : Type} (name : string) (body : result A) : result A :=
  match open_file name with
  | Raise e => Raise e
  | Ok _ =>
      let ended := body in
      match close_file with
      | Raise e => Raise e
      | Ok _ => ended
      end
  end.

(** [create_csv_output], with the directory and the file: the rows of
    the items are computed before the file is opened, and the amounts of
    the summary in the original currency after its first three rows are
    written. *)
Definition create_csv_output (o : OrderData) (rate : Q) (n_items : Z) (costs : Q)
  : result CsvFile :=
  _ <- make_directory ;;
  csv_data <- mapM (csv_item_row o rate) (items_data o) ;;
  with_open (filename o)
    (if is_AUD (original_currency o)
     then
       let fieldnames :=
         ["Name"; "Additional R"; "QTY"; "Original AUD $"; "New AUD $"]%string in
       _ <- write_header fieldnames ;;
       _ <- mapM write_row csv_data ;;
       _ <- mapM write_row (summary_aud o rate n_items costs) ;;
       Ok (mkCsvFile fieldnames (csv_data ++ summary_aud o rate n_items costs))
     else
       let fieldnames :=
         ["Name"; "Additional R"; "QTY"; original_column (original_currency o);
          "Original AUD $"; "New AUD $"]%string in
       _ <- write_header fieldnames ;;
       _ <- mapM write_row csv_data ;;
       _ <- mapM write_row (summary_head o) ;;
       summary <- summary_foreign o rate n_items costs ;;
       _ <- mapM write_row (skipn 3 summary) ;;
       Ok (mkCsvFile fieldnames (csv_data ++ summary))).

(** [calculate_costs_from_data], with the directory and the file.  The
    quantities are taken to be such that [float] holds them, as those of
    an order that was typed or extracted are. *)
Definition calculate_costs_from_data (o : OrderData) : Run Report :=
  let costs := total_additional_costs o in
  match additional_cost_rate o with
  | Raise e => mkRun [] (Raise e)
  | Ok rate =>
      let head := header_lines o costs rate in
      let n_items := total_items (items_data o) in
      match allocation_loop rate (items_data o) 0 [] with
      | (rows, Raise e) => mkRun (head ++ map item_line rows) (Raise e)
      | (rows, Ok distributed) =>
          let body := head ++ map item_line rows
                      ++ footer_lines costs distributed in
          match create_csv_output o rate n_items costs with
          | Raise e => mkRun body (Raise e)
          | Ok csv =>
              mkRun (body ++ [CsvSaved])
                    (Ok (mkReport costs rate rows distributed csv))
          end
      end
  end.

(** The directory and the file of the order [o] take the file [f]. *)
Definition files_written (o : OrderData) (f : CsvFile) : Prop :=
  make_directory = Ok tt
  /\ open_file (filename o) = Ok tt
  /\ write_header (fieldnames f) = Ok tt
  /\ Forall (fun row => write_row row = Ok tt) (csv_rows f)
  /\ close_file = Ok tt.

(** The exception [e] is one of the file system. *)
Definition raised_by_a_file (o : OrderData) (e : exn) : Prop :=
  make_directory = Raise e
  \/ open_file (filename o) = Raise e
  \/ (exists fieldnames, write_header fieldnames = Raise e)
  \/ (exists row, write_row row = Raise e)
  \/ close_file = Raise e.

End Files.

End OnDisk.

Definition FileNotFoundError : exn :=
  OtherException "No such file or directory".

Fixpoint has_slash (s : string) : bool :=
  match s with
  | EmptyString => false
  | String c rest => Ascii.eqb c "/" || has_slash rest
  end.

(** A file system in which the directory [invoices] is there and is
    empty: a file is opened in it when what follows [invoices/] in its
    name has no [/], and written. *)
Definition sample_open (name : string) : result unit :=
  if has_slash (substring 9 (String.length name - 9) name)
  then Raise FileNotFoundError
  else Ok tt.

Definition sample_write_header (fieldnames : list string) : result unit := Ok tt.

Definition sample_write_row (row : csv_row) : result unit := Ok tt.

Definition sample_timestamp : string := "20240301_101500".

(** The order of two lines under the currency code A/B. *)
Definition slash_order : OrderData :=
  mkOrderData "30000013"
    [ mkItem "Plate 1x2" 3 2.25 6.75; mkItem "Tile 1x1" 12 0.5 6.00 ]
    12.75 4.60 0 0 0 0 17.35 "A/B" 1.

(** ** Legacy mode: from the file name to the report *)

Section LegacyMode.

Variable py_float : string -> option Q.
Variable py_int : string -> option Z.
Variable strip : string -> string.
Variable upper : string -> string.
Variable make_directory : result unit.
Variable open_file : string -> result unit.
Variable write_header : list string -> result unit.
Variable write_row : csv_row -> result unit.
Variable close_file : result unit.
Variable timestamp : string.

(** [apply_currency_conversion] on the lines typed: the prompt reads
    what [float] makes of them, and the lines that it has not read are
    left. *)
Definition apply_currency_conversion_typed (inputs : list string) (o : OrderData)
  : result (OrderData * list string) :=
  match apply_currency_conversion (map (typed_entry py_float) inputs) o with
  | Ok (o', rest) =>
      Ok (o', skipn (List.length inputs - List.length rest) inputs)
  | Raise e => Raise e
  end.

(** [read_pdf_with_read_tool] *)
Definition read_pdf_with_read_tool (pdf_path : string) : option OrderData :=
  extract_bricklink_data_from_pdf pdf_path.

(** [parse_bricklink_pdf_text].  An exception of the [try] block leads to
    manual entry on the lines that have not been read; the prompt of the
    conversion raises at the end of the lines only. *)
Definition parse_bricklink_pdf_text (pdf_path : string) (inputs : list string)
  : result OrderData * list string :=
  let order_number := order_number_of pdf_path in
  let attempt :=
    match read_pdf_with_read_tool pdf_path with
    | Some parsed_data =>
        match apply_currency_conversion_typed inputs parsed_data with
        | Ok (o, rest) => (Ok o, rest)
        | Raise e => (Raise e, [])
        end
    | None =>
        manual_data_entry_with_currency py_float py_int strip upper
          order_number inputs
    end in
  match attempt with
  | (Ok o, rest) => (Ok o, rest)
  | (Raise _, rest) =>
      manual_data_entry_with_currency py_float py_int strip upper
        order_number rest
  end.

(** [read_pdf_file], which is [parse_pdf_content]: [None] after an
    exception. *)
Definition read_pdf_file (pdf_path : string) (inputs : list string)
  : option OrderData * list string :=
  match parse_bricklink_pdf_text pdf_path inputs with
  | (Ok o, rest) => (Some o, rest)
  | (Raise _, rest) => (None, rest)
  end.

(** The second choice of [main], once the file is selected. *)
Definition legacy_mode (pdf_file : string) (inputs : list string)
  : option (Run Report) :=
  match fst (read_pdf_file pdf_file inputs) with
  | Some order_data =>
      Some (OnDisk.calculate_costs_from_data make_directory open_file
              write_header write_row close_file timestamp order_data)
  | None => None
  end.

End LegacyMode.

(** ** Choosing a file: [select_pdf_file] *)

(** [s.endswith(suffix)] *)
Definition endswith (s suffix : string) : bool :=
  (String.length suffix <=? String.length s)%nat
  && String.eqb (substring (String.length s - String.length suffix)
                           (String.length suffix) s)
                suffix.

Section SelectFile.

(** [str.strip], [str.isdigit], [int] and [os.path.exists] are taken as
    given; the result of [glob.glob("*.pdf")] is an argument. *)
Variable strip : string -> string.
Variable isdigit : string -> bool.
Variable py_int : string -> option Z.
Variable path_exists : string -> bool.

(** The loop of [select_pdf_file].  [int] can reject a text that
    [isdigit] accepts, and the [ValueError] is caught. *)
Fixpoint select_loop (pdf_files : list string) (inputs : list string)
  : result (string * list string) :=
  match inputs with
  | [] => Raise EOFError
  | s :: rest =>
      let choice := strip s in
      if isdigit choice then
        match py_int choice with
        | None => select_loop pdf_files rest
        | Some n =>
            let idx := (n - 1)%Z in
            if (0 <=? idx)%Z && (idx <? Z.of_nat (List.length pdf_files))%Z
            then
              match nth_error pdf_files (Z.to_nat idx) with
              | Some f => Ok (f, rest)
              | None => Raise (OtherException "IndexError")
              end
            else select_loop pdf_files rest
        end
      else if endswith choice ".pdf" && existsb (String.eqb choice) pdf_files
      then Ok (choice, rest)
      else if endswith choice ".pdf"
      then (if path_exists choice then Ok (choice, rest)
            else select_loop pdf_files rest)
      else select_loop pdf_files rest
  end.

Definition select_pdf_file (pdf_files : list string) (inputs : list string)
  : result (option string * list string) :=
  match pdf_files with
  | [] => Ok (None, inputs)
  | _ :: _ =>
      r <- select_loop pdf_files inputs ;;
      Ok (Some (fst r), snd r)
  end.

End SelectFile.

(** [isdigit], [int] and [os.path.exists] on the lines of the example:
    the directory holds the two files listed and [old/29154233.pdf]. *)
Definition sample_isdigit (s : string) : bool :=
  String.eqb s "0" || String.eqb s "2" || String.eqb s "3".

Definition sample_choice (s : string) : option Z :=
  if String.eqb s "0" then Some 0%Z
  else if String.eqb s "2" then Some 2%Z
  else if String.eqb s "3" then Some 3%Z
  else None.

Definition sample_exists (s : string) : bool :=
  String.eqb s "29055780.pdf" || String.eqb s "29079613.pdf"
  || String.eqb s "old/29154233.pdf".

Definition sample_directory : list string :=
  [ "29055780.pdf"; "29079613.pdf" ]%string.

(** ** The currency of an invoice in the batch path *)

(** [needle in hay] *)
Fixpoint contains (needle hay : string) : bool :=
  if prefix needle hay then true
  else
    match hay with
    | EmptyString => false
    | String _ rest => contains needle rest
    end.

(** The signs of the euro and of the pound as the bytes of their UTF-8
    encoding, which is how a text holds them here. *)
Definition euro_sign : string :=
  String (ascii_of_nat 226)
    (String (ascii_of_nat 130) (String (ascii_of_nat 172) EmptyString)).

Definition pound_sign : string :=
  String (ascii_of_nat 194) (String (ascii_of_nat 163) EmptyString).

Definition currencies : list string :=
  [ "AU"; "US"; "CA"; "SEK"; "EUR"; "GBP"; "DK"; "NZ" ]%string.

(** The first part of [extract_currency_and_amounts_advanced]: the
    currency that the text shows.  [str.lower] is taken as given. *)
Definition detect_currency (lower : string -> string) (text : string)
  : option string :=
  match find (fun curr => contains (curr ++ " $") text
                          || contains (curr ++ "$") text) currencies with
  | Some curr => Some curr
  | None =>
      if contains euro_sign text then Some "EUR"%string
      else if contains pound_sign text then Some "GBP"%string
      else if contains "kr" (lower text) then Some "SEK"%string
      else None
  end.

(** Readers of two invoices in Australian dollars: the text of
    [plain.pdf] shows its amounts without the currency. *)
Definition sample_text_with_currency (pdf_path : string) : result string :=
  if String.eqb pdf_path "plain.pdf"
  then Ok "Order #30000011 Order Total: $45.00"%string
  else Ok "Order #30000006 Order Total: AU $45.00"%string.

Definition sample_number_of (full_text pdf_path : string) : string :=
  substring 7 8 full_text.

Definition sample_detected_amounts (full_text : string)
  : result (option string * Batch.Amounts) :=
  Ok (detect_currency sample_lower full_text, one_part_amounts).

(** * Properties *)

(** ** Comparisons and division *)

Lemma Qlt_bool_iff (x y : Q) : Qlt_bool x y = true <-> x < y.
Proof.
  unfold Qlt_bool. rewrite negb_true_iff. split; intro H.
  - apply Qnot_le_lt. intro L. apply Qle_bool_iff in L. congruence.
  - destruct (Qle_bool y x) eqn:E; [|reflexivity].
    apply Qle_bool_iff in E. lra.
Qed.

Lemma Qlt_bool_false (x y : Q) : Qlt_bool x y = false <-> y <= x.
Proof.
  unfold Qlt_bool. rewrite negb_false_iff. apply Qle_bool_iff.
Qed.

Lemma Qeq_bool_false (x y : Q) : Qeq_bool x y = false <-> ~ x == y.
Proof.
  split; intro H.
  - now apply Qeq_bool_neq.
  - destruct (Qeq_bool x y) eqn:E; [|reflexivity].
    apply Qeq_bool_iff in E. contradiction.
Qed.

Lemma py_div_ok (x y : Q) : ~ y == 0 -> py_div x y = Ok (x / y).
Proof.
  intro H. unfold py_div. apply Qeq_bool_false in H. now rewrite H.
Qed.

Lemma py_div_zero (x y : Q) : y == 0 -> py_div x y = Raise ZeroDivisionError.
Proof.
  intro H. unfold py_div. apply Qeq_bool_iff in H. now rewrite H.
Qed.

Lemma py_div_cases (x y : Q) :
  py_div x y = Ok (x / y) \/ py_div x y = Raise ZeroDivisionError.
Proof.
  unfold py_div. destruct (Qeq_bool y 0); auto.
Qed.

Lemma inject_Z_zero (z : Z) : inject_Z z == 0 <-> z = 0%Z.
Proof.
  unfold Qeq, inject_Z. simpl. lia.
Qed.

(** ** The rate *)

Lemma additional_cost_rate_ok (o : OrderData) :
  additional_cost_rate o = Ok (rate_of o).
Proof.
  unfold additional_cost_rate, rate_of.
  destruct (Qlt_bool 0 (subtotal o)) eqn:E; [|reflexivity].
  apply Qlt_bool_iff in E. apply py_div_ok. lra.
Qed.

(** ** The loop *)

Lemma allocate_item_ok (rate : Q) (it : Item) :
  qty it <> 0%Z -> allocate_item rate it = Ok (allocation rate it).
Proof.
  intro H. unfold allocate_item.
  rewrite py_div_ok by (rewrite inject_Z_zero; exact H). reflexivity.
Qed.

Lemma allocate_item_zero (rate : Q) (it : Item) :
  qty it = 0%Z -> allocate_item rate it = Raise ZeroDivisionError.
Proof.
  intro H. unfold allocate_item.
  rewrite py_div_zero by (rewrite inject_Z_zero; exact H). reflexivity.
Qed.

Lemma allocation_loop_ok (rate : Q) (items : list Item) :
  Forall nonzero_qty items ->
  forall d rows,
    allocation_loop rate items d rows
    = (rows ++ map (allocation rate) items,
       Ok (fold_left (fun acc it => acc + total it * rate) items d)).
Proof.
  induction 1 as [|it rest Hit _ IH]; intros d rows; simpl.
  - now rewrite app_nil_r.
  - rewrite allocate_item_ok by exact Hit.
    rewrite IH, <- app_assoc. reflexivity.
Qed.

(** The loop stops at the first item of quantity 0, after the iterations
    for the items before it. *)
Lemma allocation_loop_zero (rate : Q) (items : list Item) :
  Exists (fun it => qty it = 0%Z) items ->
  forall d rows,
    allocation_loop rate items d rows
    = (rows ++ map (allocation rate) (before_zero_quantity items),
       Raise ZeroDivisionError).
Proof.
  induction items as [|it rest IH]; intros H d rows.
  - inversion H.
  - simpl. destruct (Z.eqb_spec (qty it) 0) as [Hz|Hnz].
    + rewrite allocate_item_zero by exact Hz. now rewrite app_nil_r.
    + rewrite allocate_item_ok by exact Hnz.
      rewrite IH by (inversion H; subst; [contradiction|assumption]).
      simpl. now rewrite <- app_assoc.
Qed.

Lemma fold_allocated_scaled (rate : Q) (items : list Item) (d e : Q) :
  fold_left (fun acc it => acc + total it * rate) items d
  == d - e * rate + fold_left (fun acc it => acc + total it) items e * rate.
Proof.
  revert d e. induction items as [|it rest IH]; intros d e; simpl.
  - ring.
  - rewrite (IH (d + total it * rate) (e + total it)). ring.
Qed.

Lemma distributed_scaled (rate : Q) (items : list Item) :
  fold_left (fun acc it => acc + total it * rate) items 0
  == sum_line_totals items * rate.
Proof.
  unfold sum_line_totals. rewrite (fold_allocated_scaled rate items 0 0). ring.
Qed.

Lemma sum_allocated_map (rate : Q) (items : list Item) (d : Q) :
  fold_left (fun acc a => acc + item_additional_cost a)
            (map (allocation rate) items) d
  = fold_left (fun acc it => acc + total it * rate) items d.
Proof.
  revert d. induction items as [|it rest IH]; intro d; simpl; [reflexivity|].
  apply IH.
Qed.

(** ** Well-formed orders do not raise *)

Lemma valid_order_exchange_rate (o : OrderData) :
  valid_order o = true -> 0 < exchange_rate o.
Proof.
  unfold valid_order. intro H. apply andb_true_iff in H.
  now apply Qlt_bool_iff.
Qed.

Lemma valid_order_quantities (o : OrderData) :
  valid_order o = true -> Forall (fun it => (0 < qty it)%Z) (items_data o).
Proof.
  unfold valid_order. intro H. apply andb_true_iff in H. destruct H as [_ H].
  rewrite forallb_forall in H. apply Forall_forall. intros it Hin.
  specialize (H it Hin). unfold valid_item in H. lia.
Qed.

Lemma valid_order_nonzero (o : OrderData) :
  valid_order o = true -> Forall nonzero_qty (items_data o).
Proof.
  intro H. apply valid_order_quantities in H.
  eapply Forall_impl; [|exact H]. unfold nonzero_qty. intros it Hq. lia.
Qed.

Lemma mapM_ok {A B : Type} (f : A -> result B) (g : A -> B) (l : list A) :
  Forall (fun x => f x = Ok (g x)) l -> mapM f l = Ok (map g l).
Proof.
  induction 1 as [|x rest Hx _ IH]; simpl; [reflexivity|].
  now rewrite Hx, IH.
Qed.

Lemma csv_item_row_ok (o : OrderData) (rate : Q) (it : Item) :
  ~ exchange_rate o == 0 -> nonzero_qty it ->
  csv_item_row o rate it = Ok (csv_row_of o rate it).
Proof.
  intros Hx Hq. unfold csv_item_row, csv_row_of.
  rewrite py_div_ok by (rewrite inject_Z_zero; exact Hq). simpl.
  destruct (negb (Qeq_bool (exchange_rate o) 1)).
  - rewrite py_div_ok by exact Hx. simpl.
    destruct (is_AUD (original_currency o)); reflexivity.
  - simpl. destruct (is_AUD (original_currency o)); reflexivity.
Qed.

Lemma summary_foreign_ok (o : OrderData) (rate : Q) (n : Z) (costs : Q) :
  ~ exchange_rate o == 0 ->
  is_AUD (original_currency o) = false ->
  exists rows,
    summary_foreign o rate n costs = Ok rows /\ In (subtotal_row o n) rows.
Proof.
  intros Hx Hcur. unfold summary_foreign, subtotal_row. rewrite Hcur.
  repeat (rewrite py_div_ok by exact Hx; simpl).
  eexists. split; [reflexivity|]. simpl. tauto.
Qed.

Lemma summary_aud_subtotal (o : OrderData) (rate : Q) (n : Z) (costs : Q) :
  is_AUD (original_currency o) = true ->
  In (subtotal_row o n) (summary_aud o rate n costs).
Proof.
  intro Hcur. unfold summary_aud, subtotal_row. rewrite Hcur. simpl. tauto.
Qed.

(** The file of a well-formed order: one row for each item, in order, and
    then the summary, in which the subtotal stands as it is. *)
Lemma create_csv_output_ok (o : OrderData) (rate : Q) (n : Z) (costs : Q) :
  ~ exchange_rate o == 0 -> Forall nonzero_qty (items_data o) ->
  exists f summary,
    create_csv_output o rate n costs = Ok f
    /\ csv_rows f = map (csv_row_of o rate) (items_data o) ++ summary
    /\ In (subtotal_row o n) summary.
Proof.
  intros Hx Hq. unfold create_csv_output.
  rewrite (mapM_ok (csv_item_row o rate) (csv_row_of o rate)).
  2:{ eapply Forall_impl; [|exact Hq]. intros it Hit. now apply csv_item_row_ok. }
  simpl.
  destruct (is_AUD (original_currency o)) eqn:Hcur.
  - eexists. eexists. split; [reflexivity|]. split; [reflexivity|].
    now apply summary_aud_subtotal.
  - destruct (summary_foreign_ok o rate n costs Hx Hcur) as (sm & Hsm & Hin).
    rewrite Hsm. simpl. eexists. exists sm. split; [reflexivity|].
    split; [reflexivity|exact Hin].
Qed.

(** The run on a well-formed order. *)
Lemma calculate_costs_from_data_ok (o : OrderData) :
  valid_order o = true ->
  exists r,
    outcome (calculate_costs_from_data o) = Ok r
    /\ report_costs r = total_additional_costs o
    /\ report_rate r = rate_of o
    /\ report_rows r = map (allocation (rate_of o)) (items_data o)
    /\ report_distributed r
       = fold_left (fun acc it => acc + total it * rate_of o) (items_data o) 0
    /\ printed (calculate_costs_from_data o)
       = header_lines o (report_costs r) (report_rate r)
         ++ map item_line (report_rows r)
         ++ footer_lines (report_costs r) (report_distributed r) ++ [CsvSaved]
    /\ exists summary,
         csv_rows (csv_file r)
         = map (csv_row_of o (rate_of o)) (items_data o) ++ summary
         /\ In (subtotal_row o (total_items (items_data o))) summary.
Proof.
  intro Hv.
  pose proof (valid_order_exchange_rate o Hv) as Hx.
  pose proof (valid_order_nonzero o Hv) as Hq.
  unfold calculate_costs_from_data.
  rewrite additional_cost_rate_ok.
  rewrite allocation_loop_ok by exact Hq.
  destruct (create_csv_output_ok o (rate_of o) (total_items (items_data o))
              (total_additional_costs o)) as (f & sm & Hf & Hrows & Hin);
    [lra|exact Hq|].
  rewrite Hf. simpl. eexists. split; [reflexivity|]. simpl.
  split; [reflexivity|]. split; [reflexivity|]. split; [reflexivity|].
  split; [reflexivity|]. split; [now rewrite <- !app_assoc|].
  exists sm. split; [exact Hrows|exact Hin].
Qed.

(** ** Reconciliation *)

Lemma order_29055780_parsed :
  extract_bricklink_data_from_pdf "29055780.pdf" = Some order_29055780.
Proof. reflexivity. Qed.

(** C1, as stated, fails.  The legacy run of invoice 29055780, with 1.6
    entered at the exchange-rate prompt, passes an order with a positive
    subtotal to [calculate_costs_from_data] and succeeds, but the three
    items it lists carry 30.139 of the 145.56 of the subtotal: only 4.90
    of the 23.68 of additional costs is distributed.  On a record without
    items nothing is distributed at all. *)
Lemma reconciliation_fails_on_order_29055780 :
  (let o := convert_order 1.6 order_29055780 in
   process_known_pdf "29055780.pdf" [Number 1.6]
   = Some (calculate_costs_from_data o)
   /\ 0 < subtotal o
   /\ exists r,
        outcome (calculate_costs_from_data o) = Ok r
        /\ report_costs r == 23.68
        /\ report_distributed r < 4.91
        /\ 18 < Qabs (report_costs r - report_distributed r))
  /\ (0 < subtotal no_items_order
      /\ exists r,
           outcome (calculate_costs_from_data no_items_order) = Ok r
           /\ report_costs r == 5.00
           /\ report_distributed r = 0).
Proof.
  split.
  - split; [vm_compute; reflexivity|]. split; [reflexivity|].
    eexists. split; [vm_compute; reflexivity|]. repeat split.
  - split; [reflexivity|].
    eexists. split; [vm_compute; reflexivity|]. repeat split.
Qed.

Lemma order_29079613_parsed :
  extract_bricklink_data_from_pdf "29079613.pdf" = Some order_29079613.
Proof. reflexivity. Qed.

Lemma order_29154233_parsed :
  extract_bricklink_data_from_pdf "29154233.pdf" = Some order_29154233.
Proof. reflexivity. Qed.

Lemma Qabs_scaled_difference (a b : Q) : Qabs (a - a * b) == Qabs a * Qabs (1 - b).
Proof.
  rewrite <- Qabs_Qmult. apply Qabs_wd. ring.
Qed.

(** C1, amended: for an order with a positive subtotal, every item is
    allocated [line_total * overhead_rate], and these amounts add up to
    the total additional costs times the part of the subtotal that the
    line totals come to.  The reconciliation error is the total
    additional costs times the part that is missing: it is zero exactly
    when the line totals add up to the subtotal or there are no
    additional costs, and it is within a tolerance exactly when
    |costs| * |subtotal - sum of line totals| <= tolerance * subtotal.
    The engine does not compare the line totals with the subtotal. *)
Theorem reconciliation_law (o : OrderData) (tolerance : Q) :
  valid_order o = true ->
  0 < subtotal o ->
  exists r,
    outcome (calculate_costs_from_data o) = Ok r
    /\ Forall (fun a => item_additional_cost a = total (alloc_item a) * report_rate r)
         (report_rows r)
    /\ report_rate r == total_additional_costs o / subtotal o
    /\ sum_allocated (report_rows r) == report_distributed r
    /\ report_distributed r
       == total_additional_costs o * (sum_line_totals (items_data o) / subtotal o)
    /\ Qabs (report_costs r - report_distributed r)
       == Qabs (total_additional_costs o)
          * Qabs (1 - sum_line_totals (items_data o) / subtotal o)
    /\ (report_distributed r == total_additional_costs o
        <-> sum_line_totals (items_data o) == subtotal o
            \/ total_additional_costs o == 0)
    /\ (Qabs (report_costs r - report_distributed r) <= tolerance
        <-> Qabs (total_additional_costs o)
            * Qabs (subtotal o - sum_line_totals (items_data o))
            <= tolerance * subtotal o).
Proof.
  intros Hv Hpos.
  destruct (calculate_costs_from_data_ok o Hv)
    as (r & Hrun & Hcosts & Hrate & Hrows & Hdist & _).
  assert (Hr : rate_of o = total_additional_costs o / subtotal o).
  { unfold rate_of. apply Qlt_bool_iff in Hpos. now rewrite Hpos. }
  set (costs := total_additional_costs o) in *.
  set (lines := sum_line_totals (items_data o)) in *.
  assert (Hfold : fold_left (fun acc it => acc + total it * rate_of o)
                    (items_data o) 0 == costs * (lines / subtotal o)).
  { rewrite distributed_scaled, Hr. fold lines. field. lra. }
  assert (Herr : Qabs (report_costs r - report_distributed r)
                 == Qabs costs * Qabs (1 - lines / subtotal o)).
  { rewrite Hcosts, Hdist, Hfold. apply Qabs_scaled_difference. }
  assert (Hpart : Qabs (1 - lines / subtotal o) * subtotal o
                  == Qabs (subtotal o - lines)).
  { rewrite <- (Qabs_pos (subtotal o)) at 2 by lra.
    rewrite <- Qabs_Qmult. apply Qabs_wd. field. lra. }
  exists r. split; [exact Hrun|]. split; [|split; [|split; [|split; [|split; [|split]]]]].
  - rewrite Hrows, Hrate. apply Forall_forall. intros a Ha.
    apply in_map_iff in Ha. destruct Ha as (it & <- & _). reflexivity.
  - now rewrite Hrate, Hr.
  - unfold sum_allocated. now rewrite Hrows, sum_allocated_map, Hdist.
  - now rewrite Hdist.
  - exact Herr.
  - rewrite Hdist, Hfold. split.
    + intro H.
      assert (H0 : costs * (subtotal o - lines) == 0).
      { assert (E : costs * (subtotal o - lines)
                    == (costs - costs * (lines / subtotal o)) * subtotal o)
          by (field; lra).
        rewrite E, H. ring. }
      apply Qmult_integral in H0. destruct H0 as [H0 | H0]; [now right|].
      left. lra.
    + intros [H | H]; [rewrite H; field; lra | rewrite H; ring].
  - rewrite Herr. split; intro H.
    + rewrite <- Hpart, Qmult_assoc.
      apply Qmult_le_compat_r; [exact H | lra].
    + apply (Qmult_lt_0_le_reg_r _ _ (subtotal o) Hpos).
      rewrite <- Qmult_assoc, Hpart. exact H.
Qed.

(** The AUD invoice 29154233: nineteen lines that come to 115.166 of the
    subtotal of 115.17; 12.4996 of the 12.50 is distributed, within
    0.01. *)
Lemma reconciliation_law_witness :
  valid_order order_29154233 = true
  /\ 0 < subtotal order_29154233
  /\ List.length (items_data order_29154233) = 19%nat
  /\ exists r,
       outcome (calculate_costs_from_data order_29154233) = Ok r
       /\ report_distributed r
          == total_additional_costs order_29154233
             * (sum_line_totals (items_data order_29154233)
                / subtotal order_29154233)
       /\ ~ report_distributed r == total_additional_costs order_29154233
       /\ Qabs (report_costs r - report_distributed r) <= 0.01.
Proof.
  assert (Hv : valid_order order_29154233 = true) by reflexivity.
  assert (Hpos : 0 < subtotal order_29154233) by reflexivity.
  split; [exact Hv|]. split; [exact Hpos|]. split; [reflexivity|].
  destruct (reconciliation_law order_29154233 0.01 Hv Hpos)
    as (r & Hrun & _ & _ & _ & Hd & _ & Hzero & Htol).
  exists r. split; [exact Hrun|]. split; [exact Hd|]. split.
  - intro H. apply Hzero in H. destruct H as [H | H]; vm_compute in H; discriminate.
  - apply Htol. vm_compute. discriminate.
Defined.

(** ** Rounding respects equality of rationals *)

#[global] Instance round_half_even_comp : Proper (Qeq ==> eq) round_half_even.
Proof.
  intros x y H. unfold round_half_even.
  rewrite (Qfloor_comp x y H).
  assert (Hd : x - inject_Z (Qfloor y) == y - inject_Z (Qfloor y))
    by now rewrite H.
  now rewrite (Qcompare_comp _ _ Hd (1 # 2) (1 # 2) (Qeq_refl _)).
Qed.

#[global] Instance py_round_comp : Proper (Qeq ==> eq ==> Qeq) py_round.
Proof.
  intros x y H n m <-. unfold py_round.
  assert (Hs : x * pow10 n == y * pow10 n) by now rewrite H.
  now rewrite (round_half_even_comp _ _ Hs).
Qed.

Lemma py_round_zero (x : Q) (n : nat) : x == 0 -> py_round x n == 0.
Proof.
  intro H. rewrite H. unfold py_round.
  assert (Hz : 0 * pow10 n == 0) by ring.
  rewrite (round_half_even_comp _ _ Hz).
  change (round_half_even 0) with 0%Z.
  unfold Qdiv. ring.
Qed.

(** ** Zero subtotal *)

(** C2: when the subtotal is zero the rate is set to 0 without any
    division, the run does not raise, and every item is allocated exactly
    0; the batch path returns 0 for the percentage in the same way and adds
    nothing to a unit price. *)
Theorem zero_subtotal_policy (o : OrderData) (a : Batch.Amounts) :
  subtotal o == 0 ->
  valid_order o = true ->
  Batch.order_total a == 0 ->
  additional_cost_rate o = Ok 0
  /\ (exists r,
        outcome (calculate_costs_from_data o) = Ok r
        /\ report_rate r = 0
        /\ map alloc_item (report_rows r) = items_data o
        /\ Forall (fun al => item_additional_cost al == 0
                            /\ true_unit_cost al == unit_price (alloc_item al))
             (report_rows r)
        /\ report_distributed r == 0)
  /\ Batch.calculate_overhead_percentage_advanced a = 0
  /\ (forall n d c it,
        Batch.Overhead_Amount
          (Batch.process_item n d c a
             (Batch.calculate_overhead_percentage_advanced a) it) == 0).
Proof.
  intros Hz Hv Ha.
  assert (Hr : rate_of o = 0).
  { unfold rate_of. destruct (Qlt_bool 0 (subtotal o)) eqn:E; [|reflexivity].
    apply Qlt_bool_iff in E. lra. }
  assert (Hp : Batch.calculate_overhead_percentage_advanced a = 0).
  { unfold Batch.calculate_overhead_percentage_advanced.
    apply Qeq_bool_iff in Ha. now rewrite Ha. }
  split; [|split; [|split]].
  - now rewrite additional_cost_rate_ok, Hr.
  - destruct (calculate_costs_from_data_ok o Hv)
      as (r & Hrun & _ & Hrate & Hrows & Hdist & _).
    exists r. split; [exact Hrun|]. split; [congruence|].
    rewrite Hrows, Hdist, Hr. split; [|split].
    + rewrite map_map. simpl. apply map_id.
    + apply Forall_forall. intros al Hal.
      apply in_map_iff in Hal. destruct Hal as (it & <- & _). simpl.
      unfold Qdiv. split; ring.
    + rewrite distributed_scaled. ring.
  - exact Hp.
  - intros n d c it. rewrite Hp. simpl.
    apply py_round_zero. unfold Qdiv. ring.
Qed.

Lemma zero_subtotal_policy_witness :
  subtotal free_items_order == 0
  /\ valid_order free_items_order = true
  /\ Batch.order_total free_items_amounts == 0
  /\ additional_cost_rate free_items_order = Ok 0
  /\ (exists r,
        outcome (calculate_costs_from_data free_items_order) = Ok r
        /\ report_rate r = 0
        /\ map alloc_item (report_rows r) = items_data free_items_order
        /\ Forall (fun al => item_additional_cost al == 0
                            /\ true_unit_cost al == unit_price (alloc_item al))
             (report_rows r)
        /\ report_distributed r == 0)
  /\ Batch.calculate_overhead_percentage_advanced free_items_amounts = 0
  /\ (forall n d c it,
        Batch.Overhead_Amount
          (Batch.process_item n d c free_items_amounts
             (Batch.calculate_overhead_percentage_advanced free_items_amounts) it)
        == 0).
Proof.
  split; [reflexivity|]. split; [reflexivity|]. split; [reflexivity|].
  apply (zero_subtotal_policy free_items_order free_items_amounts); reflexivity.
Defined.

(** ** Weighting *)

(** C3, as stated, fails on the batch path: [process_single_pdf_advanced]
    takes the overhead of a unit from the unit price alone.  For a line
    of three parts at 0.333 whose printed total is 1.00, with shipping at
    50% of the goods, it is 0.333 * 50% = 0.1665, where the line total
    gives 1.00 * 50% / 3, which is shown as 0.1667. *)
Lemma batch_overhead_is_by_unit_price :
  Batch.calculate_overhead_percentage_advanced batch_amounts_50 == 50
  /\ Batch.Overhead_Amount
       (Batch.process_item "30000002" "Jan 5, 2025" "AU" batch_amounts_50
          (Batch.calculate_overhead_percentage_advanced batch_amounts_50)
          batch_item_3x) == 0.1665
  /\ ~ Batch.total batch_item_3x * (50 / 100) / inject_Z (Batch.qty batch_item_3x)
       == 0.1665
  /\ ~ py_round (Batch.total batch_item_3x * (50 / 100)
                 / inject_Z (Batch.qty batch_item_3x)) 4 == 0.1665.
Proof.
  repeat split; vm_compute; congruence.
Qed.

(** C3, amended: [calculate_costs_from_data] allocates
    [line_total * rate] to each item, in the order of the items, divides
    it by the quantity and adds the result to the unit price: the weight
    is the line total.  The batch path adds [unit_price * p / 100] to the
    unit price, where [p] is the percentage of the order as
    [calculate_overhead_percentage_advanced] returns it, rounded to two
    decimals, and shows both with four decimals: neither the line total
    nor the quantity of the item is read for them. *)
Theorem allocation_weighting (o : OrderData) :
  valid_order o = true ->
  (exists r,
     outcome (calculate_costs_from_data o) = Ok r
     /\ report_rate r = rate_of o
     /\ map alloc_item (report_rows r) = items_data o
     /\ Forall (fun a =>
                 item_additional_cost a = total (alloc_item a) * report_rate r
                 /\ additional_cost_per_unit a
                    = item_additional_cost a / inject_Z (qty (alloc_item a))
                 /\ true_unit_cost a
                    = unit_price (alloc_item a) + additional_cost_per_unit a)
          (report_rows r))
  /\ (forall n d c a p it,
        Batch.Overhead_Amount (Batch.process_item n d c a p it)
        = py_round (Batch.unit_price it * (p / 100)) 4
        /\ Batch.Adjusted_Unit_Price (Batch.process_item n d c a p it)
           = py_round (Batch.unit_price it + Batch.unit_price it * (p / 100)) 4)
  /\ (forall a,
        Batch.calculate_overhead_percentage_advanced a
        = if Qeq_bool (Batch.order_total a) 0 then 0
          else py_round
                 ((Batch.shipping a + Batch.insurance a + Batch.additional_1 a
                   + Batch.additional_2 a - Batch.credit a)
                  / Batch.order_total a * 100) 2)
  /\ (forall n d c a it it',
        Batch.unit_price it = Batch.unit_price it' ->
        let p := Batch.calculate_overhead_percentage_advanced a in
        Batch.Overhead_Amount (Batch.process_item n d c a p it)
        = Batch.Overhead_Amount (Batch.process_item n d c a p it')
        /\ Batch.Adjusted_Unit_Price (Batch.process_item n d c a p it)
           = Batch.Adjusted_Unit_Price (Batch.process_item n d c a p it')).
Proof.
  intro Hv. split; [|split; [|split]].
  - destruct (calculate_costs_from_data_ok o Hv)
      as (r & Hrun & _ & Hrate & Hrows & _).
    exists r. split; [exact Hrun|]. split; [exact Hrate|].
    rewrite Hrows, Hrate. split.
    + rewrite map_map. simpl. apply map_id.
    + apply Forall_forall. intros a Ha.
      apply in_map_iff in Ha. destruct Ha as (it & <- & _). simpl. auto.
  - intros. split; reflexivity.
  - intro a. reflexivity.
  - intros n d c a it it' Hup p. unfold Batch.process_item.
    cbn [Batch.Overhead_Amount Batch.Adjusted_Unit_Price].
    rewrite Hup. split; reflexivity.
Qed.

Lemma allocation_weighting_witness :
  valid_order order_29055780 = true
  /\ (exists r,
        outcome (calculate_costs_from_data order_29055780) = Ok r
        /\ report_rate r = rate_of order_29055780
        /\ map alloc_item (report_rows r) = items_data order_29055780
        /\ Forall (fun a =>
                    item_additional_cost a = total (alloc_item a) * report_rate r
                    /\ additional_cost_per_unit a
                       = item_additional_cost a / inject_Z (qty (alloc_item a))
                    /\ true_unit_cost a
                       = unit_price (alloc_item a) + additional_cost_per_unit a)
             (report_rows r))
  /\ Batch.Overhead_Amount
       (Batch.process_item "30000002" "Jan 5, 2025" "AU" batch_amounts_50
          (Batch.calculate_overhead_percentage_advanced batch_amounts_50)
          batch_item_3x)
     = Batch.Overhead_Amount
         (Batch.process_item "30000002" "Jan 5, 2025" "AU" batch_amounts_50
            (Batch.calculate_overhead_percentage_advanced batch_amounts_50)
            (Batch.mkItem "New" "Red" "Plate 1x2" None 1 0.333 0.333 "0.5g")).
Proof.
  split; [reflexivity|].
  destruct (allocation_weighting order_29055780) as (H1 & _ & _ & H4);
    [reflexivity|].
  split; [exact H1|].
  exact (proj1 (H4 "30000002"%string "Jan 5, 2025"%string "AU"%string
                   batch_amounts_50 batch_item_3x
                   (Batch.mkItem "New" "Red" "Plate 1x2" None 1 0.333 0.333 "0.5g")
                   eq_refl)).
Defined.

(** ** Currency conversion *)

Lemma valid_order_convert (r : Q) (o : OrderData) :
  0 < r -> valid_order o = true -> valid_order (convert_order r o) = true.
Proof.
  unfold valid_order. intros Hr H. apply andb_true_iff in H. destruct H as [_ H].
  apply andb_true_iff. split; [now apply Qlt_bool_iff|]. simpl.
  rewrite forallb_forall in *. intros it Hin.
  apply in_map_iff in Hin. destruct Hin as (it0 & <- & Hin0).
  exact (H it0 Hin0).
Qed.

Lemma rate_of_convert (r : Q) (o : OrderData) :
  0 < r -> rate_of (convert_order r o) == rate_of o.
Proof.
  intro Hr. unfold rate_of, total_additional_costs. simpl.
  destruct (Qlt_bool 0 (subtotal o * r)) eqn:E1;
    destruct (Qlt_bool 0 (subtotal o)) eqn:E2.
  - apply Qlt_bool_iff in E2. field. lra.
  - apply Qlt_bool_iff in E1. apply Qlt_bool_false in E2. exfalso. nra.
  - apply Qlt_bool_iff in E2. apply Qlt_bool_false in E1. exfalso. nra.
  - reflexivity.
Qed.

Lemma read_exchange_rate_first (r : Q) (rest : list entry) :
  0 < r -> read_exchange_rate (Number r :: rest) = Ok (r, rest).
Proof.
  intro Hr. simpl. apply Qlt_bool_iff in Hr. now rewrite Hr.
Qed.

(** A rate that the prompt loop returns is positive. *)
Lemma read_exchange_rate_positive (entries : list entry) (r : Q) (rest : list entry) :
  read_exchange_rate entries = Ok (r, rest) -> 0 < r.
Proof.
  induction entries as [|e entries IH]; simpl; [discriminate|].
  destruct e as [|q]; [exact IH|].
  destruct (Qlt_bool 0 q) eqn:E; [|exact IH].
  intro H. injection H as <- _. now apply Qlt_bool_iff.
Qed.

(** Whatever is typed at the prompt, an order in a foreign currency is
    converted with a positive rate or not at all. *)
Lemma conversion_rate_is_positive (entries rest : list entry) (o o' : OrderData) :
  is_AUD (original_currency o) = false ->
  apply_currency_conversion entries o = Ok (o', rest) ->
  exists r, 0 < r /\ o' = convert_order r o.
Proof.
  intros Hcur. unfold apply_currency_conversion. rewrite Hcur. simpl.
  destruct (read_exchange_rate entries) as [[r rest']|e] eqn:E; simpl; [|discriminate].
  intro H. injection H as <- _. exists r. split; [|reflexivity].
  exact (read_exchange_rate_positive entries r rest' E).
Qed.

Lemma rows_scaled (r rate rate' : Q) (items : list Item) :
  rate' == rate ->
  Forall2 (fun a a' => alloc_item a' = convert_item r (alloc_item a)
                       /\ true_unit_cost a' == r * true_unit_cost a)
    (map (allocation rate) items)
    (map (allocation rate') (map (convert_item r) items)).
Proof.
  intro Heq. induction items as [|it rest IH]; simpl; constructor; [|exact IH].
  split; [reflexivity|]. simpl. rewrite Heq. unfold Qdiv. ring.
Qed.

(** C4: converting an order with a positive rate [r] leaves the rate of
    additional costs unchanged and multiplies every true unit cost by
    [r]. *)
Theorem rate_invariance (o : OrderData) (r : Q) :
  0 < r ->
  valid_order o = true ->
  (forall rest, is_AUD (original_currency o) = false ->
     apply_currency_conversion (Number r :: rest) o = Ok (convert_order r o, rest))
  /\ exists rep rep',
       outcome (calculate_costs_from_data o) = Ok rep
       /\ outcome (calculate_costs_from_data (convert_order r o)) = Ok rep'
       /\ report_rate rep' == report_rate rep
       /\ Forall2 (fun a a' => alloc_item a' = convert_item r (alloc_item a)
                               /\ true_unit_cost a' == r * true_unit_cost a)
            (report_rows rep) (report_rows rep').
Proof.
  intros Hr Hv. split.
  - intros rest Hcur. unfold apply_currency_conversion.
    rewrite Hcur. simpl negb. cbv iota.
    rewrite (read_exchange_rate_first r rest Hr). reflexivity.
  - destruct (calculate_costs_from_data_ok o Hv)
      as (rep & Hrun & _ & Hrate & Hrows & _).
    destruct (calculate_costs_from_data_ok _ (valid_order_convert r o Hr Hv))
      as (rep' & Hrun' & _ & Hrate' & Hrows' & _).
    exists rep, rep'. split; [exact Hrun|]. split; [exact Hrun'|].
    pose proof (rate_of_convert r o Hr) as Heq.
    split; [now rewrite Hrate, Hrate'|].
    rewrite Hrows, Hrows'. simpl. now apply rows_scaled.
Qed.

Lemma rate_invariance_witness :
  0 < 1.6
  /\ valid_order order_29055780 = true
  /\ apply_currency_conversion [Number 1.6] order_29055780
     = Ok (convert_order 1.6 order_29055780, [])
  /\ exists rep rep',
       outcome (calculate_costs_from_data order_29055780) = Ok rep
       /\ outcome (calculate_costs_from_data (convert_order 1.6 order_29055780)) = Ok rep'
       /\ report_rate rep' == report_rate rep
       /\ Forall2 (fun a a' => alloc_item a' = convert_item 1.6 (alloc_item a)
                               /\ true_unit_cost a' == 1.6 * true_unit_cost a)
            (report_rows rep) (report_rows rep').
Proof.
  split; [reflexivity|]. split; [reflexivity|].
  destruct (rate_invariance order_29055780 1.6) as [Hconv Hrun];
    [reflexivity|reflexivity|].
  split; [apply Hconv; reflexivity|exact Hrun].
Defined.

(** ** Negative additional costs *)

(** C5, as stated, fails: with additional costs of -10.00 the free gift of
    [credit_order] keeps its unit price of 0, and on a record with a zero
    subtotal the rate is 0 and no unit price is reduced. *)
Lemma negative_overhead_not_always_a_reduction :
  (total_additional_costs credit_order < 0
   /\ exists r,
        outcome (calculate_costs_from_data credit_order) = Ok r
        /\ report_rate r == -0.10
        /\ map (fun a => Qred (true_unit_cost a)) (report_rows r) = [45; 0]
        /\ map (fun a => unit_price (alloc_item a)) (report_rows r) = [50; 0])
  /\ (total_additional_costs credit_order_zero_subtotal < 0
      /\ exists r,
           outcome (calculate_costs_from_data credit_order_zero_subtotal) = Ok r
           /\ report_rate r = 0
           /\ map (fun a => Qred (true_unit_cost a)) (report_rows r) = [50]
           /\ map (fun a => unit_price (alloc_item a)) (report_rows r) = [50]).
Proof.
  split; (split; [reflexivity|]);
    (eexists; split; [vm_compute; reflexivity|]); repeat split.
Qed.

Lemma Qdiv_neg_pos (a b : Q) : a < 0 -> 0 < b -> a / b < 0.
Proof.
  intros Ha Hb. apply Qlt_shift_div_r; [exact Hb|]. lra.
Qed.

Lemma inject_Z_pos (z : Z) : (0 < z)%Z -> 0 < inject_Z z.
Proof.
  intro H. unfold Qlt, inject_Z. simpl. lia.
Qed.

(** C5, amended: when the additional costs are negative and the subtotal
    is positive the run does not raise, the rate is negative, every item
    with a positive line total gets a true unit cost below its unit price,
    and an item whose line total is 0 keeps its unit price. *)
Theorem negative_overhead (o : OrderData) :
  valid_order o = true ->
  total_additional_costs o < 0 ->
  0 < subtotal o ->
  exists r,
    outcome (calculate_costs_from_data o) = Ok r
    /\ report_rate r < 0
    /\ map alloc_item (report_rows r) = items_data o
    /\ Forall (fun a =>
                item_additional_cost a = total (alloc_item a) * report_rate r
                /\ (0 < total (alloc_item a) ->
                    true_unit_cost a < unit_price (alloc_item a))
                /\ (total (alloc_item a) == 0 ->
                    true_unit_cost a == unit_price (alloc_item a)))
         (report_rows r).
Proof.
  intros Hv Hneg Hpos.
  destruct (calculate_costs_from_data_ok o Hv)
    as (r & Hrun & _ & Hrate & Hrows & _).
  assert (Hr : rate_of o < 0).
  { unfold rate_of. apply Qlt_bool_iff in Hpos as Hb. rewrite Hb.
    now apply Qdiv_neg_pos. }
  exists r. split; [exact Hrun|]. split; [now rewrite Hrate|].
  rewrite Hrows, Hrate. split.
  - rewrite map_map. simpl. apply map_id.
  - pose proof (valid_order_quantities o Hv) as Hq.
    rewrite Forall_forall in Hq. apply Forall_forall. intros a Ha.
    apply in_map_iff in Ha. destruct Ha as (it & <- & Hin). simpl.
    split; [reflexivity|]. split.
    + intro Ht.
      assert (Hd : total it * rate_of o / inject_Z (qty it) < 0).
      { apply Qdiv_neg_pos; [nra|]. apply inject_Z_pos. now apply Hq. }
      lra.
    + intro Ht. rewrite Ht. unfold Qdiv. ring.
Qed.

Lemma negative_overhead_witness :
  valid_order credit_order = true
  /\ total_additional_costs credit_order < 0
  /\ 0 < subtotal credit_order
  /\ exists r,
       outcome (calculate_costs_from_data credit_order) = Ok r
       /\ report_rate r < 0
       /\ map alloc_item (report_rows r) = items_data credit_order
       /\ Forall (fun a =>
                   item_additional_cost a = total (alloc_item a) * report_rate r
                   /\ (0 < total (alloc_item a) ->
                       true_unit_cost a < unit_price (alloc_item a))
                   /\ (total (alloc_item a) == 0 ->
                       true_unit_cost a == unit_price (alloc_item a)))
            (report_rows r).
Proof.
  split; [reflexivity|]. split; [reflexivity|]. split; [reflexivity|].
  apply (negative_overhead credit_order); reflexivity.
Defined.

(** ** Zero quantity *)

Lemma csv_item_row_zero (o : OrderData) (rate : Q) (it : Item) :
  qty it = 0%Z -> csv_item_row o rate it = Raise ZeroDivisionError.
Proof.
  intro H. unfold csv_item_row.
  rewrite py_div_zero by (rewrite inject_Z_zero; exact H). reflexivity.
Qed.

Lemma csv_item_row_cases (o : OrderData) (rate : Q) (it : Item) :
  (exists row, csv_item_row o rate it = Ok row)
  \/ csv_item_row o rate it = Raise ZeroDivisionError.
Proof.
  unfold csv_item_row.
  destruct (py_div_cases (total it * rate) (inject_Z (qty it))) as [-> | ->];
    simpl; [|now right].
  destruct (negb (Qeq_bool (exchange_rate o) 1)).
  - destruct (py_div_cases (unit_price it) (exchange_rate o)) as [-> | ->];
      simpl; [|now right].
    left. destruct (is_AUD (original_currency o)); eauto.
  - simpl. left. destruct (is_AUD (original_currency o)); eauto.
Qed.

Lemma csv_rows_zero (o : OrderData) (rate : Q) (items : list Item) :
  Exists (fun it => qty it = 0%Z) items ->
  mapM (csv_item_row o rate) items = Raise ZeroDivisionError.
Proof.
  induction items as [|it rest IH]; intro H; [inversion H|]. simpl.
  destruct (Z.eq_dec (qty it) 0) as [Hz|Hnz].
  - now rewrite csv_item_row_zero.
  - destruct (csv_item_row_cases o rate it) as [[row ->] | ->]; [|reflexivity].
    simpl. rewrite IH; [reflexivity|].
    inversion H; subst; [contradiction|assumption].
Qed.

(** C6: an order with an item of quantity 0 makes the run raise
    [ZeroDivisionError], whatever the subtotal.  It is raised by the
    division by the quantity in the loop: the heading and the lines of
    the items before that item have been printed, and no total.
    [create_csv_output] on its own raises it as well. *)
Theorem zero_quantity_fails (o : OrderData) :
  Exists (fun it => qty it = 0%Z) (items_data o) ->
  outcome (calculate_costs_from_data o) = Raise ZeroDivisionError
  /\ printed (calculate_costs_from_data o)
     = header_lines o (total_additional_costs o) (rate_of o)
       ++ map item_line
            (map (allocation (rate_of o)) (before_zero_quantity (items_data o)))
  /\ (forall rate, exists it,
        In it (items_data o) /\ allocate_item rate it = Raise ZeroDivisionError)
  /\ (forall rate n costs,
        create_csv_output o rate n costs = Raise ZeroDivisionError).
Proof.
  intro H.
  assert (Hrun : calculate_costs_from_data o
                 = mkRun (header_lines o (total_additional_costs o) (rate_of o)
                          ++ map item_line
                               (map (allocation (rate_of o))
                                    (before_zero_quantity (items_data o))))
                         (Raise ZeroDivisionError)).
  { unfold calculate_costs_from_data.
    rewrite additional_cost_rate_ok.
    now rewrite allocation_loop_zero. }
  rewrite Hrun. split; [reflexivity|]. split; [reflexivity|]. split.
  - intro rate. apply Exists_exists in H. destruct H as (it & Hin & Hz).
    exists it. split; [exact Hin|]. now apply allocate_item_zero.
  - intros rate n costs. unfold create_csv_output.
    now rewrite csv_rows_zero.
Qed.

Lemma zero_quantity_fails_witness :
  0 < subtotal zero_quantity_order
  /\ outcome (calculate_costs_from_data zero_quantity_order)
     = Raise ZeroDivisionError
  /\ printed (calculate_costs_from_data zero_quantity_order)
     = header_lines zero_quantity_order
         (total_additional_costs zero_quantity_order)
         (rate_of zero_quantity_order)
       ++ map item_line
            (map (allocation (rate_of zero_quantity_order))
                 (before_zero_quantity (items_data zero_quantity_order)))
  /\ (forall rate, exists it,
        In it (items_data zero_quantity_order)
        /\ allocate_item rate it = Raise ZeroDivisionError)
  /\ (forall rate n costs,
        create_csv_output zero_quantity_order rate n costs
        = Raise ZeroDivisionError).
Proof.
  split; [reflexivity|].
  apply (zero_quantity_fails zero_quantity_order).
  apply Exists_cons_tl, Exists_cons_hd. reflexivity.
Defined.

(** What is on the console when that run stops: the heading and the line
    of the first item. *)
Example zero_quantity_run_printed :
  printed (calculate_costs_from_data zero_quantity_order)
  = [ Heading "30000005"; Rule 70;
      Amount "Subtotal" 25.00; Amount "Shipping" 5.00;
      Amount "Total Additional Costs" 5.00;
      RateLine 0.2000 20.00; Amount "Grand Total" 30.00;
      EmptyLine; TableHead; Rule 85;
      ItemLine "Sample LEGO Brick 2x4" 10 0.150 0.0300 0.1800 ].
Proof. vm_compute. reflexivity. Qed.

(** ** The difference that is reported *)

(** C7, as stated, fails: the code has no tolerance and no warning.  In
    the legacy run of invoice 29055780 at the rate 1.6 the difference is
    18.7769, far above 0.01, and the run prints what it prints for any
    other order: after the lines of the items, the two totals and the
    difference. *)
Lemma no_warning_above_tolerance :
  let o := convert_order 1.6 order_29055780 in
  process_known_pdf "29055780.pdf" [Number 1.6]
  = Some (calculate_costs_from_data o)
  /\ exists r,
       outcome (calculate_costs_from_data o) = Ok r
       /\ 0.01 < Qabs (report_costs r - report_distributed r)
       /\ printed (calculate_costs_from_data o)
          = [ Heading "29055780"; CurrencyInfo "EUR" 1.6; Rule 70;
              Amount "Subtotal" 232.90; Amount "Shipping" 23.68;
              Amount "Total Additional Costs" 23.68;
              RateLine 0.1017 10.17; Amount "Grand Total" 256.58;
              EmptyLine; TableHead; Rule 85;
              ItemLine "Belle - Minifigure, Dress with White Creases" 1
                       24.364 2.4773 26.8414;
              ItemLine "Bruno Madrigal" 1 11.345 1.1535 12.4989;
              ItemLine "Lilo - Long Dress" 1 12.513 1.2723 13.7853;
              Rule 85;
              Amount "Total additional costs distributed" 4.90;
              Amount "Original total additional costs" 23.68;
              DifferenceLine 18.7769;
              CsvSaved ].
Proof.
  split; [vm_compute; reflexivity|].
  eexists. split; [vm_compute; reflexivity|]. repeat split.
Qed.

(** C7, amended: every run on a well-formed order succeeds, whatever the
    difference, and ends by printing the distributed total, the original
    total and [|total_additional_costs - total_additional_distributed|]
    with four decimals; nothing is compared with a tolerance. *)
Theorem difference_is_reported (o : OrderData) :
  valid_order o = true ->
  exists r,
    outcome (calculate_costs_from_data o) = Ok r
    /\ report_costs r = total_additional_costs o
    /\ report_distributed r = sum_allocated (report_rows r)
    /\ printed (calculate_costs_from_data o)
       = header_lines o (report_costs r) (report_rate r)
         ++ map item_line (report_rows r)
         ++ [ Rule 85;
              Amount "Total additional costs distributed"
                     (py_round (report_distributed r) 2);
              Amount "Original total additional costs"
                     (py_round (report_costs r) 2);
              DifferenceLine
                (py_round (Qabs (report_costs r - report_distributed r)) 4);
              CsvSaved ].
Proof.
  intro Hv.
  destruct (calculate_costs_from_data_ok o Hv)
    as (r & Hrun & Hcosts & _ & Hrows & Hdist & Hcon & _).
  exists r. split; [exact Hrun|]. split; [exact Hcosts|]. split.
  - unfold sum_allocated. now rewrite Hrows, sum_allocated_map.
  - exact Hcon.
Qed.

Lemma difference_is_reported_witness :
  valid_order order_29055780 = true
  /\ exists r,
       outcome (calculate_costs_from_data order_29055780) = Ok r
       /\ report_costs r = total_additional_costs order_29055780
       /\ report_distributed r = sum_allocated (report_rows r)
       /\ printed (calculate_costs_from_data order_29055780)
          = header_lines order_29055780 (report_costs r) (report_rate r)
            ++ map item_line (report_rows r)
            ++ [ Rule 85;
                 Amount "Total additional costs distributed"
                        (py_round (report_distributed r) 2);
                 Amount "Original total additional costs"
                        (py_round (report_costs r) 2);
                 DifferenceLine
                   (py_round (Qabs (report_costs r - report_distributed r)) 4);
                 CsvSaved ].
Proof.
  split; [reflexivity|].
  apply (difference_is_reported order_29055780). reflexivity.
Defined.

(** ** The coupon *)

(** C10: the record returned by [parse_actual_pdf_content] has the coupon
    added to its credit, and its grand total is the subtotal plus the four
    charges minus that credit. *)
Theorem coupon_is_merged_into_credit (c : PdfContent) (pdf_path : string) :
  exists o,
    parse_actual_pdf_content c pdf_path = Some o
    /\ credit o
       = pdf_credit c + match pdf_coupon_credit c with Some q => q | None => 0 end
    /\ grand_total o
       == subtotal o + shipping o + insurance o
          + additional_charges_1 o + additional_charges_2 o - credit o
    /\ total_additional_costs o
       == pdf_shipping c + pdf_insurance c + pdf_additional_charges_1 c
          + pdf_additional_charges_2 c - pdf_credit c
          - match pdf_coupon_credit c with Some q => q | None => 0 end.
Proof.
  eexists. split; [reflexivity|]. unfold total_additional_costs. simpl.
  split; [reflexivity|]. unfold coupon_or_zero. split; ring.
Qed.

(** ** Rounding in the exports *)




(** ** The batch *)

(** The loop over the items of a file gives a row for every item, or
    fails at a quantity that no [float] holds. *)
Lemma process_items_cases (n d c : string) (a : Batch.Amounts) (p : Q)
    (items : list Batch.Item) :
  (Forall (fun it => fits_float (Batch.qty it) = true) items
   /\ Batch.process_items n d c a p items
      = Ok (map (Batch.process_item n d c a p) items))
  \/ (Exists (fun it => fits_float (Batch.qty it) = false) items
      /\ Batch.process_items n d c a p items = Raise OverflowError).
Proof.
  unfold Batch.process_items.
  induction items as [|it rest IH]; [left; split; [constructor | reflexivity]|].
  cbn [mapM].
  destruct (float_of_int (Batch.qty it)) as [q|e] eqn:Efl;
    unfold float_of_int in Efl;
    destruct (fits_float (Batch.qty it)) eqn:Ef; try discriminate;
    cbn [bind].
  - destruct IH as [[Hall ->] | [Hex ->]]; cbn [bind].
    + left. split; [now constructor | reflexivity].
    + right. split; [now apply Exists_cons_tl | reflexivity].
  - injection Efl as <-.
    right. split; [now apply Exists_cons_hd | reflexivity].
Qed.

Section BatchProperties.

Variable pdf_text : string -> result string.
Variable order_number_in : string -> string -> string.
Variable order_date_in : string -> string.
Variable extract_currency_and_amounts_advanced :
  string -> result (option string * Batch.Amounts).
Variable extract_items_from_text_advanced : string -> result (list Batch.Item).

Abbreviation process_body :=
  (Batch.process_body pdf_text order_number_in order_date_in
     extract_currency_and_amounts_advanced extract_items_from_text_advanced).
Abbreviation process :=
  (Batch.process_single_pdf_advanced pdf_text order_number_in order_date_in
     extract_currency_and_amounts_advanced extract_items_from_text_advanced).
Abbreviation file_log :=
  (Batch.file_log pdf_text order_number_in order_date_in
     extract_currency_and_amounts_advanced extract_items_from_text_advanced).
Abbreviation batch_loop :=
  (Batch.batch_loop pdf_text order_number_in order_date_in
     extract_currency_and_amounts_advanced extract_items_from_text_advanced).
Abbreviation convert_all_pdfs_to_csv :=
  (Batch.convert_all_pdfs_to_csv pdf_text order_number_in order_date_in
     extract_currency_and_amounts_advanced extract_items_from_text_advanced).

(** The loop handles the files one after the other; what it adds for a
    file depends on that file only. *)
Lemma batch_loop_spec (pdf_files : list string) :
  forall all_items log,
    batch_loop pdf_files all_items log
    = (all_items ++ flat_map (fun f => fst (process f)) pdf_files,
       log ++ flat_map file_log pdf_files).
Proof.
  induction pdf_files as [|f rest IH]; intros all_items log; simpl.
  - now rewrite !app_nil_r.
  - rewrite IH. unfold Batch.file_log. simpl.
    f_equal; rewrite <- app_assoc; reflexivity.
Qed.

(** The [except] clause turns every exception into an empty result. *)
Lemma process_failure (pdf_file : string) (shown : list Batch.event) (e : exn) :
  process_body pdf_file = (shown, Raise e) ->
  process pdf_file = ([], shown ++ [Batch.ProcessingError pdf_file e])
  /\ file_log pdf_file
     = [Batch.Processing pdf_file] ++ shown
       ++ [Batch.ProcessingError pdf_file e; Batch.NoItemsExtracted].
Proof.
  intro H. unfold Batch.file_log, Batch.process_single_pdf_advanced.
  rewrite H. simpl. split; [reflexivity|].
  now rewrite <- app_assoc.
Qed.

(** What the loop prints for a file that did not fail: the number of
    its rows with the currency and the percentage of the first one, or
    the same error line as for a failure when it has no row. *)
Lemma process_success (pdf_file : string) (shown : list Batch.event)
    (rows : list Batch.ProcessedItem) :
  process_body pdf_file = (shown, Ok rows) ->
  process pdf_file = (rows, shown)
  /\ file_log pdf_file
     = [Batch.Processing pdf_file] ++ shown
       ++ [match rows with
           | row :: _ =>
               Batch.Success (List.length rows) (Batch.Currency row)
                 (Batch.Overhead_Percentage row)
           | [] => Batch.NoItemsExtracted
           end].
Proof.
  intro H. unfold Batch.file_log, Batch.process_single_pdf_advanced.
  rewrite H. simpl. split; [reflexivity|]. now destruct rows.
Qed.

(** C9, amended: a batch over any files runs to its end.  Every file is
    processed in turn, whether or not an earlier one failed.  A file
    that fails is reported with its error and with the line for a file
    without items, and gives no row; a file that does not fail is
    reported with the number of its rows, its currency and its
    percentage (or with the line for a file without items when it has
    none), and its rows are kept, in the order of the files.  The run
    closes with the notice that nothing was extracted when there is no
    row, and otherwise with the master file, one summary line for each
    currency and the number of rows.  These closing lines are made from
    the rows only: the program prints no summary of the files that
    succeeded and of those that failed. *)
Theorem batch_isolation (first : string) (rest : list string) :
  let pdf_files := first :: rest in
  let all_rows := flat_map (fun f => fst (process f)) pdf_files in
  let log := [Batch.Banner; Batch.Found (List.length pdf_files)]
             ++ flat_map file_log pdf_files in
  convert_all_pdfs_to_csv true pdf_files = log ++ Batch.closing all_rows
  /\ (forall f, In f pdf_files ->
        In (Batch.Processing f) (convert_all_pdfs_to_csv true pdf_files))
  /\ (forall f shown e, process_body f = (shown, Raise e) ->
        fst (process f) = []
        /\ file_log f
           = [Batch.Processing f] ++ shown
             ++ [Batch.ProcessingError f e; Batch.NoItemsExtracted])
  /\ (forall f shown rows, process_body f = (shown, Ok rows) ->
        fst (process f) = rows
        /\ file_log f
           = [Batch.Processing f] ++ shown
             ++ [match rows with
                 | row :: _ =>
                     Batch.Success (List.length rows) (Batch.Currency row)
                       (Batch.Overhead_Percentage row)
                 | [] => Batch.NoItemsExtracted
                 end])
  /\ (all_rows = [] ->
      convert_all_pdfs_to_csv true pdf_files = log ++ [Batch.NoDataExtracted])
  /\ (all_rows <> [] ->
      convert_all_pdfs_to_csv true pdf_files
      = log
        ++ [Batch.MasterCsv all_rows]
        ++ map (fun cs =>
                  Batch.Summary (fst cs)
                    (List.length (Batch.stat_orders (snd cs)))
                    (Batch.stat_items (snd cs))
                    (py_round (Batch.stat_total (snd cs)) 2))
               (summary_table all_rows)
        ++ [Batch.ConversionComplete (List.length all_rows)]).
Proof.
  intros pdf_files all_rows log.
  assert (Hrun : convert_all_pdfs_to_csv true pdf_files
                 = log ++ Batch.closing all_rows).
  { unfold Batch.convert_all_pdfs_to_csv, pdf_files, log, all_rows.
    cbv beta iota. simpl negb. cbv iota.
    rewrite (batch_loop_spec (first :: rest) [] []).
    cbn [fst snd]. now rewrite <- !app_assoc. }
  split; [exact Hrun|]. split; [|split; [|split; [|split]]].
  - intros f Hin. rewrite Hrun. apply in_or_app. left.
    unfold log. apply in_or_app. right.
    apply in_flat_map. exists f. split; [exact Hin|].
    unfold Batch.file_log. now left.
  - intros f shown e H. destruct (process_failure f shown e H) as [Hp Hl].
    rewrite Hp. split; [reflexivity|exact Hl].
  - intros f shown rows H. destruct (process_success f shown rows H) as [Hp Hl].
    rewrite Hp. split; [reflexivity|exact Hl].
  - intro Hnone. rewrite Hrun, Hnone. reflexivity.
  - intro Hsome. rewrite Hrun. f_equal.
    destruct all_rows as [|row rows]; [congruence|]. reflexivity.
Qed.

End BatchProperties.

(** A batch of three files, the second of which cannot be opened: the
    third is processed all the same. *)
Example batch_with_damaged_file :
  Batch.convert_all_pdfs_to_csv sample_pdf_text sample_order_number
    sample_order_date sample_currency_and_amounts sample_items
    true ["first.pdf"; "damaged.pdf"; "third.pdf"]%string
  = let percentage := Batch.calculate_overhead_percentage_advanced one_part_amounts in
    let row :=
      Batch.process_item "30000006" "Jan 5, 2025" "AU" one_part_amounts
        percentage one_part_item in
    [ Batch.Banner; Batch.Found 3;
      Batch.Processing "first.pdf";
      Batch.Success 1 "AU" percentage;
      Batch.Processing "damaged.pdf";
      Batch.ProcessingError "damaged.pdf" (OtherException "No /Root object");
      Batch.NoItemsExtracted;
      Batch.Processing "third.pdf";
      Batch.Success 1 "AU" percentage;
      Batch.MasterCsv [row; row];
      Batch.Summary "AU" 1 2
        (py_round (0 + Batch.Adjusted_Total row + Batch.Adjusted_Total row) 2);
      Batch.ConversionComplete 2 ].
Proof. reflexivity. Qed.

(** C9, as stated, fails in its last part: no summary of successes and
    failures is produced.  The run over three files of which the second
    cannot be opened closes with the very lines of the run over the two
    other files alone: the master file, the summary of the currency AU
    and the number of rows.  The failure is shown in the lines of its
    file and nowhere else, and when every file fails the run closes with
    one line, which names and counts no file. *)
Lemma batch_prints_no_summary_of_failures :
  let convert :=
    Batch.convert_all_pdfs_to_csv sample_pdf_text sample_order_number
      sample_order_date sample_currency_and_amounts sample_items true in
  let row :=
    Batch.process_item "30000006" "Jan 5, 2025" "AU" one_part_amounts
      (Batch.calculate_overhead_percentage_advanced one_part_amounts)
      one_part_item in
  let closing :=
    [ Batch.MasterCsv [row; row];
      Batch.Summary "AU" 1 2
        (py_round (0 + Batch.Adjusted_Total row + Batch.Adjusted_Total row) 2);
      Batch.ConversionComplete 2 ] in
  (exists log,
     convert ["first.pdf"; "damaged.pdf"; "third.pdf"]%string = log ++ closing
     /\ In (Batch.ProcessingError "damaged.pdf"
               (OtherException "No /Root object")) log)
  /\ (exists log,
        convert ["first.pdf"; "third.pdf"]%string = log ++ closing
        /\ forall f e, ~ In (Batch.ProcessingError f e) log)
  /\ convert ["damaged.pdf"; "damaged.pdf"]%string
     = [ Batch.Banner; Batch.Found 2;
         Batch.Processing "damaged.pdf";
         Batch.ProcessingError "damaged.pdf" (OtherException "No /Root object");
         Batch.NoItemsExtracted;
         Batch.Processing "damaged.pdf";
         Batch.ProcessingError "damaged.pdf" (OtherException "No /Root object");
         Batch.NoItemsExtracted;
         Batch.NoDataExtracted ].
Proof.
  intros convert row closing. split; [|split].
  - exists [ Batch.Banner; Batch.Found 3;
             Batch.Processing "first.pdf";
             Batch.Success 1 "AU"
               (Batch.calculate_overhead_percentage_advanced one_part_amounts);
             Batch.Processing "damaged.pdf";
             Batch.ProcessingError "damaged.pdf" (OtherException "No /Root object");
             Batch.NoItemsExtracted;
             Batch.Processing "third.pdf";
             Batch.Success 1 "AU"
               (Batch.calculate_overhead_percentage_advanced one_part_amounts) ].
    split; [reflexivity|]. simpl. tauto.
  - exists [ Batch.Banner; Batch.Found 2;
             Batch.Processing "first.pdf";
             Batch.Success 1 "AU"
               (Batch.calculate_overhead_percentage_advanced one_part_amounts);
             Batch.Processing "third.pdf";
             Batch.Success 1 "AU"
               (Batch.calculate_overhead_percentage_advanced one_part_amounts) ].
    split; [reflexivity|]. intros f e H. simpl in H.
    repeat (destruct H as [H | H]; [discriminate|]). exact H.
  - reflexivity.
Qed.

Lemma batch_isolation_witness :
  let run :=
    Batch.convert_all_pdfs_to_csv sample_pdf_text sample_order_number
      sample_order_date sample_currency_and_amounts sample_items true
      ["first.pdf"; "damaged.pdf"; "third.pdf"]%string in
  In (Batch.Processing "third.pdf") run
  /\ In (Batch.ProcessingError "damaged.pdf" (OtherException "No /Root object")) run
  /\ exists log rows,
       rows <> []
       /\ run = log ++ [Batch.MasterCsv rows]
                 ++ map (fun cs =>
                           Batch.Summary (fst cs)
                             (List.length (Batch.stat_orders (snd cs)))
                             (Batch.stat_items (snd cs))
                             (py_round (Batch.stat_total (snd cs)) 2))
                        (summary_table rows)
                 ++ [Batch.ConversionComplete (List.length rows)].
Proof.
  intro run.
  destruct (batch_isolation sample_pdf_text sample_order_number sample_order_date
              sample_currency_and_amounts sample_items
              "first.pdf" ["damaged.pdf"; "third.pdf"]%string)
    as (_ & Hin & _ & _ & _ & Hsome).
  split; [apply Hin; simpl; tauto|].
  split; [simpl; tauto|].
  assert (Hne : flat_map
                  (fun f => fst (Batch.process_single_pdf_advanced sample_pdf_text
                                   sample_order_number sample_order_date
                                   sample_currency_and_amounts sample_items f))
                  ["first.pdf"; "damaged.pdf"; "third.pdf"]%string <> [])
    by discriminate.
  eexists. eexists. split; [exact Hne|]. exact (Hsome Hne).
Defined.

(** A file in which a quantity of 310 digits is read fails as a whole,
    with the [OverflowError] of the adjusted total, and gives no row. *)
Example batch_file_with_a_huge_quantity :
  Batch.process_single_pdf_advanced
    (fun _ => Ok "Order #30000020"%string)
    (fun _ _ => "30000020"%string)
    (fun _ => "Unknown"%string)
    (fun _ => Ok (Some "AU"%string, one_part_amounts))
    (fun _ => Ok [ one_part_item;
                   Batch.mkItem "New" "Red" "Plate 1 x 2" None (10 ^ 309)
                     0.5 0.5 "1g" ])
    "huge.pdf"
  = ([], [Batch.ProcessingError "huge.pdf" OverflowError]).
Proof. vm_compute. reflexivity. Qed.

(** * Further properties of the legacy path *)

(** ** When the run succeeds *)

Lemma nonzero_or_zero_quantity (items : list Item) :
  Forall nonzero_qty items \/ Exists (fun it => qty it = 0%Z) items.
Proof.
  induction items as [|it rest [IH|IH]].
  - left. constructor.
  - destruct (Z.eq_dec (qty it) 0) as [Hz|Hnz].
    + right. now constructor.
    + left. now constructor.
  - right. now apply Exists_cons_tl.
Qed.

Lemma mapM_raise_first {A B : Type} (f : A -> result B) (x : A) (l : list A) (e : exn) :
  f x = Raise e -> mapM f (x :: l) = Raise e.
Proof.
  intro H. simpl. now rewrite H.
Qed.

Lemma csv_item_row_zero_rate (o : OrderData) (rate : Q) (it : Item) :
  exchange_rate o == 0 -> csv_item_row o rate it = Raise ZeroDivisionError.
Proof.
  intro Hx. unfold csv_item_row.
  destruct (py_div_cases (total it * rate) (inject_Z (qty it))) as [-> | ->];
    simpl; [|reflexivity].
  assert (H1 : Qeq_bool (exchange_rate o) 1 = false)
    by (apply Qeq_bool_false; lra).
  rewrite H1. simpl. now rewrite py_div_zero.
Qed.

Lemma create_csv_output_zero_rate (o : OrderData) (rate : Q) (n : Z) (costs : Q) :
  exchange_rate o == 0 ->
  items_data o <> [] \/ is_AUD (original_currency o) = false ->
  create_csv_output o rate n costs = Raise ZeroDivisionError.
Proof.
  intros Hx H. unfold create_csv_output.
  destruct (items_data o) as [|it rest].
  - destruct H as [H|H]; [contradiction|]. simpl. rewrite H.
    unfold summary_foreign. now rewrite py_div_zero.
  - rewrite (mapM_raise_first _ it rest ZeroDivisionError); [reflexivity|].
    now apply csv_item_row_zero_rate.
Qed.

(** The computation of [calculate_costs_from_data], the files apart. *)
Lemma computation_succeeds_iff (o : OrderData) :
  (outcome (calculate_costs_from_data o) = Raise ZeroDivisionError
   \/ exists r, outcome (calculate_costs_from_data o) = Ok r)
  /\ ((exists r, outcome (calculate_costs_from_data o) = Ok r)
      <-> Forall nonzero_qty (items_data o)
          /\ (~ exchange_rate o == 0
              \/ (items_data o = [] /\ is_AUD (original_currency o) = true))).
Proof.
  unfold calculate_costs_from_data. rewrite additional_cost_rate_ok.
  destruct (nonzero_or_zero_quantity (items_data o)) as [Hq|Hz].
  - rewrite allocation_loop_ok by exact Hq.
    destruct (Qeq_bool (exchange_rate o) 0) eqn:Ex.
    + apply Qeq_bool_iff in Ex.
      destruct (items_data o) as [|it rest] eqn:Hitems.
      * destruct (is_AUD (original_currency o)) eqn:Hcur.
        -- assert (Hcsv : exists f, create_csv_output o (rate_of o) (total_items [])
                                     (total_additional_costs o) = Ok f).
           { unfold create_csv_output. rewrite Hitems. simpl. rewrite Hcur. eauto. }
           destruct Hcsv as [f Hf]. rewrite Hf. simpl.
           split; [right; eauto|]. split; [|eauto].
           intros _. split; [constructor|]. right. auto.
        -- rewrite create_csv_output_zero_rate; [|exact Ex|now right]. simpl.
           split; [now left|]. split.
           ++ intros [r Hr]. discriminate.
           ++ intros [_ [Hx|[_ Hc]]]; [contradiction|discriminate].
      * rewrite create_csv_output_zero_rate;
          [|exact Ex|left; rewrite Hitems; discriminate]. simpl.
        split; [now left|]. split.
        -- intros [r Hr]. discriminate.
        -- intros [_ [Hx|[Hc _]]]; [contradiction|discriminate].
    + apply Qeq_bool_false in Ex.
      destruct (create_csv_output_ok o (rate_of o) (total_items (items_data o))
                  (total_additional_costs o) Ex Hq) as (f & sm & Hf & _).
      rewrite Hf. simpl. split; [right; eauto|]. split; [|eauto].
      intros _. split; [exact Hq|now left].
  - rewrite allocation_loop_zero by exact Hz. simpl.
    split; [now left|]. split.
    + intros [r Hr]. discriminate.
    + intros [Hq _]. exfalso.
      apply Exists_exists in Hz. destruct Hz as (it & Hin & Hit).
      rewrite Forall_forall in Hq. exact (Hq it Hin Hit).
Qed.

(** ** The files of the run *)

Lemma mapM_unit_cases {A : Type} (f : A -> result unit) (l : list A) :
  (Forall (fun x => f x = Ok tt) l /\ exists ys, mapM f l = Ok ys)
  \/ (exists e x, In x l /\ f x = Raise e /\ mapM f l = Raise e).
Proof.
  induction l as [|x rest IH].
  - left. split; [constructor | now exists []].
  - destruct (f x) as [[]|e] eqn:Ex.
    + destruct IH as [[H [ys E]] | (e & y & Hin & Hy & E)].
      * left. split; [now constructor|]. simpl. rewrite Ex, E. simpl. eauto.
      * right. exists e, y. split; [now right|]. split; [exact Hy|].
        simpl. rewrite Ex, E. reflexivity.
    + right. exists e, x. split; [now left|]. split; [exact Ex|].
      simpl. now rewrite Ex.
Qed.

Lemma not_all_written {A : Type} (f : A -> result unit) (l : list A) (e : exn)
    (x : A) :
  In x l -> f x = Raise e -> ~ Forall (fun x => f x = Ok tt) l.
Proof.
  intros Hin Hx H. rewrite Forall_forall in H. specialize (H x Hin).
  congruence.
Qed.

Lemma mapM_raises {A B : Type} (f : A -> result B) (l : list A) (e : exn) :
  mapM f l = Raise e -> exists x, In x l /\ f x = Raise e.
Proof.
  induction l as [|x rest IH]; simpl; [discriminate|].
  destruct (f x) as [y|e'] eqn:Ex; simpl.
  - destruct (mapM f rest) as [ys|e''] eqn:Er; simpl; [discriminate|].
    intro H. injection H as <-. destruct (IH eq_refl) as (z & Hin & Hz).
    exists z. auto.
  - intro H. injection H as <-. exists x. auto.
Qed.

Lemma csv_item_row_raises (o : OrderData) (rate : Q) (it : Item) (e : exn) :
  csv_item_row o rate it = Raise e -> e = ZeroDivisionError.
Proof.
  unfold csv_item_row.
  destruct (py_div_cases (total it * rate) (inject_Z (qty it))) as [-> | ->];
    simpl; [|congruence].
  destruct (negb (Qeq_bool (exchange_rate o) 1)); simpl.
  - destruct (py_div_cases (unit_price it) (exchange_rate o)) as [-> | ->];
      simpl; [|congruence].
    destruct (is_AUD (original_currency o)); discriminate.
  - destruct (is_AUD (original_currency o)); discriminate.
Qed.

Lemma summary_foreign_cases (o : OrderData) (rate : Q) (n : Z) (costs : Q) :
  summary_foreign o rate n costs = Raise ZeroDivisionError
  \/ exists summary,
       summary_foreign o rate n costs = Ok summary
       /\ summary = summary_head o ++ skipn 3 summary.
Proof.
  unfold summary_foreign, py_div.
  destruct (Qeq_bool (exchange_rate o) 0); simpl; [now left|].
  right. eexists. split; reflexivity.
Qed.

Lemma create_csv_output_raises (o : OrderData) (rate : Q) (n : Z) (costs : Q)
    (e : exn) :
  create_csv_output o rate n costs = Raise e -> e = ZeroDivisionError.
Proof.
  unfold create_csv_output.
  destruct (mapM (csv_item_row o rate) (items_data o)) as [csv_data|e'] eqn:Em;
    simpl.
  - destruct (is_AUD (original_currency o)); [discriminate|].
    destruct (summary_foreign_cases o rate n costs) as [-> | (sm & -> & _)];
      simpl; congruence.
  - intro H. injection H as <-.
    destruct (mapM_raises _ _ _ Em) as (it & _ & Hit).
    exact (csv_item_row_raises _ _ _ _ Hit).
Qed.

Section OnDiskProperties.

Variable make_directory : result unit.
Variable open_file : string -> result unit.
Variable write_header : list string -> result unit.
Variable write_row : csv_row -> result unit.
Variable close_file : result unit.
Variable timestamp : string.

Abbreviation csv_on_disk :=
  (OnDisk.create_csv_output make_directory open_file write_header write_row
     close_file timestamp).
Abbreviation run_on_disk :=
  (OnDisk.calculate_costs_from_data make_directory open_file write_header
     write_row close_file timestamp).
Abbreviation files_written :=
  (OnDisk.files_written make_directory open_file write_header write_row
     close_file timestamp).
Abbreviation raised_by_a_file :=
  (OnDisk.raised_by_a_file make_directory open_file write_header write_row
     close_file timestamp).

(** The rows written one after the other. *)
Lemma rows_written (rows more : list csv_row) :
  match mapM write_row rows with
  | Ok _ =>
      Forall (fun row => write_row row = Ok tt) rows
  | Raise e =>
      (exists row, write_row row = Raise e)
      /\ ~ Forall (fun row => write_row row = Ok tt) (rows ++ more)
  end.
Proof.
  destruct (mapM_unit_cases write_row rows)
    as [[H [ys ->]] | (e & x & Hin & Hx & ->)]; [exact H|].
  split; [now exists x|].
  apply (not_all_written write_row _ e x); [|exact Hx].
  apply in_or_app. now left.
Qed.

(** [create_csv_output] with its files gives the file that the
    computation gives when the file system takes it, and an exception of
    the computation or of the file system otherwise. *)
Lemma csv_on_disk_cases (o : OrderData) (rate : Q) (n : Z) (costs : Q) :
  (forall f,
     csv_on_disk o rate n costs = Ok f
     <-> create_csv_output o rate n costs = Ok f /\ files_written o f)
  /\ (forall e,
        csv_on_disk o rate n costs = Raise e ->
        create_csv_output o rate n costs = Raise e \/ raised_by_a_file o e).
Proof.
  unfold OnDisk.create_csv_output, create_csv_output, OnDisk.with_open,
    OnDisk.files_written, OnDisk.raised_by_a_file.
  destruct make_directory as [[]|e0]; cbn [bind].
  2:{ split.
      - intro f. split; [discriminate|]. intros (_ & H & _). discriminate.
      - intros e H. injection H as <-. right. now left. }
  destruct (mapM (csv_item_row o rate) (items_data o)) as [csv_data|e1];
    cbn [bind].
  2:{ split.
      - intro f. split; [discriminate|]. intros (H & _). discriminate.
      - intros e H. now left. }
  destruct (open_file (OnDisk.filename timestamp o)) as [[]|e2].
  2:{ split.
      - intro f. split; [discriminate|]. intros (_ & _ & H & _). discriminate.
      - intros e H. injection H as <-. right. right. now left. }
  destruct close_file as [[]|e3].
  2:{ split.
      - intro f. split; [discriminate|].
        intros (_ & _ & _ & _ & _ & H). discriminate.
      - intros e H. injection H as <-. right. do 4 right. reflexivity. }
  destruct (is_AUD (original_currency o)).
  - destruct (write_header
                ["Name"; "Additional R"; "QTY"; "Original AUD $"; "New AUD $"]%string)
      as [[]|e4] eqn:Eh; cbn [bind].
    2:{ split.
        - intro f. split; [discriminate|].
          intros (Hf & _ & _ & H & _). injection Hf as <-.
          cbn [fieldnames] in H. congruence.
        - intros e H. injection H as <-. right. right. right. left. eauto. }
    pose proof (rows_written csv_data (summary_aud o rate n costs)) as H1.
    destruct (mapM write_row csv_data) as [w1|e5]; cbn [bind].
    2:{ destruct H1 as [Hrow Hnot]. split.
        - intro f. split; [discriminate|].
          intros (Hf & _ & _ & _ & H & _). injection Hf as <-.
          cbn [csv_rows] in H. contradiction.
        - intros e H. injection H as <-. right. do 3 right. now left. }
    pose proof (rows_written (summary_aud o rate n costs) []) as H2.
    destruct (mapM write_row (summary_aud o rate n costs)) as [w2|e6];
      cbn [bind].
    2:{ destruct H2 as [Hrow Hnot]. rewrite app_nil_r in Hnot. split.
        - intro f. split; [discriminate|].
          intros (Hf & _ & _ & _ & H & _). injection Hf as <-.
          cbn [csv_rows] in H. apply Forall_app in H. tauto.
        - intros e H. injection H as <-. right. do 3 right. now left. }
    split; [|discriminate].
    intro f. split.
    + intro H. injection H as <-. cbn [fieldnames csv_rows].
      repeat split; try reflexivity; [exact Eh|].
      apply Forall_app. now split.
    + tauto.
  - destruct (write_header
                ["Name"; "Additional R"; "QTY";
                 original_column (original_currency o);
                 "Original AUD $"; "New AUD $"]%string)
      as [[]|e4] eqn:Eh; cbn [bind].
    2:{ split.
        - intro f. split; [discriminate|].
          intros (Hf & _ & _ & H & _).
          destruct (summary_foreign o rate n costs) as [sm|]; [|discriminate].
          cbn [bind] in Hf. injection Hf as <-.
          cbn [fieldnames] in H. congruence.
        - intros e H. injection H as <-. right. right. right. left. eauto. }
    destruct (summary_foreign_cases o rate n costs) as [Es | (sm & Es & Hsm)];
      rewrite Es.
    + pose proof (rows_written csv_data []) as H1.
      destruct (mapM write_row csv_data) as [w1|e5]; cbn [bind].
      2:{ destruct H1 as [Hrow _]. split.
          - intro f. split; [discriminate|]. intros (H & _). discriminate.
          - intros e H. injection H as <-. right. do 3 right. now left. }
      pose proof (rows_written (summary_head o) []) as H2.
      destruct (mapM write_row (summary_head o)) as [w2|e6]; cbn [bind].
      2:{ destruct H2 as [Hrow _]. split.
          - intro f. split; [discriminate|]. intros (H & _). discriminate.
          - intros e H. injection H as <-. right. do 3 right. now left. }
      split.
      * intro f. split; [discriminate|]. intros (H & _). discriminate.
      * intros e H. now left.
    + cbn [bind].
      pose proof (rows_written csv_data sm) as H1.
      destruct (mapM write_row csv_data) as [w1|e5]; cbn [bind].
      2:{ destruct H1 as [Hrow Hnot]. split.
          - intro f. split; [discriminate|].
            intros (Hf & _ & _ & _ & H & _). injection Hf as <-.
            cbn [csv_rows] in H. contradiction.
          - intros e H. injection H as <-. right. do 3 right. now left. }
      pose proof (rows_written (summary_head o) (skipn 3 sm)) as H2.
      destruct (mapM write_row (summary_head o)) as [w2|e6]; cbn [bind].
      2:{ destruct H2 as [Hrow Hnot]. rewrite <- Hsm in Hnot. split.
          - intro f. split; [discriminate|].
            intros (Hf & _ & _ & _ & H & _). injection Hf as <-.
            cbn [csv_rows] in H. apply Forall_app in H. tauto.
          - intros e H. injection H as <-. right. do 3 right. now left. }
      pose proof (rows_written (skipn 3 sm) []) as H3.
      destruct (mapM write_row (skipn 3 sm)) as [w3|e7]; cbn [bind].
      2:{ destruct H3 as [Hrow Hnot]. rewrite app_nil_r in Hnot. split.
          - intro f. split; [discriminate|].
            intros (Hf & _ & _ & _ & H & _). injection Hf as <-.
            cbn [csv_rows] in H. apply Forall_app in H. destruct H as [_ H].
            rewrite Hsm in H. apply Forall_app in H. tauto.
          - intros e H. injection H as <-. right. do 3 right. now left. }
      split; [|discriminate].
      intro f. split.
      * intro H. injection H as <-. cbn [fieldnames csv_rows].
        repeat split; try reflexivity; [exact Eh|].
        apply Forall_app. split; [exact H1|].
        rewrite Hsm. apply Forall_app. now split.
      * tauto.
Qed.

(** The run with its files, from the computation. *)
Lemma run_on_disk_cases (o : OrderData) :
  (forall r,
     outcome (run_on_disk o) = Ok r
     <-> outcome (calculate_costs_from_data o) = Ok r
         /\ files_written o (csv_file r))
  /\ (forall e,
        outcome (run_on_disk o) = Raise e ->
        outcome (calculate_costs_from_data o) = Raise e
        \/ raised_by_a_file o e)
  /\ (Exists (fun it => qty it = 0%Z) (items_data o) ->
      outcome (run_on_disk o) = Raise ZeroDivisionError).
Proof.
  unfold OnDisk.calculate_costs_from_data, calculate_costs_from_data.
  rewrite additional_cost_rate_ok.
  destruct (nonzero_or_zero_quantity (items_data o)) as [Hq|Hz].
  - rewrite allocation_loop_ok by exact Hq.
    destruct (csv_on_disk_cases o (rate_of o) (total_items (items_data o))
                (total_additional_costs o)) as [Hok Hraise].
    destruct (csv_on_disk o (rate_of o) (total_items (items_data o))
                (total_additional_costs o)) as [f|e] eqn:Ed.
    + destruct (proj1 (Hok f) eq_refl) as [Hp Hw]. rewrite Hp.
      cbn [outcome]. split; [|split].
      * intro r. split.
        -- intro H. injection H as <-. split; [reflexivity | exact Hw].
        -- intros [H _]. exact H.
      * discriminate.
      * intro Hz. exfalso.
        apply Exists_exists in Hz. destruct Hz as (it & Hin & Hit).
        rewrite Forall_forall in Hq. exact (Hq it Hin Hit).
    + cbn [outcome]. split; [|split].
      * intro r. split; [discriminate|]. intros [Hp Hw].
        destruct (create_csv_output o (rate_of o) (total_items (items_data o))
                    (total_additional_costs o)) as [f|e'] eqn:Ep;
          [|discriminate].
        cbn [outcome] in Hp. injection Hp as <-. cbn [csv_file] in Hw.
        assert (Hd : @Raise CsvFile e = Ok f)
          by (apply (proj2 (Hok f)); split; [reflexivity | exact Hw]).
        discriminate.
      * intros e' H. injection H as <-.
        destruct (Hraise e eq_refl) as [Hp | Hf]; [|now right].
        left. now rewrite Hp.
      * intro Hz. exfalso.
        apply Exists_exists in Hz. destruct Hz as (it & Hin & Hit).
        rewrite Forall_forall in Hq. exact (Hq it Hin Hit).
  - rewrite allocation_loop_zero by exact Hz. cbn [outcome].
    split; [|split].
    + intro r. split; [discriminate|]. intros [H _]. discriminate.
    + intros e H. now left.
    + reflexivity.
Qed.

(** The run of [calculate_costs_from_data] on an order whose quantities
    [float] holds.  It gives the report of the computation when the
    computation succeeds and the file system takes the file: the
    directory is there or is made, the file is opened under the name
    that carries the order number and the currency, the header and
    every row are written and the file is closed.  The computation
    succeeds exactly when no quantity is 0 and the exchange rate is not
    0 (a rate of 0 passes only on an AUD order without items, where
    nothing is divided by it).  An exception of the run is
    [ZeroDivisionError] or one that the file system raised, and a
    quantity of 0 raises [ZeroDivisionError] whatever the file system
    does. *)
Theorem run_succeeds_iff (o : OrderData) :
  Forall (fun it => fits_float (qty it) = true) (items_data o) ->
  (forall r,
     outcome (run_on_disk o) = Ok r
     <-> outcome (calculate_costs_from_data o) = Ok r
         /\ make_directory = Ok tt
         /\ open_file (OnDisk.filename timestamp o) = Ok tt
         /\ write_header (fieldnames (csv_file r)) = Ok tt
         /\ Forall (fun row => write_row row = Ok tt) (csv_rows (csv_file r))
         /\ close_file = Ok tt)
  /\ ((exists r, outcome (calculate_costs_from_data o) = Ok r)
      <-> Forall nonzero_qty (items_data o)
          /\ (~ exchange_rate o == 0
              \/ (items_data o = [] /\ is_AUD (original_currency o) = true)))
  /\ (forall e,
        outcome (run_on_disk o) = Raise e ->
        e = ZeroDivisionError
        \/ make_directory = Raise e
        \/ open_file (OnDisk.filename timestamp o) = Raise e
        \/ (exists fieldnames, write_header fieldnames = Raise e)
        \/ (exists row, write_row row = Raise e)
        \/ close_file = Raise e)
  /\ (Exists (fun it => qty it = 0%Z) (items_data o) ->
      outcome (run_on_disk o) = Raise ZeroDivisionError).
Proof.
  intros _.
  destruct (run_on_disk_cases o) as (Hok & Hraise & Hzero).
  destruct (computation_succeeds_iff o) as [Hpure Hiff].
  split; [exact Hok|]. split; [exact Hiff|]. split; [|exact Hzero].
  intros e He. destruct (Hraise e He) as [Hp | Hf]; [|right; exact Hf].
  left. destruct Hpure as [H | [r H]]; congruence.
Qed.

End OnDiskProperties.

(** The order of two lines reaches its file in the sample file
    system. *)
Lemma run_succeeds_iff_witness :
  exists r,
    outcome (OnDisk.calculate_costs_from_data (Ok tt) sample_open
               sample_write_header sample_write_row (Ok tt) sample_timestamp
               two_line_order) = Ok r
    /\ outcome (calculate_costs_from_data two_line_order) = Ok r.
Proof.
  destruct (run_succeeds_iff (Ok tt) sample_open sample_write_header
              sample_write_row (Ok tt) sample_timestamp two_line_order)
    as (Hrun & Hiff & _).
  - repeat constructor.
  - destruct (proj2 Hiff) as [r Hr].
    + split; [repeat constructor; discriminate | left; discriminate].
    + exists r. split; [|exact Hr]. apply Hrun.
      split; [exact Hr|]. split; [reflexivity|].
      split; [vm_compute; reflexivity|]. split; [reflexivity|].
      split; [|reflexivity].
      apply Forall_forall. intros row _. reflexivity.
Defined.

(** Under the currency code A/B the name of the file asks for a
    directory that is not there: the file cannot be opened, and the run
    ends after the report has been printed. *)
Example run_with_a_slash_in_the_currency :
  OnDisk.filename sample_timestamp slash_order
  = "invoices/order_30000013_A/B_to_AUD_analysis_20240301_101500.csv"%string
  /\ (exists r, outcome (calculate_costs_from_data slash_order) = Ok r)
  /\ outcome (OnDisk.calculate_costs_from_data (Ok tt) sample_open
                sample_write_header sample_write_row (Ok tt) sample_timestamp
                slash_order)
     = Raise FileNotFoundError.
Proof.
  split; [reflexivity|]. split; [|vm_compute; reflexivity].
  eexists. vm_compute. reflexivity.
Qed.

(** ** What is distributed *)

Lemma Qabs_scale (a b : Q) : Qabs (a - a * b) == Qabs a * Qabs (1 - b).
Proof.
  rewrite <- Qabs_Qmult. apply Qabs_wd. ring.
Qed.

(** The distributed total is the total of the additional costs times the
    part of the subtotal that the listed items carry, and the difference
    that is printed is the rest; when the subtotal is not positive nothing
    is distributed and the difference is the whole amount. *)
Theorem distributed_total_formula (o : OrderData) :
  valid_order o = true ->
  exists r,
    outcome (calculate_costs_from_data o) = Ok r
    /\ (0 < subtotal o ->
        report_distributed r
        == total_additional_costs o * (sum_line_totals (items_data o) / subtotal o)
        /\ Qabs (report_costs r - report_distributed r)
           == Qabs (total_additional_costs o)
              * Qabs (1 - sum_line_totals (items_data o) / subtotal o))
    /\ (subtotal o <= 0 ->
        report_distributed r == 0
        /\ Qabs (report_costs r - report_distributed r)
           == Qabs (total_additional_costs o)).
Proof.
  intro Hv.
  destruct (calculate_costs_from_data_ok o Hv)
    as (r & Hrun & Hcosts & _ & _ & Hdist & _).
  exists r. split; [exact Hrun|]. rewrite Hcosts, Hdist. split.
  - intro Hpos.
    assert (Hr : rate_of o = total_additional_costs o / subtotal o).
    { unfold rate_of. apply Qlt_bool_iff in Hpos. now rewrite Hpos. }
    assert (Hd : fold_left (fun acc it => acc + total it * rate_of o)
                   (items_data o) 0
                 == total_additional_costs o
                    * (sum_line_totals (items_data o) / subtotal o)).
    { rewrite distributed_scaled, Hr. field. lra. }
    split; [exact Hd|]. rewrite Hd. apply Qabs_scale.
  - intro Hle.
    assert (Hr : rate_of o = 0).
    { unfold rate_of. apply Qlt_bool_false in Hle. now rewrite Hle. }
    assert (Hd : fold_left (fun acc it => acc + total it * rate_of o)
                   (items_data o) 0 == 0).
    { rewrite distributed_scaled, Hr. ring. }
    split; [exact Hd|]. rewrite Hd. apply Qabs_wd. ring.
Qed.

Lemma distributed_total_formula_witness :
  valid_order order_29055780 = true
  /\ 0 < subtotal order_29055780
  /\ exists r,
       outcome (calculate_costs_from_data order_29055780) = Ok r
       /\ report_distributed r
          == total_additional_costs order_29055780
             * (sum_line_totals (items_data order_29055780)
                / subtotal order_29055780).
Proof.
  split; [reflexivity|]. split; [reflexivity|].
  destruct (distributed_total_formula order_29055780) as (r & Hrun & Hpos & _);
    [reflexivity|].
  exists r. split; [exact Hrun|]. apply Hpos. reflexivity.
Defined.

(** ** The true costs add up *)

Lemma true_cost_fold (rate : Q) (items : list Item) :
  Forall nonzero_qty items ->
  forall acc,
    fold_left (fun acc a => acc + inject_Z (qty (alloc_item a)) * true_unit_cost a)
              (map (allocation rate) items) acc
    == acc
       + fold_left (fun acc it => acc + inject_Z (qty it) * unit_price it) items 0
       + fold_left (fun acc it => acc + total it * rate) items 0.
Proof.
  induction 1 as [|it rest Hit _ IH]; intro acc; simpl.
  - ring.
  - rewrite IH.
    rewrite (fold_allocated_scaled rate rest (0 + total it * rate) 0).
    rewrite (fold_allocated_scaled rate rest 0 0).
    assert (Hg : forall b,
               fold_left (fun acc it => acc + inject_Z (qty it) * unit_price it) rest b
               == b + fold_left (fun acc it => acc + inject_Z (qty it) * unit_price it)
                                rest 0).
    { clear. induction rest as [|x rest IH]; intro b; simpl; [ring|].
      rewrite (IH (b + _)), (IH (0 + _)). ring. }
    rewrite (Hg (0 + inject_Z (qty it) * unit_price it)).
    field. rewrite inject_Z_zero. exact Hit.
Qed.

Lemma line_totals_fold (items : list Item) :
  Forall (fun it => total it == inject_Z (qty it) * unit_price it) items ->
  forall a b, a == b ->
    fold_left (fun acc it => acc + total it) items a
    == fold_left (fun acc it => acc + inject_Z (qty it) * unit_price it) items b.
Proof.
  induction 1 as [|it rest Hit _ IH]; intros a b Hab; simpl; [exact Hab|].
  apply IH. now rewrite Hab, Hit.
Qed.

Lemma line_totals_are_goods (items : list Item) :
  Forall (fun it => total it == inject_Z (qty it) * unit_price it) items ->
  sum_line_totals items == goods_total items.
Proof.
  intro H. unfold sum_line_totals, goods_total.
  now apply line_totals_fold.
Qed.

(** On an order with positive quantities and exchange rate the
    quantities at their true unit costs add up to the goods at their
    unit prices plus what was distributed.  When, moreover, each line
    total is quantity times unit price, the line totals add up to the
    subtotal and the subtotal is positive, that is the subtotal plus the
    additional costs. *)
Theorem true_costs_add_up (o : OrderData) :
  valid_order o = true ->
  exists r,
    outcome (calculate_costs_from_data o) = Ok r
    /\ true_cost_total (report_rows r)
       == goods_total (items_data o) + report_distributed r
    /\ (0 < subtotal o ->
        Forall (fun it => total it == inject_Z (qty it) * unit_price it)
               (items_data o) ->
        sum_line_totals (items_data o) == subtotal o ->
        true_cost_total (report_rows r)
        == subtotal o + total_additional_costs o).
Proof.
  intros Hv.
  destruct (calculate_costs_from_data_ok o Hv)
    as (r & Hrun & _ & _ & Hrows & Hdist & _).
  exists r. split; [exact Hrun|].
  pose proof (valid_order_nonzero o Hv) as Hq.
  assert (H1 : true_cost_total (report_rows r)
               == goods_total (items_data o) + report_distributed r).
  { unfold true_cost_total. rewrite Hrows, Hdist.
    rewrite (true_cost_fold (rate_of o) (items_data o) Hq 0).
    unfold goods_total. ring. }
  split; [exact H1|]. intros Hpos Hlines Hsum. rewrite H1, Hdist.
  rewrite <- (line_totals_are_goods _ Hlines), Hsum.
  rewrite distributed_scaled, Hsum.
  assert (Hr : rate_of o = total_additional_costs o / subtotal o).
  { unfold rate_of. apply Qlt_bool_iff in Hpos. now rewrite Hpos. }
  rewrite Hr. field. lra.
Qed.

(** The invoice 29154233, whose nineteen lines do not come to the
    subtotal, and an order of two lines that do. *)
Lemma true_costs_add_up_witness :
  (valid_order order_29154233 = true
   /\ exists r,
        outcome (calculate_costs_from_data order_29154233) = Ok r
        /\ true_cost_total (report_rows r)
           == goods_total (items_data order_29154233) + report_distributed r)
  /\ (valid_order two_line_order = true
      /\ 0 < subtotal two_line_order
      /\ Forall (fun it => total it == inject_Z (qty it) * unit_price it)
                (items_data two_line_order)
      /\ sum_line_totals (items_data two_line_order) == subtotal two_line_order
      /\ exists r,
           outcome (calculate_costs_from_data two_line_order) = Ok r
           /\ true_cost_total (report_rows r)
              == subtotal two_line_order + total_additional_costs two_line_order).
Proof.
  split.
  - split; [reflexivity|].
    destruct (true_costs_add_up order_29154233) as (r & Hrun & H1 & _);
      [reflexivity|].
    exists r. split; assumption.
  - assert (Hl : Forall (fun it => total it == inject_Z (qty it) * unit_price it)
                        (items_data two_line_order))
      by (repeat constructor).
    split; [reflexivity|]. split; [reflexivity|]. split; [exact Hl|].
    split; [reflexivity|].
    destruct (true_costs_add_up two_line_order) as (r & Hrun & _ & H2);
      [reflexivity|].
    exists r. split; [exact Hrun|]. apply H2; [reflexivity | exact Hl | reflexivity].
Defined.

(** ** The exchange-rate prompt *)

Lemma read_exchange_rate_skips (skipped : list entry) (r : Q) (rest : list entry) :
  Forall rejected skipped -> 0 < r ->
  read_exchange_rate (skipped ++ Number r :: rest) = Ok (r, rest).
Proof.
  intros Hs Hr. induction Hs as [|e skipped He _ IH]; simpl.
  - apply Qlt_bool_iff in Hr. now rewrite Hr.
  - destruct e as [|q]; [exact IH|].
    simpl in He. apply Qlt_bool_false in He. now rewrite He.
Qed.

(** The prompt of [apply_currency_conversion] takes the first number
    greater than zero that is typed: what comes before it is text or a
    number that is not positive, and what comes after it is left unread.
    Without such a number the prompt goes on until the input ends, and
    [EOFError] is all it can raise. *)
Theorem exchange_rate_prompt (entries : list entry) :
  (forall r rest,
     read_exchange_rate entries = Ok (r, rest)
     <-> exists skipped,
           entries = skipped ++ Number r :: rest
           /\ Forall rejected skipped /\ 0 < r)
  /\ (read_exchange_rate entries = Raise EOFError <-> Forall rejected entries)
  /\ (forall e, read_exchange_rate entries = Raise e -> e = EOFError).
Proof.
  split; [|split].
  - intros r rest. split.
    + revert r rest. induction entries as [|e entries IH]; intros r rest H;
        simpl in H; [discriminate|].
      destruct e as [|q].
      * destruct (IH r rest H) as (sk & -> & Hsk & Hr).
        exists (NotANumber :: sk). repeat split; [now constructor|exact Hr].
      * destruct (Qlt_bool 0 q) eqn:E.
        -- injection H as -> ->. exists []. repeat split; [constructor|].
           now apply Qlt_bool_iff.
        -- destruct (IH r rest H) as (sk & -> & Hsk & Hr).
           exists (Number q :: sk). repeat split; [|exact Hr].
           constructor; [|exact Hsk]. simpl. now apply Qlt_bool_false.
    + intros (sk & -> & Hsk & Hr). now apply read_exchange_rate_skips.
  - split.
    + induction entries as [|e entries IH]; intro H; [constructor|].
      simpl in H. destruct e as [|q].
      * constructor; [exact I|now apply IH].
      * destruct (Qlt_bool 0 q) eqn:E; [discriminate|].
        constructor; [now apply Qlt_bool_false|now apply IH].
    + induction 1 as [|e entries He _ IH]; simpl; [reflexivity|].
      destruct e as [|q]; [exact IH|].
      simpl in He. apply Qlt_bool_false in He. now rewrite He.
  - induction entries as [|e entries IH]; intros e0 H; simpl in H.
    + now injection H as <-.
    + destruct e as [|q]; [now apply IH|].
      destruct (Qlt_bool 0 q); [discriminate|now apply IH].
Qed.

(** ** What a conversion keeps *)

Lemma total_items_fold (f : Item -> Item) (items : list Item) :
  (forall it, qty (f it) = qty it) ->
  forall acc,
    fold_left (fun acc it => (acc + qty it)%Z) (map f items) acc
    = fold_left (fun acc it => (acc + qty it)%Z) items acc.
Proof.
  intro Hf. induction items as [|it rest IH]; intro acc; simpl; [reflexivity|].
  now rewrite Hf, IH.
Qed.





(** ** The source prices in the exported file *)

(** After a conversion at any positive rate, the file that
    [create_csv_output] writes for an order in a foreign currency shows,
    in the column of that currency, the unit prices the order had before
    the conversion, rounded to four decimals.  The Subtotal row carries
    in that column the converted subtotal divided by the rate, as it
    comes, without rounding: as a rational it is the subtotal the order
    had, which a float need not give back to the last digit. *)
Theorem export_recovers_source_prices (o : OrderData) (r : Q) :
  0 < r ->
  valid_order o = true ->
  is_AUD (original_currency o) = false ->
  exists rep summary,
    outcome (calculate_costs_from_data (convert_order r o)) = Ok rep
    /\ csv_rows (csv_file rep)
       = map (fun it => csv_row_of (convert_order r o) (report_rate rep)
                                   (convert_item r it))
             (items_data o)
         ++ summary
    /\ Forall (fun it =>
                 exists q,
                   In (original_column (original_currency o), Num q)
                      (csv_row_of (convert_order r o) (report_rate rep)
                                  (convert_item r it))
                   /\ q == py_round (unit_price it) 4)
         (items_data o)
    /\ In (row6 (original_currency o) (Str "Subtotal") Blank
                (Int (total_items (items_data o)))
                (Num (subtotal o * r / r)) (Num (subtotal o * r)) Blank)
          summary.
Proof.
  intros Hr Hv Hcur.
  destruct (calculate_costs_from_data_ok _ (valid_order_convert r o Hr Hv))
    as (rep & Hrun & _ & Hrate & _ & _ & _ & sm & Hrows & Hin).
  exists rep, sm. split; [exact Hrun|]. rewrite Hrate. split.
  { rewrite Hrows. simpl items_data. now rewrite map_map. }
  split.
  - apply Forall_forall. intros it _. unfold csv_row_of.
    simpl original_currency. rewrite Hcur. simpl exchange_rate.
    eexists. split; [simpl; tauto|].
    apply py_round_comp; [|reflexivity].
    destruct (negb (Qeq_bool r 1)) eqn:E; simpl.
    + field. lra.
    + apply negb_false_iff, Qeq_bool_iff in E. rewrite E. ring.
  - unfold subtotal_row in Hin. simpl in Hin. rewrite Hcur in Hin.
    unfold total_items in Hin.
    rewrite (total_items_fold (convert_item r)) in Hin by reflexivity.
    exact Hin.
Qed.

Lemma export_recovers_source_prices_witness :
  0 < 1.6
  /\ valid_order order_29079613 = true
  /\ is_AUD (original_currency order_29079613) = false
  /\ exists rep summary,
       outcome (calculate_costs_from_data (convert_order 1.6 order_29079613)) = Ok rep
       /\ csv_rows (csv_file rep)
          = map (fun it => csv_row_of (convert_order 1.6 order_29079613)
                                      (report_rate rep) (convert_item 1.6 it))
                (items_data order_29079613)
            ++ summary.
Proof.
  split; [reflexivity|]. split; [reflexivity|]. split; [reflexivity|].
  destruct (export_recovers_source_prices order_29079613 1.6)
    as (rep & sm & Hrun & Hrows & _); [reflexivity|reflexivity|reflexivity|].
  exists rep, sm. split; assumption.
Defined.

(** ** The rows of the exported file *)

Lemma mapM_inv {A B : Type} (f : A -> result B) (P : B -> Prop) (l : list A) :
  (forall x y, f x = Ok y -> P y) ->
  forall ys, mapM f l = Ok ys -> Forall P ys /\ List.length ys = List.length l.
Proof.
  intro Hf. induction l as [|x rest IH]; intros ys H; simpl in H.
  - injection H as <-. split; [constructor|reflexivity].
  - destruct (f x) as [y|e] eqn:Ey; simpl in H; [|discriminate].
    destruct (mapM f rest) as [ys'|e] eqn:Er; simpl in H; [|discriminate].
    injection H as <-. destruct (IH ys' eq_refl) as [HP Hl].
    split; [constructor; [exact (Hf x y Ey)|exact HP]|simpl; now rewrite Hl].
Qed.

Lemma original_column_is_not_AUD (cur : string) :
  is_AUD cur = false -> original_column cur <> "Original AUD $"%string.
Proof.
  unfold is_AUD, original_column. intros Hcur H. simpl in H.
  injection H as H.
  destruct cur as [|a [|b [|c [|d rest]]]]; simpl in H; try discriminate.
  - injection H as -> -> ->. discriminate.
  - injection H as _ _ _ _ H. destruct rest as [|e rest]; simpl in H.
    + discriminate.
    + injection H as _ H. destruct rest; discriminate.
Qed.

Lemma csv_item_row_columns (o : OrderData) (rate : Q) (it : Item) (row : csv_row) :
  csv_item_row o rate it = Ok row ->
  map fst row
  = if is_AUD (original_currency o)
    then ["Name"; "Additional R"; "QTY"; "Original AUD $"; "New AUD $"]%string
    else ["Name"; "Additional R"; "QTY"; original_column (original_currency o);
          "Original AUD $"; "New AUD $"]%string.
Proof.
  unfold csv_item_row.
  destruct (py_div (total it * rate) (inject_Z (qty it))); simpl; [|discriminate].
  destruct (if negb (Qeq_bool (exchange_rate o) 1)
            then py_div (unit_price it) (exchange_rate o)
            else Ok (unit_price it)); simpl; [|discriminate].
  destruct (is_AUD (original_currency o)); intro H; injection H as <-; reflexivity.
Qed.

(** In a file that [create_csv_output] writes, the columns of the header
    are distinct, every row is the empty row or has exactly the columns of
    the header, in their order, and the rows are one for each item
    followed by six summary rows (seven with the exchange rate, for an
    order in a foreign currency) and one more for each of insurance, the
    two additional charges and the credit that is positive. *)
Theorem csv_rows_match_header (o : OrderData) (rate : Q) (n : Z) (costs : Q)
    (f : CsvFile) :
  create_csv_output o rate n costs = Ok f ->
  NoDup (fieldnames f)
  /\ Forall (fun row => row = [] \/ map fst row = fieldnames f) (csv_rows f)
  /\ List.length (csv_rows f)
     = (List.length (items_data o)
        + (if is_AUD (original_currency o) then 6 else 7)
        + optional_rows o)%nat.
Proof.
  unfold create_csv_output, optional_rows.
  destruct (mapM (csv_item_row o rate) (items_data o)) as [csv_data|e] eqn:Em;
    simpl; [|discriminate].
  destruct (mapM_inv (csv_item_row o rate)
              (fun row => map fst row
                          = if is_AUD (original_currency o)
                            then ["Name"; "Additional R"; "QTY"; "Original AUD $";
                                  "New AUD $"]%string
                            else ["Name"; "Additional R"; "QTY";
                                  original_column (original_currency o);
                                  "Original AUD $"; "New AUD $"]%string)
              (items_data o) (csv_item_row_columns o rate) csv_data Em)
    as [Hcols Hlen].
  destruct (is_AUD (original_currency o)) eqn:Hcur.
  - intro H. injection H as <-. simpl fieldnames. simpl csv_rows.
    split; [|split].
    + repeat (apply NoDup_cons; [simpl; intuition discriminate|]);
      apply NoDup_nil.
    + apply Forall_app. split.
      * eapply Forall_impl; [|exact Hcols]. intros row Hrow. now right.
      * unfold summary_aud, when.
        destruct (Qlt_bool 0 (insurance o)), (Qlt_bool 0 (additional_charges_1 o)),
          (Qlt_bool 0 (additional_charges_2 o)), (Qlt_bool 0 (credit o));
          simpl;
          repeat (apply Forall_cons;
                  [first [left; reflexivity | right; reflexivity]|]);
          apply Forall_nil.
    + rewrite length_app, Hlen. unfold summary_aud, when.
      destruct (Qlt_bool 0 (insurance o)), (Qlt_bool 0 (additional_charges_1 o)),
        (Qlt_bool 0 (additional_charges_2 o)), (Qlt_bool 0 (credit o));
        simpl; lia.
  - unfold summary_foreign, py_div.
    destruct (Qeq_bool (exchange_rate o) 0); simpl; [discriminate|].
    intro H. injection H as <-. simpl fieldnames. simpl csv_rows.
    pose proof (original_column_is_not_AUD _ Hcur) as Hne.
    split; [|split].
    + unfold original_column in *.
      repeat (apply NoDup_cons;
              [simpl in *; intuition (try discriminate; try congruence)|]);
      apply NoDup_nil.
    + apply Forall_app. split.
      * eapply Forall_impl; [|exact Hcols]. intros row Hrow. now right.
      * unfold when.
        destruct (Qlt_bool 0 (insurance o)), (Qlt_bool 0 (additional_charges_1 o)),
          (Qlt_bool 0 (additional_charges_2 o)), (Qlt_bool 0 (credit o));
          simpl;
          repeat (apply Forall_cons;
                  [first [left; reflexivity | right; reflexivity]|]);
          apply Forall_nil.
    + rewrite length_app, Hlen. unfold when.
      destruct (Qlt_bool 0 (insurance o)), (Qlt_bool 0 (additional_charges_1 o)),
        (Qlt_bool 0 (additional_charges_2 o)), (Qlt_bool 0 (credit o));
        simpl; lia.
Qed.

Lemma csv_rows_match_header_witness :
  exists f,
    create_csv_output order_29079613_aud (rate_of order_29079613_aud) 3
      (total_additional_costs order_29079613_aud) = Ok f
    /\ NoDup (fieldnames f)
    /\ Forall (fun row => row = [] \/ map fst row = fieldnames f) (csv_rows f)
    /\ List.length (csv_rows f) = 8%nat.
Proof.
  destruct (create_csv_output order_29079613_aud (rate_of order_29079613_aud) 3
              (total_additional_costs order_29079613_aud)) as [f|e] eqn:E;
    [|vm_compute in E; discriminate].
  exists f. split; [reflexivity|].
  destruct (csv_rows_match_header _ _ _ _ f E) as (H1 & H2 & H3).
  split; [exact H1|]. split; [exact H2|]. rewrite H3. reflexivity.
Defined.

(** ** The order number in a file name *)

Lemma digit_at_spec (s d rest : string) :
  digit_at s = Some (d, rest) ->
  s = (d ++ rest)%string
  /\ forall rest', digit_at (d ++ rest') = Some (d, rest').
Proof.
  unfold digit_at.
  destruct s as [|c0 r0]; [discriminate|].
  destruct (byte_value c0 <? 128)%N eqn:E1.
  { destruct (is_digit (byte_value c0)) eqn:Ed; [|discriminate].
    intro H. injection H as <- <-. split; [reflexivity|].
    intro rest'. simpl. now rewrite E1, Ed. }
  destruct (byte_value c0 <? 192)%N eqn:E2; [discriminate|].
  destruct (byte_value c0 <? 224)%N eqn:E3.
  { destruct r0 as [|c1 r1]; [discriminate|].
    match goal with |- (if ?b then _ else _) = _ -> _ => destruct b eqn:Eb end;
      [|discriminate].
    intro H. injection H as <- <-. split; [reflexivity|].
    intro rest'. simpl. now rewrite E1, E2, E3, Eb. }
  destruct (byte_value c0 <? 240)%N eqn:E4.
  { destruct r0 as [|c1 [|c2 r2]]; try discriminate.
    match goal with |- (if ?b then _ else _) = _ -> _ => destruct b eqn:Eb end;
      [|discriminate].
    intro H. injection H as <- <-. split; [reflexivity|].
    intro rest'. simpl. now rewrite E1, E2, E3, E4, Eb. }
  destruct (byte_value c0 <? 248)%N eqn:E5; [|discriminate].
  destruct r0 as [|c1 [|c2 [|c3 r3]]]; try discriminate.
  match goal with |- (if ?b then _ else _) = _ -> _ => destruct b eqn:Eb end;
    [|discriminate].
  intro H. injection H as <- <-. split; [reflexivity|].
  intro rest'. simpl. now rewrite E1, E2, E3, E4, E5, Eb.
Qed.

Lemma append_assoc (a b c : string) : ((a ++ b) ++ c = a ++ b ++ c)%string.
Proof. induction a; simpl; congruence. Qed.

Lemma digits_prefix_spec (k : nat) (s d : string) :
  digits_prefix k s = Some d
  <-> exists post, s = (d ++ post)%string /\ digit_text k d = true.
Proof.
  revert s d. induction k as [|k IH]; intros s d; simpl.
  - split.
    + intro H. injection H as <-. exists s. split; reflexivity.
    + intros (post & _ & Hd). apply String.eqb_eq in Hd. now subst d.
  - split.
    + destruct (digit_at s) as [[c rest]|] eqn:Ec; [|discriminate].
      destruct (digits_prefix k rest) as [d'|] eqn:Ed; simpl; [|discriminate].
      intro H. injection H as <-.
      apply IH in Ed. destruct Ed as (post & -> & Hd).
      destruct (digit_at_spec _ _ _ Ec) as [Hs Hany].
      exists post. split; [now rewrite Hs, append_assoc|].
      now rewrite (Hany d').
    + intros (post & -> & Hd).
      destruct (digit_at d) as [[c rest]|] eqn:Ec; [|discriminate].
      destruct (digit_at_spec _ _ _ Ec) as [Hs Hany].
      rewrite Hs, append_assoc, (Hany (rest ++ post)%string).
      assert (E : digits_prefix k (rest ++ post) = Some rest)
        by (apply IH; exists post; split; [reflexivity | exact Hd]).
      now rewrite E.
Qed.

Lemma search_order_number_eq (s : string) :
  search_order_number s
  = match digits_prefix 8 s with
    | Some d => Some d
    | None =>
        match s with
        | EmptyString => None
        | String _ rest => search_order_number rest
        end
    end.
Proof.
  destruct s; reflexivity.
Qed.

Lemma search_order_number_none (pre : string) :
  forall s d post,
    search_order_number s = None ->
    s = (pre ++ d ++ post)%string ->
    digit_text 8 d = true -> False.
Proof.
  induction pre as [|c pre IH]; intros s d post H Hs Hd;
    rewrite search_order_number_eq in H;
    destruct (digits_prefix 8 s) as [d0|] eqn:E; try discriminate.
  - assert (E' : digits_prefix 8 s = Some d)
      by (apply digits_prefix_spec; exists post; split; assumption).
    congruence.
  - subst s. exact (IH _ d post H eq_refl Hd).
Qed.

(** [re.search(r'(\d{8})', pdf_path)] finds the leftmost place of the path
    at which eight decimal digits follow one another and returns those
    eight (of a longer run of digits, the first eight); the digits are
    those of Unicode, of ASCII or not.  It finds nothing exactly when the
    path has no eight decimal digits in a row, and then the order number
    is "unknown". *)
Theorem order_number_is_leftmost_eight_digits (s : string) :
  (forall d,
     search_order_number s = Some d
     <-> exists pre post,
           s = (pre ++ d ++ post)%string
           /\ digit_text 8 d = true
           /\ forall a b, pre = (a ++ b)%string -> b <> EmptyString ->
                digits_prefix 8 (b ++ d ++ post) = None)
  /\ (search_order_number s = None
      <-> forall pre d post,
            s = (pre ++ d ++ post)%string -> digit_text 8 d = true -> False)
  /\ (search_order_number s = None -> order_number_of s = "unknown"%string)
  /\ (forall d, search_order_number s = Some d -> order_number_of s = d).
Proof.
  split; [|split; [|split]].
  - intro d. split.
    + induction s as [|c rest IH]; rewrite search_order_number_eq;
        destruct (digits_prefix 8 _) as [d0|] eqn:E; try discriminate.
      * intro H. injection H as ->.
        apply digits_prefix_spec in E. destruct E as (post & Hs & Hd).
        exists EmptyString, post. repeat split; try assumption.
        intros a b Hab Hb. destruct a; destruct b; try discriminate.
        now contradiction Hb.
      * intro H. destruct (IH H) as (pre & post & -> & Hd & Hleft).
        exists (String c pre), post. repeat split; try assumption.
        intros a b Hab Hb. destruct a as [|c0 a]; simpl in Hab.
        -- subst b. exact E.
        -- injection Hab as _ Hab. exact (Hleft a b Hab Hb).
    + intros (pre & post & -> & Hd & Hleft).
      induction pre as [|c pre IH]; rewrite search_order_number_eq.
      * change (EmptyString ++ d ++ post)%string with (d ++ post)%string.
        assert (E : digits_prefix 8 (d ++ post) = Some d)
          by (apply digits_prefix_spec; exists post; split; [reflexivity|assumption]).
        now rewrite E.
      * rewrite (Hleft EmptyString (String c pre) eq_refl) by discriminate.
        change (String c pre ++ d ++ post)%string
          with (String c (pre ++ d ++ post))%string.
        cbv iota. apply IH. intros a b Hab Hb.
        apply (Hleft (String c a) b); [simpl; now rewrite Hab|exact Hb].
  - split.
    + intros H pre d post. now apply (search_order_number_none pre s d post).
    + induction s as [|c rest IH]; intro H; rewrite search_order_number_eq;
        destruct (digits_prefix 8 _) as [d0|] eqn:E; try reflexivity.
      * apply digits_prefix_spec in E. destruct E as (post & Hs & Hd).
        exfalso. exact (H EmptyString d0 post Hs Hd).
      * apply digits_prefix_spec in E. destruct E as (post & Hs & Hd).
        exfalso. exact (H EmptyString d0 post Hs Hd).
      * apply IH. intros pre d post Hs Hd.
        apply (H (String c pre) d post); [simpl; now rewrite Hs|exact Hd].
  - intro H. unfold order_number_of. now rewrite H.
  - intros d H. unfold order_number_of. now rewrite H.
Qed.

(** A date written as eight digits before the order number hides it: the
    file is then not one of the invoices that [read_actual_pdf_content]
    knows.  So do eight digits of another script, and digits of two
    scripts make a run together. *)
Example order_number_behind_a_date :
  order_number_of "29055780_order.pdf" = "29055780"%string
  /\ order_number_of "invoice-2025-01-05-29055780.pdf" = "29055780"%string
  /\ order_number_of "20250105_29055780.pdf" = "20250105"%string
  /\ read_actual_pdf_content "20250105_29055780.pdf" = None
  /\ order_number_of "290557801.pdf" = "29055780"%string
  /\ order_number_of "order-2905578.pdf" = "unknown"%string
  /\ (let a := arabic_indic_one in
      order_number_of (a ++ a ++ a ++ a ++ a ++ a ++ a ++ a ++ "29055780.pdf")
      = (a ++ a ++ a ++ a ++ a ++ a ++ a ++ a)%string
      /\ read_actual_pdf_content
           (a ++ a ++ a ++ a ++ a ++ a ++ a ++ a ++ "29055780.pdf") = None
      /\ order_number_of (a ++ a ++ a ++ "29055780.pdf")
         = (a ++ a ++ a ++ "29055")%string).
Proof. vm_compute. repeat split. Qed.

(** * Rounding *)

Lemma pow10_pos (n : nat) : 0 < pow10 n.
Proof.
  unfold pow10. replace 0 with (inject_Z 0) by reflexivity.
  rewrite <- Zlt_Qlt. apply Z.pow_pos_nonneg; lia.
Qed.

Lemma round_half_even_floor (x : Q) :
  round_half_even x = Qfloor x \/ round_half_even x = (Qfloor x + 1)%Z.
Proof.
  unfold round_half_even.
  destruct (Qcompare (x - inject_Z (Qfloor x)) (1 # 2)); auto.
  destruct (Z.even (Qfloor x)); auto.
Qed.

Lemma floor_bounds (x : Q) :
  inject_Z (Qfloor x) <= x /\ x < inject_Z (Qfloor x) + 1.
Proof.
  split; [apply Qfloor_le|].
  pose proof (Qlt_floor x) as H. rewrite inject_Z_plus in H. exact H.
Qed.

Lemma Qcompare_cases (d h : Q) :
  (Qcompare d h = Eq /\ d == h)
  \/ (Qcompare d h = Lt /\ d < h)
  \/ (Qcompare d h = Gt /\ h < d).
Proof.
  destruct (Qcompare d h) eqn:E.
  - left. split; [reflexivity|]. exact (proj2 (Qeq_alt d h) E).
  - right. left. split; [reflexivity|]. exact (proj2 (Qlt_alt d h) E).
  - right. right. split; [reflexivity|]. exact (proj2 (Qgt_alt d h) E).
Qed.

Lemma round_half_even_bound (x : Q) :
  Qabs (inject_Z (round_half_even x) - x) <= 1 # 2.
Proof.
  destruct (floor_bounds x) as [Hlo Hhi].
  apply Qabs_Qle_condition. unfold round_half_even.
  destruct (Qcompare_cases (x - inject_Z (Qfloor x)) (1 # 2))
    as [[-> E]|[[-> E]|[-> E]]].
  - destruct (Z.even (Qfloor x));
      [|rewrite inject_Z_plus; change (inject_Z 1) with 1]; split; lra.
  - split; lra.
  - rewrite inject_Z_plus. change (inject_Z 1) with 1. split; lra.
Qed.

Lemma round_half_even_mono (x y : Q) :
  x <= y -> (round_half_even x <= round_half_even y)%Z.
Proof.
  intro Hxy.
  pose proof (Qfloor_resp_le x y Hxy) as Hf.
  destruct (Z.eq_dec (Qfloor x) (Qfloor y)) as [Heq|Hne].
  - unfold round_half_even. rewrite <- Heq.
    destruct (Qcompare_cases (x - inject_Z (Qfloor x)) (1 # 2))
      as [[-> Ex]|[[-> Ex]|[-> Ex]]];
      destruct (Qcompare_cases (y - inject_Z (Qfloor x)) (1 # 2))
        as [[-> Ey]|[[-> Ey]|[-> Ey]]];
      try (exfalso; lra); destruct (Z.even (Qfloor x)); lia.
  - destruct (round_half_even_floor x) as [-> | ->];
      destruct (round_half_even_floor y) as [-> | ->]; lia.
Qed.

Lemma py_round_mono (x y : Q) (n : nat) :
  x <= y -> py_round x n <= py_round y n.
Proof.
  intro Hxy. unfold py_round. pose proof (pow10_pos n) as Hp.
  assert (Hs : x * pow10 n <= y * pow10 n) by nra.
  apply round_half_even_mono in Hs. rewrite Zle_Qle in Hs.
  apply Qle_shift_div_l; [exact Hp|].
  assert (E : inject_Z (round_half_even (x * pow10 n)) / pow10 n * pow10 n
              == inject_Z (round_half_even (x * pow10 n))) by (field; lra).
  now rewrite E.
Qed.

Lemma py_round_bound (x : Q) (n : nat) :
  Qabs (py_round x n - x) <= 1 / (2 * pow10 n).
Proof.
  pose proof (pow10_pos n) as Hp.
  pose proof (round_half_even_bound (x * pow10 n)) as Hb.
  apply Qabs_Qle_condition in Hb. destruct Hb as [Hlo Hhi].
  apply Qabs_Qle_condition. unfold py_round.
  set (k := inject_Z (round_half_even (x * pow10 n))) in *.
  assert (E : k / pow10 n - x == (k - x * pow10 n) / pow10 n) by (field; lra).
  rewrite E. split.
  - apply Qle_shift_div_l; [exact Hp|].
    assert (E2 : - (1 / (2 * pow10 n)) * pow10 n == - (1 # 2)) by (field; lra).
    now rewrite E2.
  - apply Qle_shift_div_r; [exact Hp|].
    assert (E2 : 1 / (2 * pow10 n) * pow10 n == 1 # 2) by (field; lra).
    now rewrite E2.
Qed.

Lemma py_round_4_bound (x : Q) : Qabs (py_round x 4 - x) <= 0.00005.
Proof.
  pose proof (py_round_bound x 4) as H.
  assert (E : 1 / (2 * pow10 4) == 0.00005) by reflexivity.
  now rewrite E in H.
Qed.

Lemma py_round_2_bound (x : Q) : Qabs (py_round x 2 - x) <= 0.005.
Proof.
  pose proof (py_round_bound x 2) as H.
  assert (E : 1 / (2 * pow10 2) == 0.005) by reflexivity.
  now rewrite E in H.
Qed.

(** What [create_csv_output] shows of an item is within half a unit of
    the fourth decimal of what was computed: the unit price and the true
    unit cost that stand in the row differ from the exact ones by 0.00005
    at most, and the percentage by 0.005. *)
Theorem exported_figures_are_close (o : OrderData) :
  valid_order o = true ->
  exists r summary,
    outcome (calculate_costs_from_data o) = Ok r
    /\ csv_rows (csv_file r)
       = map (csv_row_of o (report_rate r)) (items_data o) ++ summary
    /\ Forall (fun it =>
                 exists p u t,
                   In ("Additional R"%string, Percent p)
                      (csv_row_of o (report_rate r) it)
                   /\ In ("Original AUD $"%string, Num u)
                         (csv_row_of o (report_rate r) it)
                   /\ In ("New AUD $"%string, Num t)
                         (csv_row_of o (report_rate r) it)
                   /\ Qabs (p - report_rate r * 100) <= 0.005
                   /\ Qabs (u - unit_price it) <= 0.00005
                   /\ Qabs (t - (unit_price it
                                 + total it * report_rate r / inject_Z (qty it)))
                      <= 0.00005)
         (items_data o).
Proof.
  intro Hv.
  destruct (calculate_costs_from_data_ok o Hv)
    as (r & Hrun & _ & Hrate & _ & _ & _ & sm & Hrows & _).
  exists r, sm. split; [exact Hrun|]. rewrite Hrate.
  split; [exact Hrows|]. apply Forall_forall. intros it _.
  unfold csv_row_of.
  destruct (is_AUD (original_currency o)); simpl;
    (eexists; eexists; eexists;
     split; [tauto|]; split; [tauto|]; split; [tauto|];
     split; [apply py_round_2_bound|];
     split; apply py_round_4_bound).
Qed.

Lemma exported_figures_are_close_witness :
  valid_order order_29079613_aud = true
  /\ exists r summary,
       outcome (calculate_costs_from_data order_29079613_aud) = Ok r
       /\ csv_rows (csv_file r)
          = map (csv_row_of order_29079613_aud (report_rate r))
                (items_data order_29079613_aud) ++ summary.
Proof.
  split; [reflexivity|].
  destruct (exported_figures_are_close order_29079613_aud)
    as (r & sm & Hrun & Hrows & _); [reflexivity|].
  exists r, sm. split; assumption.
Defined.

(** * Further properties of the batch path *)

(** ** The percentage *)

(** For the same amounts and a subtotal that is not negative, the
    percentage of the batch path is the rate of the legacy path times 100,
    rounded to two decimals; it differs from it by 0.005 at most. *)
Theorem batch_percentage_is_the_rounded_rate (o : OrderData) (a : Batch.Amounts) :
  0 <= subtotal o ->
  Batch.order_total a == subtotal o ->
  Batch.shipping a == shipping o ->
  Batch.insurance a == insurance o ->
  Batch.additional_1 a == additional_charges_1 o ->
  Batch.additional_2 a == additional_charges_2 o ->
  Batch.credit a == credit o ->
  Batch.calculate_overhead_percentage_advanced a == py_round (rate_of o * 100) 2
  /\ Qabs (Batch.calculate_overhead_percentage_advanced a - rate_of o * 100)
     <= 0.005.
Proof.
  intros Hs Ht Hsh Hi H1 H2 Hc.
  assert (E : Batch.calculate_overhead_percentage_advanced a
              == py_round (rate_of o * 100) 2).
  { unfold Batch.calculate_overhead_percentage_advanced, rate_of.
    destruct (Qeq_bool (Batch.order_total a) 0) eqn:E0.
    - apply Qeq_bool_iff in E0.
      assert (Hz : Qlt_bool 0 (subtotal o) = false)
        by (apply Qlt_bool_false; lra).
      rewrite Hz. symmetry. apply py_round_zero. ring.
    - apply Qeq_bool_false in E0.
      assert (Hp : Qlt_bool 0 (subtotal o) = true)
        by (apply Qlt_bool_iff; lra).
      rewrite Hp. apply py_round_comp; [|reflexivity].
      unfold Batch.overhead_percentage_exact, Batch.overhead,
        total_additional_costs.
      rewrite Ht, Hsh, Hi, H1, H2, Hc. field. lra. }
  split; [exact E|]. rewrite E. apply py_round_2_bound.
Qed.

Lemma batch_percentage_is_the_rounded_rate_witness :
  Batch.calculate_overhead_percentage_advanced one_part_amounts
  == py_round (rate_of one_part_order * 100) 2
  /\ Qabs (Batch.calculate_overhead_percentage_advanced one_part_amounts
           - rate_of one_part_order * 100) <= 0.005.
Proof.
  apply (batch_percentage_is_the_rounded_rate one_part_order one_part_amounts);
    first [reflexivity | discriminate].
Defined.

(** ** The overhead of a unit *)

(** The overhead that the batch path writes for a unit, computed with the
    rounded percentage and then rounded itself, is off the overhead at
    the percentage as it is by (unit price + 1) * 0.00005 at most. *)
Theorem batch_overhead_error (n d c : string) (a : Batch.Amounts) (it : Batch.Item) :
  ~ Batch.order_total a == 0 ->
  0 <= Batch.unit_price it ->
  Qabs (Batch.Overhead_Amount
          (Batch.process_item n d c a
             (Batch.calculate_overhead_percentage_advanced a) it)
        - Batch.unit_price it * (Batch.overhead_percentage_exact a / 100))
  <= (Batch.unit_price it + 1) * 0.00005.
Proof.
  intros Ht Hu.
  unfold Batch.process_item; cbn [Batch.Overhead_Amount].
  unfold Batch.calculate_overhead_percentage_advanced.
  apply Qeq_bool_false in Ht. rewrite Ht.
  set (E := Batch.overhead_percentage_exact a).
  set (P := py_round E 2).
  set (u := Batch.unit_price it) in *.
  pose proof (py_round_2_bound E) as H2. fold P in H2.
  pose proof (py_round_4_bound (u * (P / 100))) as H4.
  apply Qabs_Qle_condition in H2. apply Qabs_Qle_condition in H4.
  apply Qabs_Qle_condition.
  destruct H2 as [H2a H2b]. destruct H4 as [H4a H4b].
  assert (Hb : - (u * 0.005) <= u * (P - E)) by nra.
  assert (Hc : u * (P - E) <= u * 0.005) by nra.
  assert (Ha : py_round (u * (P / 100)) 4 - u * (E / 100)
               == (py_round (u * (P / 100)) 4 - u * (P / 100))
                  + u * (P - E) * (1 # 100)) by field.
  rewrite Ha.
  generalize dependent (py_round (u * (P / 100)) 4 - u * (P / 100)).
  generalize dependent (u * (P - E)).
  intros k Hb Hc r H4a H4b _. split; lra.
Qed.

Lemma batch_overhead_error_witness :
  ~ Batch.order_total one_part_amounts == 0
  /\ 0 <= Batch.unit_price one_part_item
  /\ Qabs (Batch.Overhead_Amount
             (Batch.process_item "30000006" "Jan 5, 2025" "AU" one_part_amounts
                (Batch.calculate_overhead_percentage_advanced one_part_amounts)
                one_part_item)
           - Batch.unit_price one_part_item
             * (Batch.overhead_percentage_exact one_part_amounts / 100))
     <= (Batch.unit_price one_part_item + 1) * 0.00005.
Proof.
  assert (H1 : ~ Batch.order_total one_part_amounts == 0) by discriminate.
  assert (H2 : 0 <= Batch.unit_price one_part_item) by discriminate.
  split; [exact H1|]. split; [exact H2|].
  exact (batch_overhead_error "30000006" "Jan 5, 2025" "AU" one_part_amounts
           one_part_item H1 H2).
Defined.

(** With additional costs that are not negative, goods that cost
    something and a unit price that is not negative, the adjusted unit
    price of the batch export is never below the original unit price that
    stands next to it. *)
Theorem batch_adjusted_price_is_not_lower (n d c : string) (a : Batch.Amounts)
    (it : Batch.Item) :
  0 < Batch.order_total a ->
  0 <= Batch.overhead a ->
  0 <= Batch.unit_price it ->
  let row := Batch.process_item n d c a
               (Batch.calculate_overhead_percentage_advanced a) it in
  0 <= Batch.Overhead_Percentage row
  /\ Batch.Original_Unit_Price row <= Batch.Adjusted_Unit_Price row.
Proof.
  intros Ht Ho Hu.
  unfold Batch.process_item;
    cbn [Batch.Overhead_Percentage Batch.Original_Unit_Price
         Batch.Adjusted_Unit_Price].
  assert (Hp : 0 <= Batch.calculate_overhead_percentage_advanced a).
  { unfold Batch.calculate_overhead_percentage_advanced.
    destruct (Qeq_bool (Batch.order_total a) 0); [lra|].
    assert (Hz : py_round 0 2 == 0) by reflexivity.
    rewrite <- Hz. apply py_round_mono.
    unfold Batch.overhead_percentage_exact.
    assert (0 <= Batch.overhead a / Batch.order_total a).
    { apply Qle_shift_div_l; [exact Ht|]. lra. }
    lra. }
  split; [exact Hp|]. apply py_round_mono.
  assert (0 <= Batch.unit_price it
               * (Batch.calculate_overhead_percentage_advanced a / 100)).
  { apply Qmult_le_0_compat; [exact Hu|].
    apply Qle_shift_div_l; [reflexivity|]. lra. }
  lra.
Qed.

Lemma batch_adjusted_price_is_not_lower_witness :
  0 < Batch.order_total one_part_amounts
  /\ 0 <= Batch.overhead one_part_amounts
  /\ 0 <= Batch.unit_price one_part_item
  /\ Batch.Original_Unit_Price
       (Batch.process_item "30000006" "Jan 5, 2025" "AU" one_part_amounts
          (Batch.calculate_overhead_percentage_advanced one_part_amounts)
          one_part_item)
     <= Batch.Adjusted_Unit_Price
          (Batch.process_item "30000006" "Jan 5, 2025" "AU" one_part_amounts
             (Batch.calculate_overhead_percentage_advanced one_part_amounts)
             one_part_item).
Proof.
  assert (H1 : 0 < Batch.order_total one_part_amounts) by reflexivity.
  assert (H2 : 0 <= Batch.overhead one_part_amounts) by discriminate.
  assert (H3 : 0 <= Batch.unit_price one_part_item) by discriminate.
  split; [exact H1|]. split; [exact H2|]. split; [exact H3|].
  exact (proj2 (batch_adjusted_price_is_not_lower "30000006" "Jan 5, 2025" "AU"
                  one_part_amounts one_part_item H1 H2 H3)).
Defined.

(** ** The summary of the master file *)

Lemma add_order_spec (n : string) (orders : list string) :
  NoDup orders ->
  NoDup (Batch.add_order n orders)
  /\ forall m, In m (Batch.add_order n orders) <-> m = n \/ In m orders.
Proof.
  intro Hnd. unfold Batch.add_order.
  destruct (existsb (String.eqb n) orders) eqn:E.
  - split; [exact Hnd|]. intro m. split; [auto|].
    intros [-> | H]; [|exact H].
    apply existsb_exists in E. destruct E as (x & Hx & Hnx).
    apply String.eqb_eq in Hnx. now subst x.
  - assert (Hn : ~ In n orders).
    { intro Hin.
      assert (existsb (String.eqb n) orders = true) as Ht
          by (apply existsb_exists; exists n; split;
              [exact Hin | apply String.eqb_refl]).
      congruence. }
    split.
    + apply NoDup_app; [exact Hnd | repeat constructor; intros [] |].
      intros x Hx [<- | []]. exact (Hn Hx).
    + intro m. rewrite in_app_iff. simpl. intuition.
Qed.

Lemma rows_in_app (c : string) (done : list Batch.ProcessedItem)
    (row : Batch.ProcessedItem) :
  rows_in c (done ++ [row])
  = rows_in c done ++ (if String.eqb c (Batch.Currency row) then [row] else []).
Proof. unfold rows_in. now rewrite filter_app. Qed.

Lemma rows_in_none (c : string) (done : list Batch.ProcessedItem) :
  ~ In c (map Batch.Currency done) -> rows_in c done = [].
Proof.
  induction done as [|r done IH]; intro H; [reflexivity|].
  simpl in *. destruct (String.eqb c (Batch.Currency r)) eqn:E.
  - apply String.eqb_eq in E. exfalso. apply H. now left.
  - apply IH. intro Hin. apply H. now right.
Qed.

Lemma quantity_sum_app (l : list Batch.ProcessedItem) (r : Batch.ProcessedItem) :
  quantity_sum (l ++ [r]) = (quantity_sum l + Batch.Quantity r)%Z.
Proof. induction l as [|x l IH]; simpl; [lia | rewrite IH; lia]. Qed.

Lemma adjusted_sum_app (l : list Batch.ProcessedItem) (r : Batch.ProcessedItem) :
  adjusted_sum (l ++ [r]) == adjusted_sum l + Batch.Adjusted_Total r.
Proof. induction l as [|x l IH]; simpl; [ring | rewrite IH; ring]. Qed.

Lemma count_row_keys (row : Batch.ProcessedItem)
    (t : list (string * Batch.CurrencyStats)) :
  map fst (Batch.count_row row t)
  = if existsb (fun k => String.eqb k (Batch.Currency row)) (map fst t)
    then map fst t
    else map fst t ++ [Batch.Currency row].
Proof.
  induction t as [|[k s] rest IH]; simpl; [reflexivity|].
  destruct (String.eqb k (Batch.Currency row)); simpl; [reflexivity|].
  rewrite IH.
  now destruct (existsb (fun k0 => String.eqb k0 (Batch.Currency row))
                        (map fst rest)).
Qed.

Lemma count_row_entry (row : Batch.ProcessedItem)
    (t : list (string * Batch.CurrencyStats)) (c : string)
    (st' : Batch.CurrencyStats) :
  NoDup (map fst t) ->
  In (c, st') (Batch.count_row row t) ->
  (c <> Batch.Currency row /\ In (c, st') t)
  \/ (c = Batch.Currency row
      /\ exists st,
           st' = Batch.update_stats row st
           /\ (In (c, st) t
               \/ (~ In c (map fst t) /\ st = Batch.mkCurrencyStats [] 0 0))).
Proof.
  induction t as [|[k s] rest IH]; simpl; intros Hnd Hin.
  - destruct Hin as [Hin | []]. inversion Hin; subst. right.
    split; [reflexivity|]. eexists. split; [reflexivity|]. right. auto.
  - inversion Hnd as [|? ? Hk Hrest]; subst.
    destruct (String.eqb k (Batch.Currency row)) eqn:E.
    + apply String.eqb_eq in E. destruct Hin as [Hin | Hin].
      * inversion Hin; subst. right. split; [reflexivity|].
        exists s. split; [reflexivity|]. left. now left.
      * left. split; [|now right]. intro Hc. apply Hk.
        rewrite E, <- Hc. change c with (fst (c, st')). now apply in_map.
    + apply String.eqb_neq in E. destruct Hin as [Hin | Hin].
      * inversion Hin; subst. left. split; [exact E | now left].
      * destruct (IH Hrest Hin) as [[Hc H] | (Hc & st & Hst & H)].
        -- left. split; [exact Hc | now right].
        -- right. split; [exact Hc|]. exists st. split; [exact Hst|].
           destruct H as [H | [H ->]]; [left; now right|].
           right. split; [|reflexivity]. intros [Hk' | Hr]; [|exact (H Hr)].
           apply E. now rewrite Hk', Hc.
Qed.

Lemma count_row_ok (done : list Batch.ProcessedItem) (row : Batch.ProcessedItem)
    (t : list (string * Batch.CurrencyStats)) :
  table_ok done t -> table_ok (done ++ [row]) (Batch.count_row row t).
Proof.
  intros (Hnd & Hkeys & Hst). unfold table_ok.
  assert (Hex : existsb (fun k => String.eqb k (Batch.Currency row)) (map fst t)
                = true <-> In (Batch.Currency row) (map fst t)).
  { rewrite existsb_exists. split.
    - intros (x & Hx & E). apply String.eqb_eq in E. now subst x.
    - intro H. exists (Batch.Currency row). split; [exact H|].
      apply String.eqb_refl. }
  split; [|split].
  - rewrite count_row_keys.
    destruct (existsb (fun k => String.eqb k (Batch.Currency row)) (map fst t))
      eqn:E; [exact Hnd|].
    apply NoDup_app; [exact Hnd | repeat constructor; intros [] |].
    intros x Hx [<- | []].
    apply Hex in Hx. congruence.
  - intro c. rewrite count_row_keys, map_app, in_app_iff. simpl.
    destruct (existsb (fun k => String.eqb k (Batch.Currency row)) (map fst t))
      eqn:E.
    + rewrite Hkeys. split; [auto|]. intros [H | [<- | []]]; [exact H|].
      apply Hkeys. now apply Hex.
    + rewrite in_app_iff, Hkeys. simpl. tauto.
  - intros c st' Hin.
    destruct (count_row_entry row t c st' Hnd Hin)
      as [[Hc H] | (Hc & st & -> & H)].
    + rewrite rows_in_app.
      apply String.eqb_neq in Hc. rewrite Hc, app_nil_r. now apply Hst.
    + rewrite rows_in_app. subst c. rewrite String.eqb_refl.
      assert (Hold : NoDup (Batch.stat_orders st)
                     /\ (forall n, In n (Batch.stat_orders st)
                           <-> In n (map Batch.Order_Number
                                       (rows_in (Batch.Currency row) done)))
                     /\ Batch.stat_items st
                        = quantity_sum (rows_in (Batch.Currency row) done)
                     /\ Batch.stat_total st
                        == adjusted_sum (rows_in (Batch.Currency row) done)).
      { destruct H as [H | [H ->]]; [now apply Hst|].
        rewrite rows_in_none by (now rewrite <- Hkeys).
        simpl. repeat split; try reflexivity; try constructor; tauto. }
      destruct Hold as (Ho & Hm & Hi & Ht).
      destruct (add_order_spec (Batch.Order_Number row) _ Ho) as [Hn Ha].
      simpl. split; [exact Hn|]. split; [|split].
      * intro n. rewrite Ha, map_app, in_app_iff, Hm. simpl.
        split; [intros [-> | H']; auto | intros [H' | [<- | []]]; auto].
      * rewrite quantity_sum_app. now rewrite Hi.
      * rewrite adjusted_sum_app. now rewrite Ht.
Qed.

Lemma fold_count_row_ok (rows done : list Batch.ProcessedItem) :
  forall t,
    table_ok done t ->
    table_ok (done ++ rows)
      (fold_left (fun currencies row => Batch.count_row row currencies) rows t).
Proof.
  revert done. induction rows as [|r rows IH]; intros done t H; simpl.
  - now rewrite app_nil_r.
  - replace (done ++ r :: rows) with ((done ++ [r]) ++ rows)
      by (now rewrite <- app_assoc).
    apply IH. now apply count_row_ok.
Qed.

Lemma summary_table_ok (all_items : list Batch.ProcessedItem) :
  table_ok all_items (summary_table all_items).
Proof.
  apply (fold_count_row_ok all_items [] []).
  split; [constructor|]. split; [intro c; simpl; tauto|]. intros c st [].
Qed.

Lemma same_members_same_length (l1 l2 : list string) :
  NoDup l1 -> NoDup l2 -> (forall x, In x l1 <-> In x l2) ->
  List.length l1 = List.length l2.
Proof.
  intros H1 H2 H. apply Permutation_length.
  now apply NoDup_Permutation.
Qed.

(** The summary that [create_master_csv_output] prints after the file
    partitions the rows by currency: there is one line for each currency
    that occurs in the rows and no other, and the line of a currency
    gives the number of different order numbers among its rows, the sum
    of their quantities, and the sum of their adjusted totals, shown with
    two decimals. *)
Theorem summary_partitions_the_rows (all_items : list Batch.ProcessedItem) :
  (all_items <> [] ->
   List.length (Batch.create_master_csv_output all_items)
   = S (List.length (nodup string_dec (map Batch.Currency all_items))))
  /\ (forall c, In c (map Batch.Currency all_items) ->
        exists n pieces amount,
          In (Batch.Summary c n pieces amount)
             (Batch.create_master_csv_output all_items))
  /\ (forall c n pieces amount,
        In (Batch.Summary c n pieces amount)
           (Batch.create_master_csv_output all_items) ->
        In c (map Batch.Currency all_items)
        /\ n = distinct_orders (rows_in c all_items)
        /\ pieces = quantity_sum (rows_in c all_items)
        /\ amount == py_round (adjusted_sum (rows_in c all_items)) 2).
Proof.
  destruct (summary_table_ok all_items) as (Hnd & Hkeys & Hst).
  assert (Hout : all_items <> [] ->
            Batch.create_master_csv_output all_items
            = Batch.MasterCsv all_items
              :: map (fun cs =>
                        Batch.Summary (fst cs)
                          (List.length (Batch.stat_orders (snd cs)))
                          (Batch.stat_items (snd cs))
                          (py_round (Batch.stat_total (snd cs)) 2))
                     (summary_table all_items)).
  { destruct all_items; [congruence | reflexivity]. }
  split; [|split].
  - intro Hne. rewrite (Hout Hne). simpl. f_equal.
    rewrite length_map, <- (length_map fst).
    apply same_members_same_length;
      [exact Hnd | apply NoDup_nodup |].
    intro x. now rewrite nodup_In.
  - intros c Hc.
    assert (Hne : all_items <> []) by (destruct all_items; [destruct Hc | discriminate]).
    apply Hkeys in Hc. apply in_map_iff in Hc. destruct Hc as ([k st] & <- & Hin).
    do 3 eexists. rewrite (Hout Hne). right.
    apply in_map_iff. exists (k, st). split; [reflexivity | exact Hin].
  - intros c n pieces amount Hin.
    assert (Hne : all_items <> []) by (destruct all_items; [destruct Hin | discriminate]).
    rewrite (Hout Hne) in Hin. destruct Hin as [Hin | Hin]; [discriminate|].
    apply in_map_iff in Hin. destruct Hin as ([k st] & Heq & Hin).
    simpl in Heq. inversion Heq; subst.
    destruct (Hst _ _ Hin) as (Ho & Hm & Hi & Ht).
    split; [|split; [|split]].
    + apply Hkeys. change c with (fst (c, st)). now apply in_map.
    + unfold distinct_orders. apply same_members_same_length;
        [exact Ho | apply NoDup_nodup |].
      intro x. now rewrite nodup_In.
    + exact Hi.
    + now rewrite Ht.
Qed.

Lemma summary_partitions_the_rows_witness :
  sample_rows <> []
  /\ List.length (Batch.create_master_csv_output sample_rows) = 3%nat
  /\ In "EUR"%string (map Batch.Currency sample_rows)
  /\ exists n pieces amount,
       In (Batch.Summary "EUR" n pieces amount)
          (Batch.create_master_csv_output sample_rows).
Proof.
  assert (Hne : sample_rows <> []) by discriminate.
  assert (Hin : In "EUR"%string (map Batch.Currency sample_rows))
    by (simpl; tauto).
  destruct (summary_partitions_the_rows sample_rows) as (Hlen & Hex & _).
  split; [exact Hne|]. split; [|split; [exact Hin|]].
  - rewrite (Hlen Hne). reflexivity.
  - exact (Hex _ Hin).
Defined.

(** The summary of rows of two orders in Australian dollars, one of them
    on two rows, and one order in euros. *)
Example summary_of_sample_rows :
  Batch.create_master_csv_output sample_rows
  = [ Batch.MasterCsv sample_rows;
      Batch.Summary "AU" 2 5
        (py_round (adjusted_sum (rows_in "AU" sample_rows)) 2);
      Batch.Summary "EUR" 1 3
        (py_round (adjusted_sum (rows_in "EUR" sample_rows)) 2) ].
Proof. vm_compute. reflexivity. Qed.

(** ** The columns of a row of the master file *)

Lemma three_roundings (a o h : Z) (x y : Q) :
  Qabs (inject_Z a / pow10 4 - (x + y)) <= 0.00005 ->
  Qabs (inject_Z o / pow10 4 - x) <= 0.00005 ->
  Qabs (inject_Z h / pow10 4 - y) <= 0.00005 ->
  (a - o - h = 0 \/ a - o - h = 1 \/ a - o - h = -1)%Z.
Proof.
  intros Ha Ho Hh.
  apply Qabs_Qle_condition in Ha. apply Qabs_Qle_condition in Ho.
  apply Qabs_Qle_condition in Hh.
  assert (E : forall k, inject_Z k / pow10 4 == inject_Z k * (1 # 10000)).
  { intro k. assert (Hp : pow10 4 == 10000) by reflexivity.
    rewrite Hp. field. }
  rewrite E in Ha, Ho, Hh.
  assert (Hlo : inject_Z (-2) < inject_Z (a - o - h)).
  { unfold Zminus. rewrite !inject_Z_plus, !inject_Z_opp.
    change (inject_Z (-2)) with (-2 # 1). lra. }
  assert (Hhi : inject_Z (a - o - h) < inject_Z 2).
  { unfold Zminus. rewrite !inject_Z_plus, !inject_Z_opp.
    change (inject_Z 2) with (2 # 1). lra. }
  rewrite <- Zlt_Qlt in Hlo, Hhi. lia.
Qed.

Lemma Qabs_product_bound (q d e : Q) :
  Qabs d <= e -> Qabs (q * d) <= Qabs q * e.
Proof.
  intro H. rewrite Qabs_Qmult.
  rewrite (Qmult_comm (Qabs q) (Qabs d)), (Qmult_comm (Qabs q) e).
  apply Qmult_le_compat_r; [exact H | apply Qabs_nonneg].
Qed.

(** A row that the batch path builds: the percentage is the one its
    order columns give, the adjusted unit price is the sum of the
    original unit price and the overhead amount in the row up to one
    unit of the fourth decimal, and the adjusted total is the quantity
    times the adjusted unit price up to the two roundings. *)
Lemma process_item_consistent (n d c : string) (a : Batch.Amounts)
    (it : Batch.Item) :
  row_consistent
    (Batch.process_item n d c a
       (Batch.calculate_overhead_percentage_advanced a) it).
Proof.
  unfold row_consistent, row_percentage, Batch.process_item.
  cbn [Batch.Overhead_Percentage Batch.Order_Subtotal Batch.Shipping
       Batch.Insurance Batch.Additional_Charges Batch.Credit
       Batch.Adjusted_Unit_Price Batch.Original_Unit_Price
       Batch.Overhead_Amount Batch.Adjusted_Total Batch.Quantity].
  set (P := Batch.calculate_overhead_percentage_advanced a).
  set (u := Batch.unit_price it).
  set (h := u * (P / 100)).
  split; [|split].
  - unfold P, Batch.calculate_overhead_percentage_advanced.
    destruct (Qeq_bool (Batch.order_total a) 0); [reflexivity|].
    apply py_round_comp; [|reflexivity].
    unfold Batch.overhead_percentage_exact, Batch.overhead.
    apply Qmult_comp; [|reflexivity].
    apply Qdiv_comp; [ring | reflexivity].
  - pose proof (py_round_4_bound (u + h)) as Ha.
    pose proof (py_round_4_bound u) as Ho.
    pose proof (py_round_4_bound h) as Hh.
    unfold py_round in *.
    set (ka := round_half_even ((u + h) * pow10 4)) in *.
    set (ko := round_half_even (u * pow10 4)) in *.
    set (kh := round_half_even (h * pow10 4)) in *.
    pose proof (three_roundings ka ko kh u h Ha Ho Hh) as Hk.
    assert (E : inject_Z ka / pow10 4
                == inject_Z ko / pow10 4 + inject_Z kh / pow10 4
                   + inject_Z (ka - ko - kh) * (1 # 10000)).
    { assert (Hp : pow10 4 == 10000) by reflexivity.
      unfold Zminus. rewrite !inject_Z_plus, !inject_Z_opp, Hp. field. }
    destruct Hk as [Hk | [Hk | Hk]]; rewrite Hk in E.
    + left. rewrite E. change (inject_Z 0) with 0. ring.
    + right. left. rewrite E. change (inject_Z 1) with 1.
      apply Qplus_comp; reflexivity.
    + right. right. rewrite E. reflexivity.
  - set (q := inject_Z (Batch.qty it)).
    pose proof (py_round_2_bound ((u + h) * q)) as HT.
    pose proof (Qabs_product_bound (- q) _ _ (py_round_4_bound (u + h))) as HA.
    rewrite Qabs_opp in HA.
    assert (E : py_round ((u + h) * q) 2 - q * py_round (u + h) 4
                == (py_round ((u + h) * q) 2 - (u + h) * q)
                   + (- q) * (py_round (u + h) 4 - (u + h))) by ring.
    rewrite E.
    eapply Qle_trans; [apply Qabs_triangle|].
    apply Qplus_le_compat; assumption.
Qed.

Section BatchRows.

Variable pdf_text : string -> result string.
Variable order_number_in : string -> string -> string.
Variable order_date_in : string -> string.
Variable extract_currency_and_amounts_advanced :
  string -> result (option string * Batch.Amounts).
Variable extract_items_from_text_advanced : string -> result (list Batch.Item).

Abbreviation process_file :=
  (Batch.process_single_pdf_advanced pdf_text order_number_in order_date_in
     extract_currency_and_amounts_advanced extract_items_from_text_advanced).
Abbreviation batch_log :=
  (Batch.file_log pdf_text order_number_in order_date_in
     extract_currency_and_amounts_advanced extract_items_from_text_advanced).
Abbreviation convert_all :=
  (Batch.convert_all_pdfs_to_csv pdf_text order_number_in order_date_in
     extract_currency_and_amounts_advanced extract_items_from_text_advanced).

(** The rows of a file are built from one order number, date, currency
    and set of amounts, with the percentage of these amounts. *)
Lemma rows_of_a_file (f : string) :
  exists n d c a,
    Forall (fun r => exists it,
              r = Batch.process_item n d c a
                    (Batch.calculate_overhead_percentage_advanced a) it)
           (fst (process_file f)).
Proof.
  unfold Batch.process_single_pdf_advanced, Batch.process_body.
  destruct (pdf_text f) as [text|e]; simpl;
    [|exists ""%string, ""%string, ""%string, one_part_amounts; constructor].
  destruct (extract_currency_and_amounts_advanced text) as [[found a]|e]; simpl;
    [|exists ""%string, ""%string, ""%string, one_part_amounts; constructor].
  destruct (extract_items_from_text_advanced text) as [items|e]; simpl;
    [|exists ""%string, ""%string, ""%string, one_part_amounts; constructor].
  destruct (process_items_cases (order_number_in text f) (order_date_in text)
              (match found with Some c => c | None => "AUD"%string end) a
              (Batch.calculate_overhead_percentage_advanced a) items)
    as [[_ ->] | [_ ->]]; simpl;
    [|exists ""%string, ""%string, ""%string, one_part_amounts; constructor].
  do 4 eexists. apply Forall_forall. intros r Hr.
  apply in_map_iff in Hr. destruct Hr as (it & <- & _).
  exists it. reflexivity.
Qed.

Lemma file_log_has_no_master (f : string) (rows : list Batch.ProcessedItem) :
  ~ In (Batch.MasterCsv rows) (batch_log f).
Proof.
  unfold Batch.file_log, Batch.process_single_pdf_advanced, Batch.process_body.
  destruct (pdf_text f) as [text|e]; simpl;
    [|intros [H | [H | [H | []]]]; discriminate].
  destruct (extract_currency_and_amounts_advanced text) as [[found a]|e]; simpl;
    [|intros [H | [H | [H | []]]]; discriminate].
  destruct (extract_items_from_text_advanced text) as [items|e];
    [|destruct found; simpl; intuition discriminate].
  destruct (process_items_cases (order_number_in text f) (order_date_in text)
              (match found with Some c => c | None => "AUD"%string end) a
              (Batch.calculate_overhead_percentage_advanced a) items)
    as [[_ ->] | [_ ->]];
    destruct found; simpl;
    try (destruct (map _ items)); simpl;
    intuition discriminate.
Qed.

(** Every row that a batch run writes to the master file has columns
    that fit together: its overhead percentage is the one that its order
    subtotal, shipping, insurance, additional charges and credit give;
    its adjusted unit price is its original unit price plus its overhead
    amount, or that sum with 0.0001 more or less; and its adjusted total
    differs from quantity times adjusted unit price by
    0.005 + |quantity| * 0.00005 at most.  The rows of one file share the
    order number, the date, the currency, the percentage and the order
    amounts. *)
Theorem master_rows_are_consistent (pdf_files : list string)
    (rows : list Batch.ProcessedItem) :
  In (Batch.MasterCsv rows) (convert_all true pdf_files) ->
  rows = flat_map (fun f => fst (process_file f)) pdf_files
  /\ Forall row_consistent rows
  /\ forall f r1 r2,
       In r1 (fst (process_file f)) -> In r2 (fst (process_file f)) ->
       Batch.Order_Number r1 = Batch.Order_Number r2
       /\ Batch.Order_Date r1 = Batch.Order_Date r2
       /\ Batch.Currency r1 = Batch.Currency r2
       /\ Batch.Overhead_Percentage r1 = Batch.Overhead_Percentage r2
       /\ Batch.Order_Subtotal r1 = Batch.Order_Subtotal r2
       /\ Batch.Shipping r1 = Batch.Shipping r2
       /\ Batch.Insurance r1 = Batch.Insurance r2
       /\ Batch.Additional_Charges r1 = Batch.Additional_Charges r2
       /\ Batch.Credit r1 = Batch.Credit r2
       /\ Batch.Grand_Total r1 = Batch.Grand_Total r2.
Proof.
  intro Hin.
  assert (Hrows : rows = flat_map (fun f => fst (process_file f)) pdf_files).
  { unfold Batch.convert_all_pdfs_to_csv in Hin. simpl in Hin.
    destruct pdf_files as [|f0 rest];
      [destruct Hin as [H | [H | []]]; discriminate|].
    rewrite batch_loop_spec in Hin. cbn [fst snd app] in Hin.
    destruct Hin as [H | [H | Hin]]; try discriminate.
    apply in_app_or in Hin. destruct Hin as [Hin | Hin].
    - exfalso. apply in_flat_map in Hin. destruct Hin as (f & _ & Hf).
      exact (file_log_has_no_master f rows Hf).
    - unfold Batch.closing in Hin.
      destruct (flat_map (fun f => fst (process_file f)) (f0 :: rest))
        as [|x l] eqn:E; [destruct Hin as [H | []]; discriminate|].
      apply in_app_or in Hin. destruct Hin as [Hin | [H | []]];
        [|discriminate].
      simpl in Hin. destruct Hin as [H | Hin]; [now inversion H|].
      apply in_map_iff in Hin. destruct Hin as (cs & H & _). discriminate. }
  split; [exact Hrows|]. split.
  - subst rows. apply Forall_forall. intros r Hr.
    apply in_flat_map in Hr. destruct Hr as (f & _ & Hr).
    destruct (rows_of_a_file f) as (n & d & c & a & Hall).
    rewrite Forall_forall in Hall. destruct (Hall r Hr) as (it & ->).
    apply process_item_consistent.
  - intros f r1 r2 H1 H2.
    destruct (rows_of_a_file f) as (n & d & c & a & Hall).
    rewrite Forall_forall in Hall.
    destruct (Hall r1 H1) as (i1 & ->). destruct (Hall r2 H2) as (i2 & ->).
    repeat split; reflexivity.
Qed.

End BatchRows.

Lemma master_rows_are_consistent_witness :
  exists rows,
    In (Batch.MasterCsv rows)
       (Batch.convert_all_pdfs_to_csv sample_pdf_text sample_order_number
          sample_order_date sample_currency_and_amounts sample_items
          true ["a.pdf"%string; "damaged.pdf"%string; "b.pdf"%string])
    /\ List.length rows = 2%nat
    /\ Forall row_consistent rows.
Proof.
  eexists. 
  assert (Hin : In (Batch.MasterCsv
                      (flat_map
                         (fun f => fst (Batch.process_single_pdf_advanced
                                          sample_pdf_text sample_order_number
                                          sample_order_date
                                          sample_currency_and_amounts
                                          sample_items f))
                         ["a.pdf"%string; "damaged.pdf"%string; "b.pdf"%string]))
                   (Batch.convert_all_pdfs_to_csv sample_pdf_text
                      sample_order_number sample_order_date
                      sample_currency_and_amounts sample_items
                      true ["a.pdf"%string; "damaged.pdf"%string; "b.pdf"%string])).
  { vm_compute. do 9 right. left. reflexivity. }
  split; [exact Hin|]. split; [reflexivity|].
  exact (proj1 (proj2 (master_rows_are_consistent _ _ _ _ _ _ _ Hin))).
Defined.

(** * The legacy path from the file name to the report *)

Lemma read_exchange_rate_raises (entries : list entry) (e : exn) :
  read_exchange_rate entries = Raise e -> e = EOFError /\ Forall rejected entries.
Proof.
  induction entries as [|x entries IH]; simpl; intro H.
  - split; [congruence | constructor].
  - destruct x as [|q].
    + destruct (IH H). split; [assumption | now constructor].
    + destruct (Qlt_bool 0 q) eqn:E; [discriminate|].
      destruct (IH H). split; [assumption|].
      constructor; [now apply Qlt_bool_false | assumption].
Qed.

Lemma read_actual_pdf_content_cases (pdf_path : string) :
  (read_actual_pdf_content pdf_path = None
   /\ ~ In (order_number_of pdf_path) known_invoices)
  \/ (In (order_number_of pdf_path) known_invoices
      /\ exists c,
           read_actual_pdf_content pdf_path = Some c
           /\ In c [ create_mock_eur_pdf_content; create_mock_usd_pdf_content;
                     create_mock_eur_pdf_content_29079613;
                     create_mock_aud_pdf_content ]).
Proof.
  unfold read_actual_pdf_content, known_invoices.
  destruct (String.eqb (order_number_of pdf_path) "29055780") eqn:E1;
    [apply String.eqb_eq in E1; right; split;
     [simpl; auto | eexists; split; [reflexivity | simpl; auto]]|].
  destruct (String.eqb (order_number_of pdf_path) "29062495") eqn:E2;
    [apply String.eqb_eq in E2; right; split;
     [simpl; auto | eexists; split; [reflexivity | simpl; auto]]|].
  destruct (String.eqb (order_number_of pdf_path) "29079613") eqn:E3;
    [apply String.eqb_eq in E3; right; split;
     [simpl; auto | eexists; split; [reflexivity | simpl; auto]]|].
  destruct (String.eqb (order_number_of pdf_path) "29154233") eqn:E4;
    [apply String.eqb_eq in E4; right; split;
     [simpl; auto 6 | eexists; split; [reflexivity | simpl; auto 6]]|].
  left. split; [reflexivity|].
  apply String.eqb_neq in E1, E2, E3, E4.
  simpl. intros [H | [H | [H | [H | []]]]]; congruence.
Qed.

(** The legacy path does not read the file: what it returns for a path
    is decided by the leftmost eight digits of the path.  For the four
    order numbers it knows, in any directory and under any name, it
    returns the order that the program carries, under that number and at
    the exchange rate 1; the quantities of that order are positive, so
    that, once converted at the first positive rate typed, the
    allocation runs to its end without a division by zero.  The
    conversion fails only for a foreign currency when no positive rate
    is typed before the input ends.  For every other path there is no
    order. *)
Theorem known_invoices_reach_the_report (pdf_path : string) (entries : list entry) :
  (In (order_number_of pdf_path) known_invoices
   <-> exists o, extract_bricklink_data_from_pdf pdf_path = Some o)
  /\ (~ In (order_number_of pdf_path) known_invoices ->
      extract_bricklink_data_from_pdf pdf_path = None
      /\ process_known_pdf pdf_path entries = None)
  /\ forall o,
       extract_bricklink_data_from_pdf pdf_path = Some o ->
       order_number o = order_number_of pdf_path
       /\ exchange_rate o = 1
       /\ valid_order o = true
       /\ ((exists o' rest r,
              apply_currency_conversion entries o = Ok (o', rest)
              /\ valid_order o' = true
              /\ process_known_pdf pdf_path entries
                 = Some (calculate_costs_from_data o')
              /\ outcome (calculate_costs_from_data o') = Ok r)
           \/ (apply_currency_conversion entries o = Raise EOFError
               /\ is_AUD (original_currency o) = false
               /\ Forall rejected entries)).
Proof.
  unfold process_known_pdf, extract_bricklink_data_from_pdf.
  destruct (read_actual_pdf_content_cases pdf_path)
    as [[Hnone Hnot] | (Hin & c & Hsome & Hc)].
  - rewrite Hnone. split; [|split].
    + split; [intro H; contradiction | intros [o H]; discriminate].
    + auto.
    + intros o H. discriminate.
  - rewrite Hsome. split; [|split].
    + split; [intros _ | intros _; exact Hin].
      unfold parse_actual_pdf_content. eexists. reflexivity.
    + intro H. contradiction.
    + unfold parse_actual_pdf_content. intros o Ho.
      injection Ho as <-. cbn [order_number exchange_rate].
      split; [reflexivity|]. split; [reflexivity|].
      match goal with
      | |- valid_order ?x = true /\ _ => set (o := x)
      end.
      assert (Hv : valid_order o = true).
      { subst o. simpl in Hc.
        destruct Hc as [<- | [<- | [<- | [<- | []]]]]; reflexivity. }
      clearbody o. clear Hc Hsome Hin. cbv beta iota.
      split; [exact Hv|].
      unfold apply_currency_conversion.
      destruct (is_AUD (original_currency o)) eqn:Ecur; cbn [negb].
      * left. destruct (calculate_costs_from_data_ok o Hv) as (r & Hr & _).
        exists o, entries, r.
        split; [reflexivity|]. split; [exact Hv|].
        split; [reflexivity | exact Hr].
      * destruct (read_exchange_rate entries) as [[rate rest]|e] eqn:E;
          cbn [bind fst snd].
        -- left.
           pose proof (read_exchange_rate_positive _ _ _ E) as Hpos.
           pose proof (valid_order_convert rate o Hpos Hv) as Hv'.
           destruct (calculate_costs_from_data_ok _ Hv') as (r & Hr & _).
           exists (convert_order rate o), rest, r.
           split; [reflexivity|]. split; [exact Hv'|].
           split; [reflexivity | exact Hr].
        -- right. destruct (read_exchange_rate_raises _ _ E) as [-> Hrej].
           split; [reflexivity|]. split; [reflexivity | exact Hrej].
Qed.

Lemma known_invoices_reach_the_report_witness :
  exists o,
    extract_bricklink_data_from_pdf "invoices/2025/29062495 (copy).pdf" = Some o
    /\ order_number o = "29062495"%string
    /\ valid_order o = true.
Proof.
  destruct (known_invoices_reach_the_report
              "invoices/2025/29062495 (copy).pdf" [NotANumber; Number 1.5])
    as (_ & _ & H).
  eexists. split; [reflexivity|].
  destruct (H _ eq_refl) as (H1 & _ & H3 & _).
  split; [exact H1 | exact H3].
Defined.

(** * Typed input *)

(** ** [convert_items_to_aud] *)

(** When the rate of Australian dollars is 1, [convert_items_to_aud] is
    the multiplication of the unit price and of the line total of every
    item by the rate, whatever the currency: names, quantities and the
    order of the items are kept, and a line that was quantity times unit
    price still is. *)
Theorem convert_items_to_aud_scales (items_data : list Item) (rate : Q)
    (currency : string) :
  (is_AUD currency = true -> rate == 1) ->
  Forall2 (fun it' it =>
             name it' = name it /\ qty it' = qty it
             /\ unit_price it' == unit_price it * rate
             /\ total it' == total it * rate)
          (convert_items_to_aud items_data rate currency) items_data
  /\ (Forall consistent_line items_data ->
      Forall consistent_line (convert_items_to_aud items_data rate currency)).
Proof.
  intro Haud. unfold convert_items_to_aud.
  destruct (is_AUD currency || Qeq_bool rate 1) eqn:E.
  - assert (Hr : rate == 1).
    { apply orb_true_iff in E. destruct E as [E | E]; [now apply Haud|].
      now apply Qeq_bool_iff. }
    split; [|auto].
    induction items_data as [|it rest IH]; constructor; [|exact IH].
    repeat split; rewrite Hr; ring.
  - split.
    + induction items_data as [|it rest IH]; simpl; constructor; [|exact IH].
      repeat split; reflexivity.
    + intro H. apply Forall_forall. intros it' Hin.
      apply in_map_iff in Hin. destruct Hin as (it & <- & Hin).
      rewrite Forall_forall in H. specialize (H it Hin).
      unfold consistent_line in *. simpl. rewrite H. ring.
Qed.

Lemma convert_items_to_aud_scales_witness :
  Forall2 (fun it' it =>
             name it' = name it /\ qty it' = qty it
             /\ unit_price it' == unit_price it * 1.6
             /\ total it' == total it * 1.6)
          (convert_items_to_aud (items_data order_29079613) 1.6 "EUR")
          (items_data order_29079613).
Proof.
  apply (convert_items_to_aud_scales (items_data order_29079613) 1.6 "EUR").
  discriminate.
Defined.

Section ConsoleProperties.

Variable py_float : string -> option Q.
Variable py_int : string -> option Z.
Variable strip : string -> string.
Variable upper : string -> string.
Variable lower : string -> string.

Abbreviation detect_currency := (detect_currency_from_user strip upper).
Abbreviation exchange_rate_from := (get_exchange_rate py_float).
Abbreviation amounts_from := (read_amounts py_float).
Abbreviation items_from := (read_items py_float py_int strip).
Abbreviation manual_entry :=
  (manual_data_entry_with_currency py_float py_int strip upper).
Abbreviation calculator := (calculator_loop py_float py_int strip lower).
Abbreviation broken_off := (broken_off py_float py_int).
Abbreviation failed_at := (failed_at py_float py_int).
Abbreviation calculator_ending :=
  (calculator_ending py_float py_int strip lower).

(** ** The prompts *)

Lemma detect_currency_spec (inputs : list string) :
  match detect_currency inputs with
  | Ok (c, rest) => py_len c = 3%nat /\ exists before, inputs = before ++ rest
  | Raise e => e = EOFError
  end.
Proof.
  induction inputs as [|s rest IH]; simpl; [reflexivity|].
  destruct (negb (String.eqb (strip (upper s)) "")
            && Nat.eqb (py_len (strip (upper s))) 3) eqn:E.
  - apply andb_true_iff in E. destruct E as [_ E].
    split; [now apply Nat.eqb_eq | now exists [s]].
  - destruct (detect_currency rest) as [[c r]|e]; [|exact IH].
    destruct IH as [Hc [before ->]]. split; [exact Hc|].
    now exists (s :: before).
Qed.

Lemma get_exchange_rate_spec (inputs : list string) :
  match exchange_rate_from inputs with
  | Ok (r, rest) => 0 < r /\ exists before, inputs = before ++ rest
  | Raise e => e = EOFError
  end.
Proof.
  induction inputs as [|s rest IH]; simpl; [reflexivity|].
  assert (Hnext : match exchange_rate_from rest with
                  | Ok (r, rest') =>
                      0 < r /\ exists before, s :: rest = before ++ rest'
                  | Raise e => e = EOFError
                  end).
  { destruct (exchange_rate_from rest) as [[r r']|e]; [|exact IH].
    destruct IH as [Hr [before ->]]. split; [exact Hr|].
    now exists (s :: before). }
  destruct (py_float s) as [q|]; [|exact Hnext].
  destruct (Qlt_bool 0 q) eqn:E; [|exact Hnext].
  split; [now apply Qlt_bool_iff | now exists [s]].
Qed.

(** The prompt of [get_exchange_rate] and the one of
    [apply_currency_conversion] are the same loop: on the same lines they
    return the same rate and leave the same lines unread, or both go on
    to the end of the input. *)
Theorem the_two_rate_prompts_agree (inputs : list string) :
  (forall r rest,
     exchange_rate_from inputs = Ok (r, rest) ->
     read_exchange_rate (map (typed_entry py_float) inputs)
     = Ok (r, map (typed_entry py_float) rest))
  /\ (forall e,
        exchange_rate_from inputs = Raise e ->
        read_exchange_rate (map (typed_entry py_float) inputs) = Raise e)
  /\ ((exists r rest, exchange_rate_from inputs = Ok (r, rest))
      \/ exchange_rate_from inputs = Raise EOFError).
Proof.
  induction inputs as [|s rest IH]; simpl.
  - split; [discriminate|].
    split; [intros e H; now injection H as <- | now right].
  - assert (Ht : typed_entry py_float s
                 = match py_float s with
                   | Some q => Number q
                   | None => NotANumber
                   end) by reflexivity.
    rewrite Ht. destruct (py_float s) as [q|]; [|exact IH].
    destruct (Qlt_bool 0 q); [|exact IH].
    split; [|split].
    + intros r rest' H. now injection H as <- <-.
    + discriminate.
    + left. eauto.
Qed.

(** ** The two loops of manual entry *)

Lemma read_amounts_spec (n : nat) :
  forall inputs,
    (List.length inputs <= n)%nat ->
    match amounts_from inputs with
    | Ok (a, rest) => exists before, inputs = before ++ rest
    | Raise e => e = EOFError
    end.
Proof.
  assert (Hnext : forall (skipped inputs : list string),
            match amounts_from inputs with
            | Ok (a, rest) => exists before, inputs = before ++ rest
            | Raise e => e = EOFError
            end ->
            match amounts_from inputs with
            | Ok (a, rest) => exists before, skipped ++ inputs = before ++ rest
            | Raise e => e = EOFError
            end).
  { intros skipped inputs H.
    destruct (amounts_from inputs) as [[a rest]|e]; [|exact H].
    destruct H as [before ->]. exists (skipped ++ before).
    now rewrite app_assoc. }
  induction n as [|n IH]; intros inputs Hlen.
  - destruct inputs; [reflexivity | simpl in Hlen; lia].
  - destruct inputs as [|s1 r1]; [reflexivity|]. simpl.
    destruct (py_float s1);
      [|apply (Hnext [s1]), IH; simpl in *; lia].
    destruct r1 as [|s2 r2]; [reflexivity|].
    destruct (py_float s2);
      [|apply (Hnext [s1; s2]), IH; simpl in *; lia].
    destruct r2 as [|s3 r3]; [reflexivity|].
    destruct (py_float (or_zero s3));
      [|apply (Hnext [s1; s2; s3]), IH; simpl in *; lia].
    destruct r3 as [|s4 r4]; [reflexivity|].
    destruct (py_float (or_zero s4));
      [|apply (Hnext [s1; s2; s3; s4]), IH; simpl in *; lia].
    destruct r4 as [|s5 r5]; [reflexivity|].
    destruct (py_float (or_zero s5));
      [|apply (Hnext [s1; s2; s3; s4; s5]), IH; simpl in *; lia].
    destruct r5 as [|s6 r6]; [reflexivity|].
    destruct (py_float (or_zero s6));
      [|apply (Hnext [s1; s2; s3; s4; s5; s6]), IH; simpl in *; lia].
    now exists [s1; s2; s3; s4; s5; s6].
Qed.

Lemma broken_off_later (skipped inputs : list string) (e : exn)
    (rest : list string) :
  broken_off inputs e rest -> broken_off (skipped ++ inputs) e rest.
Proof.
  intros [H | (He & before & sq & sp & q & p & -> & H)]; [now left|].
  right. split; [exact He|].
  exists (skipped ++ before), sq, sp, q, p. now rewrite app_assoc.
Qed.

Lemma read_items_spec (n : nat) :
  forall inputs acc,
    (List.length inputs <= n)%nat ->
    Forall typed_line acc ->
    match items_from inputs acc with
    | (Ok items, rest) =>
        Forall typed_line items /\ exists before, inputs = before ++ rest
    | (Raise e, rest) => broken_off inputs e rest
    end.
Proof.
  assert (Hnext : forall (skipped inputs : list string) acc,
            match items_from inputs acc with
            | (Ok items, rest) =>
                Forall typed_line items /\ exists before, inputs = before ++ rest
            | (Raise e, rest) => broken_off inputs e rest
            end ->
            match items_from inputs acc with
            | (Ok items, rest) =>
                Forall typed_line items
                /\ exists before, skipped ++ inputs = before ++ rest
            | (Raise e, rest) => broken_off (skipped ++ inputs) e rest
            end).
  { intros skipped inputs acc H.
    destruct (items_from inputs acc) as [[items|e] rest].
    - destruct H as [Hi [before ->]]. split; [exact Hi|].
      exists (skipped ++ before). now rewrite app_assoc.
    - now apply broken_off_later. }
  induction n as [|n IH]; intros inputs acc Hlen Hacc.
  - destruct inputs; [now left | simpl in Hlen; lia].
  - destruct inputs as [|s r1]; [now left|]. simpl.
    destruct (String.eqb (strip s) "");
      [split; [exact Hacc | now exists [s]]|].
    destruct r1 as [|sq r2]; [now left|].
    destruct (py_int sq) as [q|] eqn:Eq;
      [|apply (Hnext [s; sq]), IH; [simpl in *; lia | exact Hacc]].
    destruct r2 as [|sp r3]; [now left|].
    destruct (py_float sp) as [up|] eqn:Ep;
      [|apply (Hnext [s; sq; sp]), IH; [simpl in *; lia | exact Hacc]].
    unfold float_of_int. destruct (fits_float q) eqn:Ef.
    + apply (Hnext [s; sq; sp]), IH; [simpl in *; lia|].
      apply Forall_app. split; [exact Hacc|]. constructor; [|constructor].
      split; [reflexivity | exact Ef].
    + right. split; [reflexivity|]. now exists [s], sq, sp, q, up.
Qed.

(** ** The order of a manual entry *)

Lemma converted_lines_are_consistent (items : list Item) (rate : Q)
    (currency : string) :
  Forall typed_line items ->
  Forall consistent_line (convert_items_to_aud items rate currency)
  /\ Forall (fun it => fits_float (qty it) = true)
            (convert_items_to_aud items rate currency).
Proof.
  intro Hi. unfold convert_items_to_aud.
  destruct (is_AUD currency || Qeq_bool rate 1).
  - split; (eapply Forall_impl; [|exact Hi]); intros it [H1 H2];
      [unfold consistent_line; now rewrite H1 | exact H2].
  - split; apply Forall_forall; intros it' Hin;
      apply in_map_iff in Hin; destruct Hin as (it & <- & Hin);
      rewrite Forall_forall in Hi; destruct (Hi it Hin) as [H1 H2].
    + unfold consistent_line. simpl. rewrite H1. ring.
    + exact H2.
Qed.

(** What the prompts of manual entry give: a currency, a rate, the
    amounts and the items as they were typed, or the reason for which
    the entry was broken off. *)
Lemma manual_entry_steps (number : string) (inputs : list string) :
  match manual_entry number inputs with
  | (Ok o, rest) =>
      exists items a asked after,
        py_len (original_currency o) = 3%nat
        /\ 0 < exchange_rate o
        /\ (is_AUD (original_currency o) = true -> exchange_rate o = 1)
        /\ Forall typed_line items
        /\ order_number o = number
        /\ items_data o
           = convert_items_to_aud items (exchange_rate o) (original_currency o)
        /\ grand_total o
           = subtotal o + shipping o + insurance o + additional_charges_1 o
             + additional_charges_2 o - credit o
        /\ amounts_from asked = Ok (a, after)
        /\ amounts_of a o
        /\ (exists before, inputs = before ++ asked)
        /\ (exists before, inputs = before ++ rest)
  | (Raise e, rest) => broken_off inputs e rest
  end.
Proof.
  unfold manual_data_entry_with_currency.
  pose proof (detect_currency_spec inputs) as Hc.
  destruct (detect_currency inputs) as [[currency r0]|e0];
    [|left; split; [exact Hc | reflexivity]].
  destruct Hc as [Hlen [b0 ->]].
  assert (Hr : match (if negb (is_AUD currency)
                      then exchange_rate_from r0 else Ok (1, r0)) with
               | Ok (r, r1) =>
                   0 < r /\ (is_AUD currency = true -> r = 1)
                   /\ exists before, r0 = before ++ r1
               | Raise e => e = EOFError
               end).
  { destruct (is_AUD currency); simpl.
    - split; [reflexivity|]. split; [auto | now exists []].
    - pose proof (get_exchange_rate_spec r0) as H.
      destruct (exchange_rate_from r0) as [[r r1]|e]; [|exact H].
      destruct H as [H1 H2]. split; [exact H1|]. split; [discriminate | exact H2]. }
  destruct (if negb (is_AUD currency) then exchange_rate_from r0 else Ok (1, r0))
    as [[rate r1]|e1]; [|left; split; [exact Hr | reflexivity]].
  destruct Hr as (Hpos & Haud & b1 & ->).
  pose proof (read_amounts_spec _ r1 (Nat.le_refl _)) as Ha.
  destruct (amounts_from r1) as [[a r2]|e2] eqn:Ea;
    [|left; split; [exact Ha | reflexivity]].
  destruct Ha as [b2 Hb2].
  pose proof (read_items_spec _ r2 [] (Nat.le_refl _) (Forall_nil _)) as Hi.
  destruct (items_from r2 []) as [[items|e3] r3].
  - destruct Hi as [Hi [b3 ->]].
    exists items, a, r1, (b3 ++ r3). cbn [original_currency exchange_rate
      order_number items_data grand_total subtotal shipping insurance
      additional_charges_1 additional_charges_2 credit].
    split; [exact Hlen|]. split; [exact Hpos|]. split; [exact Haud|].
    split; [exact Hi|]. split; [reflexivity|]. split; [reflexivity|].
    split; [reflexivity|]. split; [exact Ea|].
    split.
    { unfold amounts_of. cbn [original_currency exchange_rate subtotal shipping
        insurance additional_charges_1 additional_charges_2 credit].
      destruct (is_AUD currency); simpl; repeat split; reflexivity. }
    split; [exists (b0 ++ b1); now rewrite app_assoc|].
    exists (b0 ++ b1 ++ b2 ++ b3). rewrite Hb2.
    now rewrite <- !app_assoc.
  - rewrite Hb2, !app_assoc. apply broken_off_later. exact Hi.
Qed.

(** Manual entry ends with an order, or is broken off by an exception
    that [except ValueError] does not catch: [EOFError] when the lines
    run out, or [OverflowError] at a quantity that is too large for a
    [float], typed with a price that is a number, and then the lines
    after that price have not been read.  The order carries the number it was given, a
    currency code of three characters and a rate greater than zero,
    which is 1 for Australian dollars; its six amounts are those typed at
    the six prompts, multiplied by the rate unless the currency is [AUD],
    and its grand total is their sum less the credit; the total of each
    of its lines is the quantity times the unit price, so that the line
    totals add up to the goods at their unit prices, and every quantity
    is one that [float] holds. *)
Theorem manual_entry_order (number : string) (inputs : list string) :
  (forall e rest,
     manual_entry number inputs = (Raise e, rest) ->
     (e = EOFError /\ rest = [])
     \/ (e = OverflowError
         /\ exists before quantity price q p,
              inputs = before ++ quantity :: price :: rest
              /\ py_int quantity = Some q /\ fits_float q = false
              /\ py_float price = Some p))
  /\ forall o rest,
       manual_entry number inputs = (Ok o, rest) ->
       order_number o = number
       /\ py_len (original_currency o) = 3%nat
       /\ 0 < exchange_rate o
       /\ (is_AUD (original_currency o) = true -> exchange_rate o = 1)
       /\ (exists a asked after,
             amounts_from asked = Ok (a, after)
             /\ (exists before, inputs = before ++ asked)
             /\ amounts_of a o)
       /\ grand_total o
          == subtotal o + shipping o + insurance o + additional_charges_1 o
             + additional_charges_2 o - credit o
       /\ Forall consistent_line (items_data o)
       /\ Forall (fun it => fits_float (qty it) = true) (items_data o)
       /\ sum_line_totals (items_data o) == goods_total (items_data o)
       /\ exists before, inputs = before ++ rest.
Proof.
  pose proof (manual_entry_steps number inputs) as H.
  split.
  - intros e rest He. rewrite He in H. exact H.
  - intros o rest Ho. rewrite Ho in H.
    destruct H as (items & a & asked & after & Hlen & Hpos & Haud & Hi & Hnum
                   & Hitems & Hgt & Ha & Hamounts & Hasked & Hrest).
    destruct (converted_lines_are_consistent items (exchange_rate o)
                (original_currency o) Hi) as [Hcons Hfit].
    rewrite <- Hitems in Hcons, Hfit.
    split; [exact Hnum|]. split; [exact Hlen|]. split; [exact Hpos|].
    split; [exact Haud|].
    split; [exists a, asked, after; auto|].
    split; [now rewrite Hgt|]. split; [exact Hcons|]. split; [exact Hfit|].
    split; [now apply line_totals_are_goods | exact Hrest].
Qed.

(** ** The interactive calculator *)

Lemma failed_at_later (skipped inputs : list string) (e : exn) :
  failed_at inputs e -> failed_at (skipped ++ inputs) e.
Proof.
  intros (nm & qu & pr & be & af & q & p & -> & H).
  exists nm, qu, pr, (skipped ++ be), af, q, p. now rewrite <- app_assoc.
Qed.

Lemma calculator_loop_spec (rate : Q) (n : nat) :
  forall inputs shown,
    (List.length inputs <= n)%nat ->
    Forall (calc_line_ok rate) shown ->
    Forall (calc_line_ok rate) (fst (calculator rate inputs shown))
    /\ calculator_ending inputs (snd (calculator rate inputs shown))
    /\ exists more, fst (calculator rate inputs shown) = shown ++ more.
Proof.
  assert (Hstop : forall inputs (shown : list calc_line) (r : result unit),
            Forall (calc_line_ok rate) shown ->
            calculator_ending inputs r ->
            Forall (calc_line_ok rate) (fst (shown, r))
            /\ calculator_ending inputs (snd (shown, r))
            /\ exists more, fst (shown, r) = shown ++ more).
  { intros inputs shown r Hs Hr. split; [exact Hs|]. split; [exact Hr|].
    exists []. now rewrite app_nil_r. }
  assert (Hnext : forall skipped inputs shown l,
            (Forall (calc_line_ok rate) (fst (calculator rate inputs (shown ++ [l])))
             /\ calculator_ending inputs
                  (snd (calculator rate inputs (shown ++ [l])))
             /\ exists more,
                  fst (calculator rate inputs (shown ++ [l]))
                  = (shown ++ [l]) ++ more) ->
            Forall (calc_line_ok rate) (fst (calculator rate inputs (shown ++ [l])))
            /\ calculator_ending (skipped ++ inputs)
                 (snd (calculator rate inputs (shown ++ [l])))
            /\ exists more,
                 fst (calculator rate inputs (shown ++ [l])) = shown ++ more).
  { intros skipped inputs shown l (H1 & H2 & more & H3).
    split; [exact H1|]. split.
    - destruct (snd (calculator rate inputs (shown ++ [l]))) as [u|e].
      + destruct H2 as (line & Hin & Hline). exists line.
        split; [apply in_or_app; now right | exact Hline].
      + destruct H2 as [H2|H2]; [now left | right; now apply failed_at_later].
    - exists (l :: more). now rewrite H3, <- app_assoc. }
  induction n as [|n IH]; intros inputs shown Hlen Hs.
  - destruct inputs; [apply Hstop; [exact Hs | now left] | simpl in Hlen; lia].
  - destruct inputs as [|s r1]; [apply Hstop; [exact Hs | now left]|]. simpl.
    destruct (String.eqb (lower (strip s)) "quit") eqn:Equit.
    { apply Hstop; [exact Hs|]. exists s.
      split; [now left | now apply String.eqb_eq]. }
    destruct r1 as [|sq r2]; [apply Hstop; [exact Hs | now left]|].
    destruct (py_int sq) as [q|] eqn:Eq.
    2:{ apply (Hnext [s; sq]), IH; [simpl in *; lia|].
        apply Forall_app. split; [exact Hs | now repeat constructor]. }
    destruct r2 as [|sp r3]; [apply Hstop; [exact Hs | now left]|].
    destruct (py_float sp) as [up|] eqn:Ep.
    2:{ apply (Hnext [s; sq; sp]), IH; [simpl in *; lia|].
        apply Forall_app. split; [exact Hs | now repeat constructor]. }
    unfold float_of_int. destruct (fits_float q) eqn:Ef.
    2:{ apply Hstop; [exact Hs|]. right.
        exists s, sq, sp, [], r3, q, up. auto 6. }
    unfold py_div. destruct (Qeq_bool (inject_Z q) 0) eqn:Ez.
    { apply Hstop; [exact Hs|]. right.
      assert (Hq0 : q = 0%Z)
        by (apply (proj1 (inject_Z_zero q)); exact (proj1 (Qeq_bool_iff _ _) Ez)).
      exists s, sq, sp, [], r3, q, up. auto 6. }
    apply Qeq_bool_false in Ez.
    assert (Hq : q <> 0%Z) by (intro Hz; apply Ez; now rewrite Hz).
    apply (Hnext [s; sq; sp]), IH; [simpl in *; lia|].
    apply Forall_app. split; [exact Hs|]. constructor; [|constructor].
    simpl. exists q, up.
    assert (E1 : inject_Z q * up * rate / inject_Z q == up * rate)
      by (field; exact Ez).
    split; [exact Hq|]. split; [exact Ef|]. split; [reflexivity|].
    split; [apply py_round_comp; [exact E1 | reflexivity]|].
    split; [apply py_round_comp; [rewrite E1; ring | reflexivity]|].
    split; [apply py_round_comp; [rewrite E1; ring | reflexivity]|].
    reflexivity.
Qed.

(** A session of the interactive calculator ends at a line that reads
    [quit], when the lines run out, or with one of two exceptions that
    are not caught: [ZeroDivisionError] when 0 has been typed as a
    quantity, and [OverflowError] when the quantity typed is too large
    for a [float], in both cases with a price that is a number.  The rate is the first
    line typed, or 0.1085 when that line is not a number.  Every result
    printed is the one of a quantity other than zero and a unit price:
    the shipping of a unit is the unit price times the rate, the true
    unit cost the unit price times (1 + rate), whatever the quantity,
    both shown with four decimals, and the cost of the line is the
    quantity times that cost, shown with two.  It is the cost that
    [calculate_costs_from_data] gives at the same rate to an item whose
    line total is quantity times unit price. *)
Theorem interactive_calculator_results (inputs : list string) :
  let session := interactive_calculator py_float py_int strip lower inputs in
  (snd session = Ok tt \/ snd session = Raise EOFError
   \/ snd session = Raise ZeroDivisionError
   \/ snd session = Raise OverflowError)
  /\ (snd session = Ok tt ->
      exists line, In line inputs /\ lower (strip line) = "quit"%string)
  /\ (forall e,
        snd session = Raise e -> e <> EOFError ->
        exists name quantity price before after q p,
          inputs = before ++ name :: quantity :: price :: after
          /\ py_int quantity = Some q /\ py_float price = Some p
          /\ ((q = 0%Z /\ e = ZeroDivisionError)
              \/ (fits_float q = false /\ e = OverflowError)))
  /\ exists rate,
       match inputs with
       | [] => True
       | s :: _ =>
           match py_float s with
           | Some r => rate = r
           | None => rate = 0.1085
                     /\ exists more, fst session = InvalidShippingRate :: more
           end
       end
       /\ Forall (calc_line_ok rate) (fst session).
Proof.
  assert (Hend : forall (s : string) (l : list string) (r : result unit),
            calculator_ending l r ->
            (r = Ok tt \/ r = Raise EOFError \/ r = Raise ZeroDivisionError
             \/ r = Raise OverflowError)
            /\ (r = Ok tt ->
                exists line,
                  In line (s :: l) /\ lower (strip line) = "quit"%string)
            /\ forall e, r = Raise e -> e <> EOFError -> failed_at (s :: l) e).
  { intros s l [[]|e] H; simpl in H.
    - split; [now left|]. split; [|discriminate].
      intros _. destruct H as (line & Hin & Hline). exists line.
      split; [now right | exact Hline].
    - split; [|split; [discriminate|]].
      + destruct H as [-> | (_ & _ & _ & _ & _ & _ & _ & _ & _ & _ & [[_ ->] | [_ ->]])];
          auto.
      + intros e' He' Hne. injection He' as <-.
        destruct H as [H|H]; [contradiction|].
        now apply (failed_at_later [s]). }
  unfold interactive_calculator.
  destruct inputs as [|s rest]; cbv zeta.
  - split; [cbn; auto|]. split; [discriminate|].
    split; [cbn; intros e H; now injection H as <-|].
    exists 0. split; [exact I | constructor].
  - destruct (py_float s) as [r|].
    + destruct (calculator_loop_spec r _ rest [] (Nat.le_refl _) (Forall_nil _))
        as (H1 & H2 & _).
      destruct (Hend s _ _ H2) as (Ha & Hb & Hc).
      split; [exact Ha|]. split; [exact Hb|]. split; [exact Hc|].
      exists r. split; [reflexivity | exact H1].
    + destruct (calculator_loop_spec 0.1085 _ rest [InvalidShippingRate]
                  (Nat.le_refl _)) as (H1 & H2 & more & H3);
        [now repeat constructor|].
      destruct (Hend s _ _ H2) as (Ha & Hb & Hc).
      split; [exact Ha|]. split; [exact Hb|]. split; [exact Hc|].
      exists 0.1085. split; [|exact H1].
      split; [reflexivity|]. exists more. exact H3.
Qed.

End ConsoleProperties.

(** The manual entry of an order in euros at 1.6: the currency and the
    rate are asked for until they are accepted, the empty lines stand
    for 0, and the mistyped quantity costs the first item one more
    turn. *)
Example manual_entry_of_an_order_in_euros :
  manual_data_entry_with_currency sample_float sample_int sample_strip
    sample_upper "30000010" sample_manual_input
  = (Ok (mkOrderData "30000010"
           [ mkItem "Plate 1x2" 3 (2.25 * 1.6) (3 * 2.25 * 1.6);
             mkItem "Tile 1x1" 12 (0.5 * 1.6) (12 * 0.5 * 1.6) ]
           (12 * 1.6) (4.6 * 1.6) (0 * 1.6) (0 * 1.6) (0 * 1.6) (0 * 1.6)
           (12 * 1.6 + 4.6 * 1.6 + 0 * 1.6 + 0 * 1.6 + 0 * 1.6 - 0 * 1.6)
           "EUR" 1.6),
     []).
Proof. vm_compute. reflexivity. Qed.

(** A quantity of 310 digits breaks the entry off with [OverflowError],
    and the lines after its price are left. *)
Example manual_entry_with_a_huge_quantity :
  manual_data_entry_with_currency sample_float sample_int sample_strip
    sample_upper "30000011" sample_restarted_input
  = (Raise OverflowError,
     [ "AUD"; "3"; "0.5"; ""; ""; ""; ""; "Tile 1x1"; "12"; "0.5"; "" ]%string).
Proof. vm_compute. reflexivity. Qed.

Lemma manual_entry_order_witness :
  exists o,
    manual_data_entry_with_currency sample_float sample_int sample_strip
      sample_upper "30000010" sample_manual_input = (Ok o, [])
    /\ order_number o = "30000010"%string
    /\ 0 < exchange_rate o
    /\ Forall consistent_line (items_data o).
Proof.
  eexists. split; [vm_compute; reflexivity|].
  destruct (manual_entry_order sample_float sample_int sample_strip
              sample_upper "30000010" sample_manual_input) as [_ H].
  destruct (H _ [] ltac:(vm_compute; reflexivity))
    as (H1 & _ & H3 & _ & _ & _ & H6 & _).
  split; [exact H1|]. split; [exact H3 | exact H6].
Defined.

(** A session of the calculator at 12 %. *)
Example calculator_session :
  interactive_calculator sample_float sample_int sample_strip sample_lower
    sample_calculator_input
  = ([ InvalidNumbers;
       Results 2.2500 0.2700 2.5200 7.56;
       Results 0.5000 0.0600 0.5600 6.72 ],
     Ok tt).
Proof. vm_compute. reflexivity. Qed.

(** A quantity of 0 ends the session with an error. *)
Example calculator_session_with_quantity_zero :
  interactive_calculator sample_float sample_int sample_strip sample_lower
    [ "0.12"; "Plate 1x2"; "0"; "2.25"; "Tile 1x1"; "12"; "0.5"; "quit" ]%string
  = ([], Raise ZeroDivisionError).
Proof. vm_compute. reflexivity. Qed.

(** So does a quantity of 310 digits, after the results of the item
    before it. *)
Example calculator_session_with_a_huge_quantity :
  interactive_calculator sample_float sample_int sample_strip sample_lower
    [ "0.12"; "Plate 1x2"; "3"; "2.25"; "Tile 1x1"; huge_quantity; "0.5";
      "quit" ]%string
  = ([ Results 2.2500 0.2700 2.5200 7.56 ], Raise OverflowError).
Proof. vm_compute. reflexivity. Qed.

(** ** Lines that are quantity times unit price *)

(** On an order whose line totals are quantity times unit price, as
    manual entry builds them, every item is marked up by the same
    factor: its true unit cost is its unit price times (1 + rate),
    whatever its quantity, and what is distributed is the rate times the
    goods at their unit prices.  It is the whole of the additional costs
    when the subtotal is that sum of the goods. *)
Theorem consistent_lines_are_marked_up_alike (o : OrderData) :
  valid_order o = true ->
  Forall consistent_line (items_data o) ->
  exists r,
    outcome (calculate_costs_from_data o) = Ok r
    /\ Forall (fun a =>
                 true_unit_cost a
                 == unit_price (alloc_item a) * (1 + report_rate r))
              (report_rows r)
    /\ report_distributed r == goods_total (items_data o) * report_rate r
    /\ (0 < subtotal o -> subtotal o == goods_total (items_data o) ->
        report_distributed r == report_costs r).
Proof.
  intros Hv Hc.
  destruct (calculate_costs_from_data_ok o Hv)
    as (r & Hrun & Hcosts & Hrate & Hrows & Hd & _).
  exists r. split; [exact Hrun|].
  assert (Hdist : report_distributed r
                  == goods_total (items_data o) * report_rate r).
  { rewrite Hd, Hrate, distributed_scaled.
    now rewrite (line_totals_are_goods _ Hc). }
  split; [|split; [exact Hdist|]].
  - rewrite Hrows, Hrate. apply Forall_forall. intros a Ha.
    apply in_map_iff in Ha. destruct Ha as (it & <- & Hin).
    pose proof (valid_order_nonzero o Hv) as Hq.
    rewrite Forall_forall in Hq, Hc.
    specialize (Hq it Hin). specialize (Hc it Hin).
    unfold consistent_line in Hc. unfold nonzero_qty in Hq. simpl.
    rewrite Hc. field. now rewrite inject_Z_zero.
  - intros Hs Hg. rewrite Hdist, Hrate, Hcosts, <- Hg.
    unfold rate_of. apply Qlt_bool_iff in Hs. rewrite Hs.
    apply Qlt_bool_iff in Hs. field. lra.
Qed.

Lemma consistent_lines_are_marked_up_alike_witness :
  valid_order order_29079613_aud = true
  /\ Forall consistent_line (items_data order_29079613_aud)
  /\ exists r,
       outcome (calculate_costs_from_data order_29079613_aud) = Ok r
       /\ report_distributed r == report_costs r.
Proof.
  assert (Hv : valid_order order_29079613_aud = true) by reflexivity.
  assert (Hc : Forall consistent_line (items_data order_29079613_aud))
    by (repeat constructor).
  split; [exact Hv|]. split; [exact Hc|].
  destruct (consistent_lines_are_marked_up_alike order_29079613_aud Hv Hc)
    as (r & Hrun & _ & _ & Hd).
  exists r. split; [exact Hrun|]. apply Hd; reflexivity.
Defined.

(** * Legacy mode *)

Lemma known_order_is_valid (pdf_path : string) (o : OrderData) :
  extract_bricklink_data_from_pdf pdf_path = Some o ->
  In (order_number_of pdf_path) known_invoices
  /\ order_number o = order_number_of pdf_path
  /\ valid_order o = true.
Proof.
  unfold extract_bricklink_data_from_pdf.
  destruct (read_actual_pdf_content_cases pdf_path)
    as [[Hnone _] | (Hin & c & Hsome & Hc)].
  - rewrite Hnone. discriminate.
  - rewrite Hsome. unfold parse_actual_pdf_content. intro H.
    injection H as <-. split; [exact Hin|]. split; [reflexivity|].
    simpl in Hc. destruct Hc as [<- | [<- | [<- | [<- | []]]]]; reflexivity.
Qed.

Lemma unknown_order_is_not_read (pdf_path : string) :
  extract_bricklink_data_from_pdf pdf_path = None ->
  ~ In (order_number_of pdf_path) known_invoices.
Proof.
  unfold extract_bricklink_data_from_pdf.
  destruct (read_actual_pdf_content_cases pdf_path)
    as [[_ Hnot] | (_ & c & Hsome & _)]; [auto|].
  rewrite Hsome. unfold parse_actual_pdf_content. discriminate.
Qed.

Lemma run_with_a_rate (o : OrderData) :
  ~ exchange_rate o == 0 ->
  (Forall nonzero_qty (items_data o) ->
   exists r, outcome (calculate_costs_from_data o) = Ok r)
  /\ (Exists (fun it => qty it = 0%Z) (items_data o) ->
      outcome (calculate_costs_from_data o) = Raise ZeroDivisionError).
Proof.
  intro Hx. unfold calculate_costs_from_data. rewrite additional_cost_rate_ok.
  split.
  - intro Hq. rewrite allocation_loop_ok by exact Hq.
    destruct (create_csv_output_ok o (rate_of o) (total_items (items_data o))
                (total_additional_costs o) Hx Hq) as (f & sm & Hf & _).
    rewrite Hf. simpl. eauto.
  - intro Hz. rewrite allocation_loop_zero by exact Hz. reflexivity.
Qed.

Lemma known_order_fits (pdf_path : string) (o : OrderData) :
  extract_bricklink_data_from_pdf pdf_path = Some o ->
  Forall (fun it => fits_float (qty it) = true) (items_data o).
Proof.
  unfold extract_bricklink_data_from_pdf.
  destruct (read_actual_pdf_content_cases pdf_path)
    as [[Hnone _] | (Hin & c & Hsome & Hc)].
  - rewrite Hnone. discriminate.
  - rewrite Hsome. unfold parse_actual_pdf_content. intro H.
    injection H as <-.
    simpl in Hc. destruct Hc as [<- | [<- | [<- | [<- | []]]]];
      cbn [items_data]; repeat constructor.
Qed.

Lemma converted_quantities_fit (r : Q) (o : OrderData) :
  Forall (fun it => fits_float (qty it) = true) (items_data o) ->
  Forall (fun it => fits_float (qty it) = true) (items_data (convert_order r o)).
Proof.
  intro H. apply Forall_forall. intros it' Hin.
  apply in_map_iff in Hin. destruct Hin as (it & <- & Hin).
  rewrite Forall_forall in H. exact (H it Hin).
Qed.

Section LegacyModeProperties.

Variable py_float : string -> option Q.
Variable py_int : string -> option Z.
Variable strip : string -> string.
Variable upper : string -> string.
Variable make_directory : result unit.
Variable open_file : string -> result unit.
Variable write_header : list string -> result unit.
Variable write_row : csv_row -> result unit.
Variable close_file : result unit.
Variable timestamp : string.

Abbreviation manual := (manual_data_entry_with_currency py_float py_int strip upper).
Abbreviation convert_typed := (apply_currency_conversion_typed py_float).
Abbreviation read_file := (read_pdf_file py_float py_int strip upper).
Abbreviation legacy :=
  (legacy_mode py_float py_int strip upper make_directory open_file
     write_header write_row close_file timestamp).
Abbreviation run_on_disk :=
  (OnDisk.calculate_costs_from_data make_directory open_file write_header
     write_row close_file timestamp).
Abbreviation files_written :=
  (OnDisk.files_written make_directory open_file write_header write_row
     close_file timestamp).
Abbreviation raised_by_a_file :=
  (OnDisk.raised_by_a_file make_directory open_file write_header write_row
     close_file timestamp).

Lemma manual_entry_without_lines (number : string) :
  manual number [] = (Raise EOFError, []).
Proof. reflexivity. Qed.

Lemma read_pdf_file_cases (pdf_path : string) (inputs : list string)
    (o : OrderData) :
  fst (read_file pdf_path inputs) = Some o ->
  (exists parsed rest,
     extract_bricklink_data_from_pdf pdf_path = Some parsed
     /\ convert_typed inputs parsed = Ok (o, rest))
  \/ (extract_bricklink_data_from_pdf pdf_path = None
      /\ (fst (manual (order_number_of pdf_path) inputs) = Ok o
          \/ exists rest,
               manual (order_number_of pdf_path) inputs
               = (Raise OverflowError, rest)
               /\ fst (manual (order_number_of pdf_path) rest) = Ok o)).
Proof.
  unfold read_pdf_file, parse_bricklink_pdf_text, read_pdf_with_read_tool.
  destruct (extract_bricklink_data_from_pdf pdf_path) as [parsed|].
  - destruct (convert_typed inputs parsed) as [[o' rest']|e] eqn:E.
    + cbn [fst]. intro H. injection H as <-. left. eauto.
    + rewrite manual_entry_without_lines. discriminate.
  - pose proof (manual_entry_steps py_float py_int strip upper
                  (order_number_of pdf_path) inputs) as Hsteps.
    destruct (manual (order_number_of pdf_path) inputs) as [[o'|e] rest] eqn:E.
    + cbn [fst]. intro H. injection H as <-. right. split; [reflexivity|].
      now left.
    + destruct (manual (order_number_of pdf_path) rest) as [[o''|e'] rest']
        eqn:E2; [|discriminate].
      cbn [fst]. intro H. injection H as <-. right. split; [reflexivity|].
      right. exists rest.
      destruct Hsteps as [[_ ->] | [-> _]].
      * rewrite manual_entry_without_lines in E2. discriminate.
      * rewrite E2. auto.
Qed.

(** In legacy mode an order reaches [calculate_costs_from_data] with the
    order number of the file name, an exchange rate greater than zero,
    so that no division by the rate fails, and quantities that [float]
    holds.  For one of the four invoices that the program knows it is
    the order it carries, as [apply_currency_conversion] returns it at
    the rate typed: its quantities are positive.  For every other file it is the order typed in manual
    entry, whose line totals are quantity times unit price; when a
    quantity too large for a [float] has broken the entry off, it is the
    order of a second entry, typed on the lines that were left.  A
    quantity of 0, which manual entry accepts, ends the run with
    [ZeroDivisionError].  When no quantity is 0 the computation succeeds
    and the run gives its report exactly when the file system takes the
    file, whose name carries the currency typed; every exception is then
    one that the file system raised.  Without an order nothing is
    computed. *)
Theorem legacy_mode_order_and_run (pdf_path : string) (inputs : list string) :
  (fst (read_file pdf_path inputs) = None -> legacy pdf_path inputs = None)
  /\ forall o,
       fst (read_file pdf_path inputs) = Some o ->
       legacy pdf_path inputs = Some (run_on_disk o)
       /\ order_number o = order_number_of pdf_path
       /\ 0 < exchange_rate o
       /\ Forall (fun it => fits_float (qty it) = true) (items_data o)
       /\ (In (order_number_of pdf_path) known_invoices ->
           valid_order o = true /\ Forall nonzero_qty (items_data o)
           /\ exists parsed rest,
                extract_bricklink_data_from_pdf pdf_path = Some parsed
                /\ convert_typed inputs parsed = Ok (o, rest))
       /\ (~ In (order_number_of pdf_path) known_invoices ->
           Forall consistent_line (items_data o)
           /\ (fst (manual (order_number_of pdf_path) inputs) = Ok o
               \/ exists rest,
                    manual (order_number_of pdf_path) inputs
                    = (Raise OverflowError, rest)
                    /\ fst (manual (order_number_of pdf_path) rest) = Ok o))
       /\ (Exists (fun it => qty it = 0%Z) (items_data o) ->
           outcome (run_on_disk o) = Raise ZeroDivisionError
           /\ ~ In (order_number_of pdf_path) known_invoices)
       /\ (Forall nonzero_qty (items_data o) ->
           exists r,
             outcome (calculate_costs_from_data o) = Ok r
             /\ (outcome (run_on_disk o) = Ok r
                 <-> make_directory = Ok tt
                     /\ open_file (OnDisk.filename timestamp o) = Ok tt
                     /\ write_header (fieldnames (csv_file r)) = Ok tt
                     /\ Forall (fun row => write_row row = Ok tt)
                               (csv_rows (csv_file r))
                     /\ close_file = Ok tt)
             /\ forall e,
                  outcome (run_on_disk o) = Raise e ->
                  make_directory = Raise e
                  \/ open_file (OnDisk.filename timestamp o) = Raise e
                  \/ (exists fieldnames, write_header fieldnames = Raise e)
                  \/ (exists row, write_row row = Raise e)
                  \/ close_file = Raise e).
Proof.
  split.
  - intro H. unfold legacy_mode. now rewrite H.
  - intros o H.
    assert (Hleg : legacy pdf_path inputs = Some (run_on_disk o))
      by (unfold legacy_mode; now rewrite H).
    split; [exact Hleg|].
    destruct (run_on_disk_cases make_directory open_file write_header write_row
                close_file timestamp o) as (Hdisk & Hraise & Hzero_disk).
    assert (Hrun : ~ exchange_rate o == 0 ->
                   Forall nonzero_qty (items_data o) ->
                   exists r,
                     outcome (calculate_costs_from_data o) = Ok r
                     /\ (outcome (run_on_disk o) = Ok r
                         <-> files_written o (csv_file r))
                     /\ forall e,
                          outcome (run_on_disk o) = Raise e ->
                          raised_by_a_file o e).
    { intros Hx Hq. destruct (run_with_a_rate o Hx) as [Hok _].
      destruct (Hok Hq) as [r Hr]. exists r. split; [exact Hr|]. split.
      - split.
        + intro Hd. exact (proj2 (proj1 (Hdisk r) Hd)).
        + intro Hw. apply Hdisk. split; [exact Hr | exact Hw].
      - intros e He. destruct (Hraise e He) as [Hp | Hf]; [|exact Hf].
        congruence. }
    destruct (read_pdf_file_cases _ _ _ H)
      as [(parsed & rest & Hex & Hconv) | (Hex & Hman)].
    + destruct (known_order_is_valid _ _ Hex) as (Hin & Hnum & Hv).
      pose proof (known_order_fits _ _ Hex) as Hfit.
      assert (Hv' : valid_order o = true /\ order_number o = order_number parsed
                    /\ Forall (fun it => fits_float (qty it) = true)
                              (items_data o)).
      { pose proof Hconv as Hc. unfold apply_currency_conversion_typed in Hc.
        destruct (apply_currency_conversion (map (typed_entry py_float) inputs)
                    parsed) as [[o' rest']|e] eqn:E; [|discriminate].
        injection Hc as -> _.
        destruct (is_AUD (original_currency parsed)) eqn:Ecur.
        - unfold apply_currency_conversion in E. rewrite Ecur in E. simpl in E.
          injection E as <- _. auto.
        - destruct (conversion_rate_is_positive _ _ _ _ Ecur E)
            as (r & Hr & ->).
          split; [now apply valid_order_convert|].
          split; [reflexivity | now apply converted_quantities_fit]. }
      destruct Hv' as (Hvo & Hno & Hfo).
      pose proof (valid_order_exchange_rate o Hvo) as Hpos.
      assert (Hx : ~ exchange_rate o == 0) by lra.
      pose proof (valid_order_nonzero o Hvo) as Hq.
      split; [now rewrite Hno|]. split; [exact Hpos|]. split; [exact Hfo|].
      split; [intros _; split; [exact Hvo|]; split; [exact Hq | eauto]|].
      split; [intro Hnot; contradiction|].
      split; [|exact (Hrun Hx)].
      intro Hz. exfalso.
      apply Exists_exists in Hz. destruct Hz as (it & Hit & Hz).
      rewrite Forall_forall in Hq. exact (Hq it Hit Hz).
    + pose proof (unknown_order_is_not_read _ Hex) as Hnot.
      assert (Ho : exists typed rest,
                     manual (order_number_of pdf_path) typed = (Ok o, rest)).
      { destruct Hman as [Hm | (rest & _ & Hm)].
        - exists inputs.
          destruct (manual (order_number_of pdf_path) inputs) as [r rest'].
          cbn [fst] in Hm. subst r. eauto.
        - exists rest.
          destruct (manual (order_number_of pdf_path) rest) as [r rest'].
          cbn [fst] in Hm. subst r. eauto. }
      destruct Ho as (typed & rest & Ho).
      pose proof (manual_entry_steps py_float py_int strip upper
                    (order_number_of pdf_path) typed) as Hsteps.
      rewrite Ho in Hsteps.
      destruct Hsteps as (items & _ & _ & _ & _ & Hpos & _ & Hi & Hnum & Hitems & _).
      destruct (converted_lines_are_consistent items (exchange_rate o)
                  (original_currency o) Hi) as [Hcons Hfit].
      rewrite <- Hitems in Hcons, Hfit.
      assert (Hx : ~ exchange_rate o == 0) by lra.
      split; [exact Hnum|]. split; [exact Hpos|]. split; [exact Hfit|].
      split; [intro Hin; contradiction|].
      split; [intros _; split; [exact Hcons | exact Hman]|].
      split; [|exact (Hrun Hx)].
      intro Hz. split; [exact (Hzero_disk Hz) | exact Hnot].
Qed.

End LegacyModeProperties.

Lemma legacy_mode_order_and_run_witness :
  exists o r,
    fst (read_pdf_file sample_float sample_int sample_strip sample_upper
           "scan_0042.pdf" sample_manual_input) = Some o
    /\ order_number o = "unknown"%string
    /\ 0 < exchange_rate o
    /\ outcome (OnDisk.calculate_costs_from_data (Ok tt) sample_open
                  sample_write_header sample_write_row (Ok tt)
                  sample_timestamp o) = Ok r.
Proof.
  eexists.
  destruct (legacy_mode_order_and_run sample_float sample_int sample_strip
              sample_upper (Ok tt) sample_open sample_write_header
              sample_write_row (Ok tt) sample_timestamp
              "scan_0042.pdf" sample_manual_input)
    as [_ H].
  destruct (H _ ltac:(vm_compute; reflexivity))
    as (_ & H1 & H2 & _ & _ & _ & _ & H7).
  destruct H7 as (r & _ & Hr & _); [repeat constructor; discriminate|].
  exists r. split; [vm_compute; reflexivity|].
  split; [exact H1|]. split; [exact H2|].
  apply Hr. split; [reflexivity|]. split; [vm_compute; reflexivity|].
  split; [reflexivity|]. split; [|reflexivity].
  apply Forall_forall. intros row _. reflexivity.
Defined.

(** The known invoice 29079613 in legacy mode, at the rate 1.6: the
    words typed before the rate are asked for again. *)
Example legacy_mode_on_a_known_invoice :
  read_pdf_file sample_float sample_int sample_strip sample_upper
    "29079613.pdf" ["rate"; "1.6"; "left"]%string
  = (Some order_29079613_aud, ["left"%string]).
Proof. vm_compute. reflexivity. Qed.

(** A quantity of 0 typed in manual entry ends the run with an error. *)
Example legacy_mode_with_a_typed_zero :
  option_map outcome
    (legacy_mode sample_float sample_int sample_strip sample_upper
       (Ok tt) sample_open sample_write_header sample_write_row (Ok tt)
       sample_timestamp "scan_0042.pdf"
       [ "AUD"; "12"; "4.6"; ""; ""; ""; ""; "Plate 1x2"; "0"; "2.25"; "" ]%string)
  = Some (Raise ZeroDivisionError).
Proof. vm_compute. reflexivity. Qed.

(** A quantity of 310 digits breaks the first entry off; the order is
    the one of the second entry, typed on the lines that were left. *)
Example legacy_mode_after_a_huge_quantity :
  read_pdf_file sample_float sample_int sample_strip sample_upper
    "scan_0042.pdf" sample_restarted_input
  = (Some (mkOrderData "unknown" [ mkItem "Tile 1x1" 12 0.5 (12 * 0.5) ]
             3 0.5 0 0 0 0 (3 + 0.5 + 0 + 0 + 0 - 0) "AUD" 1),
     []).
Proof. vm_compute. reflexivity. Qed.

(** The currency code A/B passes the prompt, and the file of the order
    cannot be opened. *)
Example legacy_mode_with_a_slash_in_the_currency :
  option_map outcome
    (legacy_mode sample_float sample_int sample_strip sample_upper
       (Ok tt) sample_open sample_write_header sample_write_row (Ok tt)
       sample_timestamp "scan_0042.pdf"
       [ "A/B"; "1.6"; "12"; "4.6"; ""; ""; ""; "";
         "Plate 1x2"; "3"; "2.25"; "" ]%string)
  = Some (Raise FileNotFoundError).
Proof. vm_compute. reflexivity. Qed.

(** * Choosing a file *)

Section SelectFileProperties.

Variable strip : string -> string.
Variable isdigit : string -> bool.
Variable py_int : string -> option Z.
Variable path_exists : string -> bool.

Abbreviation choose := (select_loop strip isdigit py_int path_exists).
Abbreviation select := (select_pdf_file strip isdigit py_int path_exists).

Lemma select_loop_spec (pdf_files inputs : list string) :
  match choose pdf_files inputs with
  | Ok (f, rest) =>
      In f pdf_files \/ (endswith f ".pdf" = true /\ path_exists f = true)
  | Raise e => e = EOFError
  end.
Proof.
  induction inputs as [|s rest IH]; simpl; [reflexivity|].
  destruct (isdigit (strip s)).
  - destruct (py_int (strip s)) as [n|]; [|exact IH].
    destruct ((0 <=? n - 1)%Z && (n - 1 <? Z.of_nat (List.length pdf_files))%Z)
      eqn:E; [|exact IH].
    destruct (nth_error pdf_files (Z.to_nat (n - 1))) as [f|] eqn:En.
    + left. eapply nth_error_In. exact En.
    + exfalso. apply nth_error_None in En.
      apply andb_true_iff in E. destruct E as [E1 E2].
      apply Z.leb_le in E1. apply Z.ltb_lt in E2. lia.
  - destruct (endswith (strip s) ".pdf") eqn:Es; simpl; [|exact IH].
    destruct (existsb (String.eqb (strip s)) pdf_files) eqn:Ex.
    + left. apply existsb_exists in Ex. destruct Ex as (x & Hx & E).
      apply String.eqb_eq in E. now subst x.
    + destruct (path_exists (strip s)) eqn:Ep; [|exact IH]. right. auto.
Qed.

(** [select_pdf_file] returns no file exactly when the directory has no
    PDF file, and then without reading a line.  Otherwise it asks until
    it can return a file, and only the end of the lines stops it: the
    file returned is one of those listed, or a name that was typed, ends
    in [.pdf] and exists.  The number typed for a listed file is its
    place in the list, counted from 1: 0 and the numbers above the
    length of the list are asked again. *)
Theorem select_pdf_file_returns_a_file (pdf_files inputs : list string) :
  (select pdf_files inputs = Ok (None, inputs) <-> pdf_files = [])
  /\ (forall rest, select pdf_files inputs = Ok (None, rest) -> pdf_files = [])
  /\ (forall f rest,
        select pdf_files inputs = Ok (Some f, rest) ->
        In f pdf_files \/ (endswith f ".pdf" = true /\ path_exists f = true))
  /\ (forall e, select pdf_files inputs = Raise e -> e = EOFError)
  /\ (forall s rest before f after,
        inputs = s :: rest ->
        pdf_files = before ++ f :: after ->
        isdigit (strip s) = true ->
        py_int (strip s) = Some (Z.of_nat (S (List.length before))) ->
        select pdf_files inputs = Ok (Some f, rest))
  /\ (forall s rest n,
        pdf_files <> [] ->
        inputs = s :: rest ->
        isdigit (strip s) = true ->
        py_int (strip s) = Some n ->
        (n <= 0 \/ Z.of_nat (List.length pdf_files) < n)%Z ->
        select pdf_files inputs = select pdf_files rest).
Proof.
  unfold select_pdf_file.
  pose proof (select_loop_spec pdf_files inputs) as Hloop.
  split; [|split; [|split; [|split; [|split]]]].
  - destruct pdf_files as [|f0 fs]; [tauto|].
    split; [|discriminate].
    destruct (choose (f0 :: fs) inputs) as [[f rest]|e]; discriminate.
  - intros rest. destruct pdf_files as [|f0 fs]; [reflexivity|].
    destruct (choose (f0 :: fs) inputs) as [[f r]|e]; discriminate.
  - intros f rest. destruct pdf_files as [|f0 fs]; [discriminate|].
    destruct (choose (f0 :: fs) inputs) as [[f' r]|e]; [|discriminate].
    simpl. intro H. injection H as <- _. exact Hloop.
  - intros e. destruct pdf_files as [|f0 fs]; [discriminate|].
    destruct (choose (f0 :: fs) inputs) as [[f' r]|e']; [discriminate|].
    simpl. intro H. injection H as <-. exact Hloop.
  - intros s rest before f after -> -> Hd Hn.
    assert (Hne : exists x l, before ++ f :: after = x :: l)
      by (destruct before; simpl; eauto).
    destruct Hne as (x & l & Hxl). rewrite Hxl. rewrite <- Hxl.
    simpl select_loop. rewrite Hd, Hn.
    replace (Z.of_nat (S (List.length before)) - 1)%Z
      with (Z.of_nat (List.length before)) by lia.
    assert (Hin : ((0 <=? Z.of_nat (List.length before))%Z
                   && (Z.of_nat (List.length before)
                       <? Z.of_nat (List.length (before ++ f :: after)))%Z)
                  = true).
    { apply andb_true_iff. split; [apply Z.leb_le; lia|].
      apply Z.ltb_lt. rewrite length_app. simpl. lia. }
    rewrite Hin, Nat2Z.id.
    rewrite nth_error_app2 by lia. rewrite Nat.sub_diag. reflexivity.
  - intros s rest n Hne -> Hd Hn Hout.
    destruct pdf_files as [|f0 fs]; [congruence|].
    cbn [select_loop bind fst snd]. rewrite Hd, Hn.
    assert (Hno : ((0 <=? n - 1)%Z
                   && (n - 1 <? Z.of_nat (List.length (f0 :: fs)))%Z) = false).
    { apply andb_false_iff. destruct Hout as [H | H].
      - left. apply Z.leb_gt. lia.
      - right. apply Z.ltb_ge. lia. }
    now rewrite Hno.
Qed.

End SelectFileProperties.

Lemma select_pdf_file_returns_a_file_witness :
  select_pdf_file sample_strip sample_isdigit sample_choice sample_exists
    sample_directory ["2"; "left"]%string
  = Ok (Some "29079613.pdf"%string, ["left"%string]).
Proof.
  destruct (select_pdf_file_returns_a_file sample_strip sample_isdigit
              sample_choice sample_exists sample_directory
              ["2"; "left"]%string) as (_ & _ & _ & _ & H & _).
  exact (H "2"%string ["left"%string] ["29055780.pdf"%string]
           "29079613.pdf"%string [] eq_refl eq_refl eq_refl eq_refl).
Defined.

(** A choice in a directory of two files: 0, 3 and a name that does not
    exist are asked again, and a file in another directory is taken. *)
Example choice_of_a_file :
  select_pdf_file sample_strip sample_isdigit sample_choice sample_exists
    sample_directory
    [ "0"; "3"; "29154233.pdf"; "first"; "old/29154233.pdf"; "left" ]%string
  = Ok (Some "old/29154233.pdf"%string, ["left"%string]).
Proof. vm_compute. reflexivity. Qed.

(** * The currency codes of the master file *)

Lemma detect_currency_codes (lower : string -> string) (text : string) (c : string) :
  detect_currency lower text = Some c -> In c currencies /\ c <> "AUD"%string.
Proof.
  unfold detect_currency.
  destruct (find _ currencies) as [curr|] eqn:E.
  - intro H. injection H as <-. apply find_some in E. destruct E as [E _].
    split; [exact E|]. simpl in E. intuition (subst; discriminate).
  - destruct (contains euro_sign text);
      [intro H; injection H as <-; split; [simpl; tauto | discriminate]|].
    destruct (contains pound_sign text);
      [intro H; injection H as <-; split; [simpl; tauto | discriminate]|].
    destruct (contains "kr" (lower text));
      [intro H; injection H as <-; split; [simpl; tauto | discriminate]|].
    discriminate.
Qed.

Section BatchCurrency.

Variable lower : string -> string.
Variable pdf_text : string -> result string.
Variable order_number_in : string -> string -> string.
Variable order_date_in : string -> string.
Variable extract_currency_and_amounts_advanced :
  string -> result (option string * Batch.Amounts).
Variable extract_items_from_text_advanced : string -> result (list Batch.Item).

(** The currency that [extract_currency_and_amounts_advanced] returns is
    the one its first part finds. *)
Hypothesis currency_is_detected :
  forall text found amounts,
    extract_currency_and_amounts_advanced text = Ok (found, amounts) ->
    found = detect_currency lower text.

Abbreviation rows_and_log :=
  (Batch.process_single_pdf_advanced pdf_text order_number_in order_date_in
     extract_currency_and_amounts_advanced extract_items_from_text_advanced).

(** The currency of a row of the master file is one of the codes AU, US,
    CA, SEK, EUR, GBP, DK and NZ, which the text of its invoice shows, or
    it is AUD, which is no such code: AUD stands on the rows of the
    invoices in whose text no currency was found, and for these the
    warning is printed.  The rows of invoices in Australian dollars are
    thus under AU, or under AUD when the currency was not found, and the
    summary counts the two apart. *)
Theorem currency_codes_of_the_rows (pdf_file : string) (r : Batch.ProcessedItem) :
  In r (fst (rows_and_log pdf_file)) ->
  exists text,
    pdf_text pdf_file = Ok text
    /\ ((detect_currency lower text = Some (Batch.Currency r)
         /\ In (Batch.Currency r) currencies
         /\ Batch.Currency r <> "AUD"%string
         /\ ~ In Batch.CurrencyWarning (snd (rows_and_log pdf_file)))
        \/ (detect_currency lower text = None
            /\ Batch.Currency r = "AUD"%string
            /\ In Batch.CurrencyWarning (snd (rows_and_log pdf_file)))).
Proof.
  unfold Batch.process_single_pdf_advanced, Batch.process_body.
  destruct (pdf_text pdf_file) as [text|e]; simpl; [|intros []].
  destruct (extract_currency_and_amounts_advanced text) as [[found a]|e] eqn:E;
    simpl; [|intros []].
  apply currency_is_detected in E.
  destruct (extract_items_from_text_advanced text) as [items|e]; simpl;
    [|intros []].
  destruct (process_items_cases (order_number_in text pdf_file)
              (order_date_in text)
              (match found with Some c => c | None => "AUD"%string end) a
              (Batch.calculate_overhead_percentage_advanced a) items)
    as [[_ ->] | [_ ->]]; simpl; [|intros []].
  intro Hin. apply in_map_iff in Hin. destruct Hin as (it & <- & _).
  exists text. split; [reflexivity|]. simpl.
  destruct found as [c|].
  - left. symmetry in E. destruct (detect_currency_codes _ _ _ E) as [H1 H2].
    repeat split; [exact E | exact H1 | exact H2 | intros []].
  - right. repeat split; [now symmetry | now left].
Qed.

End BatchCurrency.

Lemma currency_codes_of_the_rows_witness :
  exists r text,
    In r (fst (Batch.process_single_pdf_advanced sample_text_with_currency
                 sample_number_of sample_order_date sample_detected_amounts
                 sample_items "plain.pdf"))
    /\ sample_text_with_currency "plain.pdf" = Ok text
    /\ detect_currency sample_lower text = None
    /\ Batch.Currency r = "AUD"%string.
Proof.
  eexists.
  assert (Hin : In (Batch.process_item "30000011" "Jan 5, 2025" "AUD"
                      one_part_amounts
                      (Batch.calculate_overhead_percentage_advanced
                         one_part_amounts) one_part_item)
                   (fst (Batch.process_single_pdf_advanced
                           sample_text_with_currency sample_number_of
                           sample_order_date sample_detected_amounts
                           sample_items "plain.pdf")))
    by (left; reflexivity).
  destruct (currency_codes_of_the_rows sample_lower sample_text_with_currency
              sample_number_of sample_order_date sample_detected_amounts
              sample_items
              ltac:(intros text found amounts H; now injection H as <- _)
              "plain.pdf" _ Hin)
    as (text & Ht & [(H1 & _ & H3 & _) | (H1 & H2 & _)]).
  - exfalso. apply H3. reflexivity.
  - exists text. repeat split; [exact Hin | exact Ht | exact H1 | exact H2].
Defined.

(** Two invoices in Australian dollars, one of which shows its amounts
    without the currency: the summary of the master file has a line for
    AU and a line for AUD. *)
Example australian_orders_under_two_codes :
  exists rows s1 s2 log,
    Batch.convert_all_pdfs_to_csv sample_text_with_currency sample_number_of
      sample_order_date sample_detected_amounts sample_items
      true ["a.pdf"%string; "plain.pdf"%string]
    = log ++ [ Batch.MasterCsv rows;
               Batch.Summary "AU" 1 1 s1;
               Batch.Summary "AUD" 1 1 s2;
               Batch.ConversionComplete 2 ].
Proof.
  do 3 eexists.
  exists [ Batch.Banner; Batch.Found 2;
           Batch.Processing "a.pdf";
           Batch.Success 1 "AU"
             (Batch.calculate_overhead_percentage_advanced one_part_amounts);
           Batch.Processing "plain.pdf";
           Batch.CurrencyWarning;
           Batch.Success 1 "AUD"
             (Batch.calculate_overhead_percentage_advanced one_part_amounts) ].
  vm_compute. reflexivity.
Qed.
